(** * Carmen plant monitor: the analysis pipeline

    A shallow embedding of the analysis pipeline of the repository
    (app/nodes/*.py, app/utils/utils.py, app/database.py, app/agent.py)
    and the properties of its specification.

    Modelling conventions.
    - A Python [float] is an exact rational ([Q]); NaN and the infinities
      are outside the model, and so is binary rounding.
    - Text produced by the language model is a Python [str]: a sequence of
      Unicode code points ([pystr], a [list N]).  Identifiers that the code
      only compares for equality (plant ids, dictionary keys, the status
      column) are [string]s.
    - A Python call either returns or raises: [outcome A].  The records a
      function writes with [logger.error] are given beside it, by a
      definition named after it ([soil_moisture_errors] for
      [soil_moisture], and so on); [process_with_pipeline] collects them
      in the order they are written.
    - The database behind SQLAlchemy is a record holding the rows of the
      table [plant_analyses] and the faults the engine will report. *)

From Stdlib Require Import ZArith QArith Qabs Qround Lia Bool List Ascii String.
From stdpp Require Import base option list gmap strings.
From Stdlib Require Import DecimalString.
Import ListNotations.

Local Open Scope Z_scope.

(** ** Exceptions and outcomes *)

Inductive exn_kind : Type :=
  | RuntimeError
  | RecursionError
  | ValueError
  | TypeError
  | AttributeError
  | KeyError
  | JSONDecodeError
  | ValidationError
  | OperationalError.

#[export] Instance exn_kind_eq_dec : EqDecision exn_kind.
Proof. solve_decision. Defined.

(** An exception object: its class and the text [str(e)] renders. *)
Record exn : Type := Exn { exn_class : exn_kind; exn_text : string }.

(** The class a class derives from, among the classes above:
    [RecursionError] is a [RuntimeError], [json.JSONDecodeError] and
    pydantic's [ValidationError] are [ValueError]s. *)
Definition base_class (k : exn_kind) : option exn_kind :=
  match k with
  | RecursionError => Some RuntimeError
  | JSONDecodeError => Some ValueError
  | ValidationError => Some ValueError
  | _ => None
  end.

(** [isinstance(e, k)]: what [except k] asks of a raised exception. *)
Definition is_instance (e : exn) (k : exn_kind) : bool :=
  bool_decide (exn_class e = k)
  || bool_decide (base_class (exn_class e) = Some k).

Inductive outcome (A : Type) : Type :=
  | Return (a : A)
  | Raise (e : exn).
Arguments Return {A} a.
Arguments Raise {A} e.

#[export] Instance outcome_ret : MRet outcome := fun A a => Return a.
#[export] Instance outcome_bind : MBind outcome := fun A B k m =>
  match m with
  | Return a => k a
  | Raise e => Raise e
  end.

(** [try: body  except Exception as e: handler(e)] *)
Definition try_except {A : Type} (body : outcome A) (handler : exn -> outcome A)
  : outcome A :=
  match body with
  | Return a => Return a
  | Raise e => handler e
  end.

(** [try: body  finally: cleanup]: an exception raised by the cleanup
    replaces whatever the body produced. *)
Definition try_finally {A : Type} (body : outcome A) (cleanup : outcome unit)
  : outcome A :=
  match cleanup with
  | Return _ => body
  | Raise e => Raise e
  end.

Definition returns {A : Type} (m : outcome A) : Prop := exists a, m = Return a.

(** [except Exception as e: logger.error(f"<prefix>{str(e)}")]: the record
    a handler writes when the body it guards raises. *)
Definition logged_on_raise {A : Type} (prefix : string) (body : outcome A)
  : list string :=
  match body with
  | Return _ => []
  | Raise e => [(prefix ++ exn_text e)%string]
  end.

(** The decimal digits of a number, as [%d] and f-strings print it. *)
Definition str_of_nat (n : nat) : string :=
  NilEmpty.string_of_uint (Nat.to_uint n).

(** ** Numbers *)

Definition Qltb (x y : Q) : bool := negb (Qle_bool y x).

(** ** The ideal-conditions catalog (app/data/plants_ideal.json) *)

Record Band : Type := { band_min : Q; band_max : Q; band_ideal : Q }.

Record IdealConditions : Type :=
  { ic_soil_moisture : Q; ic_light : Band; ic_temperature : Band }.

Record Tolerances : Type :=
  { tol_soil_moisture : Q; tol_light : Q; tol_temperature : Q }.

Record Plant : Type :=
  { plant_key : string;               (* "id" *)
    ideal_conditions : IdealConditions;
    tolerances : Tolerances }.

(** The catalog file itself is data outside the sources: every definition
    below takes its decoded content as an argument. *)
Definition Catalog := list Plant.

(** app/utils/utils.py, [load_plant_data]: the first entry whose id is the
    requested one; [ValueError] when there is none. *)
Fixpoint load_plant_data (plants : Catalog) (plant_id : string) : outcome Plant :=
  match plants with
  | [] => Raise (Exn ValueError ("Plante " ++ plant_id ++ " non trouvée"))
  | plant :: rest =>
      if String.eqb (plant_key plant) plant_id then Return plant
      else load_plant_data rest plant_id
  end.

(** ** Metric comparators *)

Inductive Status : Type := OK | ALERT.

(** The message templates of the banded comparators, with the numbers each
    one discloses (the rendering of the numbers as text is left out). *)
Inductive BandMessage : Type :=
  | Optimal (value ideal : Q)
  | Acceptable (value lo hi : Q)
  | TooLow (value lo ideal : Q)
  | TooHigh (value hi ideal : Q)
  | OutOfTolerance (value ideal tolerance : Q).

Record BandVerdict : Type :=
  { bv_parameter : string;
    bv_current : Q;
    bv_ideal : Band;
    bv_difference : Q;
    bv_status : Status;
    bv_message : BandMessage }.

(** The body shared, word for word, by [light] and [temperature] once the
    plant entry is loaded (light_node.py and temperature.py, lines 38-76). *)
Definition compare_band (parameter : string) (ideal_conditions : Band)
    (tolerance value : Q) : BandVerdict :=
  let min_v := band_min ideal_conditions in
  let max_v := band_max ideal_conditions in
  let ideal_v := band_ideal ideal_conditions in
  let difference := (value - ideal_v)%Q in
  let status :=
    if Qle_bool min_v value && Qle_bool value max_v then OK
    else if Qle_bool (Qabs difference) tolerance then OK
    else ALERT in
  let message :=
    match status with
    | OK =>
        if Qle_bool (Qabs difference) tolerance then Optimal value ideal_v
        else Acceptable value min_v max_v
    | ALERT =>
        if Qltb value min_v then TooLow value min_v ideal_v
        else if Qltb max_v value then TooHigh value max_v ideal_v
        else OutOfTolerance value ideal_v tolerance
    end in
  {| bv_parameter := parameter;
     bv_current := value;
     bv_ideal := ideal_conditions;
     bv_difference := difference;
     bv_status := status;
     bv_message := message |}.

(** app/nodes/light_node.py *)
Definition light (plants : Catalog) (plant_type : string) (value : Q)
  : outcome BandVerdict :=
  plant ← load_plant_data plants plant_type;
  Return (compare_band "light" (ic_light (ideal_conditions plant))
            (tol_light (tolerances plant)) value).

(** light_node.py, line 83: the record [light] writes before it raises
    again. *)
Definition light_errors (plants : Catalog) (plant_type : string) (value : Q)
  : list string :=
  logged_on_raise ("Error in light node for " ++ plant_type ++ ": ")
    (light plants plant_type value).

(** app/nodes/temperature.py *)
Definition temperature (plants : Catalog) (plant_type : string) (value : Q)
  : outcome BandVerdict :=
  plant ← load_plant_data plants plant_type;
  Return (compare_band "temperature" (ic_temperature (ideal_conditions plant))
            (tol_temperature (tolerances plant)) value).

(** temperature.py, line 83. *)
Definition temperature_errors (plants : Catalog) (plant_type : string) (value : Q)
  : list string :=
  logged_on_raise ("Error in temperature node for " ++ plant_type ++ ": ")
    (temperature plants plant_type value).

Inductive SoilMessage : Type :=
  | SoilOptimal (value ideal : Q)
  | SoilTooHigh (difference ideal : Q)
  | SoilTooLow (difference ideal : Q).

Record SoilVerdict : Type :=
  { sv_current : Q;
    sv_ideal : Q;
    sv_difference : Q;
    sv_status : Status;
    sv_message : SoilMessage }.

(** app/nodes/soil_moisture.py *)
Definition soil_moisture (plants : Catalog) (plant_type : string) (value : Q)
  : outcome SoilVerdict :=
  plant ← load_plant_data plants plant_type;
  let ideal := ic_soil_moisture (ideal_conditions plant) in
  let tolerance := tol_soil_moisture (tolerances plant) in
  let difference := (value - ideal)%Q in
  let status := if Qle_bool (Qabs difference) tolerance then OK else ALERT in
  let message :=
    if Qle_bool (Qabs difference) tolerance then SoilOptimal value ideal
    else if Qltb 0 difference then SoilTooHigh difference ideal
    else SoilTooLow (Qabs difference) ideal in
  Return {| sv_current := value; sv_ideal := ideal; sv_difference := difference;
            sv_status := status; sv_message := message |}.

(** soil_moisture.py, line 66. *)
Definition soil_moisture_errors (plants : Catalog) (plant_type : string) (value : Q)
  : list string :=
  logged_on_raise ("Error in soil_moisture node for " ++ plant_type ++ ": ")
    (soil_moisture plants plant_type value).

(** ** Python strings *)

Definition pystr := list N.

Definition ch (a : ascii) : N := N_of_ascii a.

(** A literal of the source, as a Python string. *)
Definition py (s : string) : pystr := map N_of_ascii (list_ascii_of_string s).

Definition pystr_eqb (a b : pystr) : bool := bool_decide (a = b).

(** [c in s] for a one-character [c] *)
Definition contains (c : N) (s : pystr) : bool := existsb (N.eqb c) s.

(** [s.find(c)]; only called when [c] occurs in [s]. *)
Fixpoint find (c : N) (s : pystr) : nat :=
  match s with
  | [] => 0
  | x :: r => if N.eqb x c then 0 else S (find c r)
  end.

(** [s.rfind(c)]; only called when [c] occurs in [s]. *)
Fixpoint rfind (c : N) (s : pystr) : nat :=
  match s with
  | [] => 0
  | x :: r => if contains c r then S (rfind c r) else 0
  end.

(** [s[start:stop]] for indices within the string; empty when
    [stop <= start]. *)
Definition slice (s : pystr) (start stop : nat) : pystr :=
  firstn (stop - start) (skipn start s).

(** The double quote. *)
Definition dquote : N := 34%N.

(** [str.isspace] on one code point. *)
Definition is_space (c : N) : bool :=
  ((9 <=? c) && (c <=? 13) || (28 <=? c) && (c <=? 32)
   || (c =? 133) || (c =? 160) || (c =? 5760)
   || (8192 <=? c) && (c <=? 8202)
   || (c =? 8232) || (c =? 8233) || (c =? 8239) || (c =? 8287)
   || (c =? 12288))%N.

Fixpoint lstrip (s : pystr) : pystr :=
  match s with
  | [] => []
  | c :: r => if is_space c then lstrip r else s
  end.

Definition rstrip (s : pystr) : pystr := rev (lstrip (rev s)).

(** [s.strip()] *)
Definition strip (s : pystr) : pystr := rstrip (lstrip s).

(** [s.startswith(c)] and [s.endswith(c)] for a one-character [c] *)
Definition startswith (c : N) (s : pystr) : bool :=
  match s with
  | x :: _ => N.eqb x c
  | [] => false
  end.

Definition endswith (c : N) (s : pystr) : bool :=
  match last s with
  | Some x => N.eqb x c
  | None => false
  end.

(** [s[1:-1]] *)
Definition unwrap (s : pystr) : pystr := removelast (tail s).

(** [sep.join(parts)] *)
Fixpoint join (sep : pystr) (parts : list pystr) : pystr :=
  match parts with
  | [] => []
  | [p] => p
  | p :: rest => p ++ sep ++ join sep rest
  end.

(** ** The table [plant_analyses] (app/database.py) *)

(** A [datetime] is a number of seconds on the time line. *)
Definition datetime := Z.

Record PlantAnalysis : Type :=
  { pa_id : nat;
    pa_plant_id : string;
    pa_timestamp : datetime;
    pa_humidity : Q;
    pa_light : Q;
    pa_temperature : Q;
    pa_status : string;
    pa_message : pystr;
    pa_action : pystr }.

(** The store as the code sees it: whether [init_database] has set
    [SessionLocal], the rows in insertion order, and the errors the engine
    is about to report on a read, on a commit and on closing a session. *)
Record Database : Type :=
  { session_local : bool;
    rows : list PlantAnalysis;
    read_fault : option exn;
    write_fault : option exn;
    close_fault : option exn }.

Definition not_initialized : exn :=
  Exn RuntimeError "Database not initialized. Call init_database() first.".

(** [next(get_db())] *)
Definition get_db (db : Database) : outcome unit :=
  if session_local db then Return tt else Raise not_initialized.

Definition db_close (db : Database) : outcome unit :=
  match close_fault db with
  | Some e => Raise e
  | None => Return tt
  end.

(** [ORDER BY timestamp DESC].  SQL does not fix the order of rows with
    equal timestamps; here the row inserted last comes first. *)
Fixpoint insert_desc (r : PlantAnalysis) (sorted : list PlantAnalysis)
  : list PlantAnalysis :=
  match sorted with
  | [] => [r]
  | x :: rest =>
      if pa_timestamp x <? pa_timestamp r then r :: x :: rest
      else x :: insert_desc r rest
  end.

Definition order_by_timestamp_desc (l : list PlantAnalysis) : list PlantAnalysis :=
  foldr insert_desc [] l.

(** [db.query(PlantAnalysis).filter(plant_id == ...).order_by(timestamp.desc())
    .limit(limit).all()] *)
Definition fetch_recent (db : Database) (plant_id : string) (limit : nat)
  : outcome (list PlantAnalysis) :=
  match read_fault db with
  | Some e => Raise e
  | None =>
      Return (firstn limit
                (order_by_timestamp_desc
                   (List.filter (fun r => String.eqb (pa_plant_id r) plant_id)
                      (rows db))))
  end.

(** ** Trend analysis (app/nodes/history_node.py) *)

Definition Qsum (l : list Q) : Q := foldr Qplus 0%Q l.

(** [sum(values) / len(values)] *)
Definition mean (values : list Q) : Q :=
  (Qsum values / inject_Z (Z.of_nat (length values)))%Q.

(** [round(x, ndigits)]: to the nearest multiple of [10^-ndigits], a tie
    going to the even one. *)
Definition round_half_even (x : Q) : Z :=
  let n := Qfloor x in
  let frac := (x - inject_Z n)%Q in
  match (frac ?= 1 # 2)%Q with
  | Lt => n
  | Gt => n + 1
  | Eq => if Z.even n then n else n + 1
  end.

Definition py_round (x : Q) (ndigits : nat) : Q :=
  let scale := inject_Z (10 ^ Z.of_nat ndigits) in
  (inject_Z (round_half_even (x * scale)) / scale)%Q.

Inductive Direction : Type :=
  | insufficient_data
  | stable
  | increasing
  | decreasing.

(** The dictionary [calculate_trend] returns.  Its short form has no
    [change_percent] and no [average_historical], and "N/A" as period;
    the long form gives the period as a number of analyses. *)
Record Trend : Type :=
  { direction : Direction;
    change : Q;
    change_percent : option Q;
    average_historical : option Q;
    period : option nat }.

(** The local variables of [calculate_trend], lines 38-40. *)
Definition avg_historical (values : list Q) : Q := mean values.

Definition raw_change (values : list Q) (current_value : Q) : Q :=
  (current_value - avg_historical values)%Q.

Definition raw_change_percent (values : list Q) (current_value : Q) : Q :=
  if Qltb 0 (avg_historical values)
  then (raw_change values current_value / avg_historical values * 100)%Q
  else 0%Q.

Definition trend_direction (values : list Q) (current_value : Q) : Direction :=
  if Qltb (Qabs (raw_change_percent values current_value)) 2 then stable
  else if Qltb 0 (raw_change values current_value) then increasing
  else decreasing.

Definition calculate_trend (values : list Q) (current_value : Q) : Trend :=
  if (length values <? 2)%nat then
    {| direction := insufficient_data; change := 0%Q;
       change_percent := None; average_historical := None; period := None |}
  else
    {| direction := trend_direction values current_value;
       change := py_round (raw_change values current_value) 2;
       change_percent := Some (py_round (raw_change_percent values current_value) 2);
       average_historical := Some (py_round (avg_historical values) 2);
       period := Some (length values) |}.

(** One entry of [recent_analyses]. *)
Record RecentAnalysis : Type :=
  { ra_timestamp : datetime;
    ra_humidity : Q;
    ra_light : Q;
    ra_temperature : Q;
    ra_status : string }.

Record Averages : Type :=
  { avg_humidity : Q; avg_light : Q; avg_temperature : Q }.

Record SummaryStats : Type :=
  { total_analyses : nat;
    alert_count : nat;
    alert_percentage : Q;
    last_alert_date : option datetime;
    time_span_days : Z;
    average_values : Averages;
    most_recent_date : option datetime }.

(** The two shapes of the [summary] dictionary. *)
Inductive Summary : Type :=
  | SummaryMessage (total : nat) (message : string)
  | SummaryOf (stats : SummaryStats).

Record HistoryResult : Type :=
  { has_history : bool;
    recent_analyses : list RecentAnalysis;
    trends : gmap string Trend;
    summary : Summary }.

Definition recent_of (analysis : PlantAnalysis) : RecentAnalysis :=
  {| ra_timestamp := pa_timestamp analysis;
     ra_humidity := pa_humidity analysis;
     ra_light := pa_light analysis;
     ra_temperature := pa_temperature analysis;
     ra_status := pa_status analysis |}.

Definition is_alert (analysis : PlantAnalysis) : bool :=
  String.eqb (pa_status analysis) "ALERT".

(** [values[-1] if values else None] *)
Definition current_of (values : list Q) : option Q := last values.

(** Lines 138-154: one metric's entry of [trends]. *)
Definition add_trend (key : string) (values : list Q) (trends : gmap string Trend)
  : gmap string Trend :=
  match current_of values with
  | Some current =>
      if (1 <? length values)%nat
      then <[key := calculate_trend (removelast values) current]> trends
      else trends
  | None => trends
  end.

Definition seconds_per_day : Z := 86400.

(** Lines 163-167; [timedelta.days] is the floor of the span in days. *)
Definition days_span (analyses : list PlantAnalysis) : Z :=
  if (1 <? length analyses)%nat then
    match head analyses, last analyses with
    | Some newest, Some oldest =>
        let days := (pa_timestamp newest - pa_timestamp oldest) / seconds_per_day in
        if 0 <? days then days else 1
    | _, _ => 1
    end
  else 1.

(** Lines 98-191: the summary of a non-empty window, newest record first. *)
Definition summarize (analyses : list PlantAnalysis) : HistoryResult :=
  let alerts := List.filter is_alert analyses in
  let humidity_values := rev (map pa_humidity analyses) in
  let light_values := rev (map pa_light analyses) in
  let temperature_values := rev (map pa_temperature analyses) in
  let total := length analyses in
  {| has_history := true;
     recent_analyses := map recent_of analyses;
     trends :=
       add_trend "temperature" temperature_values
         (add_trend "light" light_values
            (add_trend "humidity" humidity_values ∅));
     summary := SummaryOf
       {| total_analyses := total;
          alert_count := length alerts;
          alert_percentage :=
            if (0 <? total)%nat
            then py_round (inject_Z (Z.of_nat (length alerts))
                           / inject_Z (Z.of_nat total) * 100) 1
            else 0%Q;
          last_alert_date := pa_timestamp <$> head alerts;
          time_span_days := days_span analyses;
          average_values :=
            {| avg_humidity :=
                 py_round (if humidity_values is [] then 0 else mean humidity_values) 2;
               avg_light :=
                 py_round (if light_values is [] then 0 else mean light_values) 2;
               avg_temperature :=
                 py_round (if temperature_values is [] then 0
                           else mean temperature_values) 2 |};
          most_recent_date := pa_timestamp <$> head analyses |} |}.

Definition no_history (message : string) : HistoryResult :=
  {| has_history := false;
     recent_analyses := [];
     trends := ∅;
     summary := SummaryMessage 0 message |}.

(** The body of the outer [try] of [history]. *)
Definition history_body (db : Database) (plant_id : string) (limit : nat)
  : outcome HistoryResult :=
  _ ← get_db db;
  try_finally
    (analyses ← fetch_recent db plant_id limit;
     match analyses with
     | [] => Return (no_history "No historical data available")
     | _ :: _ => Return (summarize analyses)
     end)
    (db_close db).

Definition history (db : Database) (plant_id : string) (limit : nat)
  : outcome HistoryResult :=
  try_except (history_body db plant_id limit)
    (fun e => Return (no_history ("Error retrieving history: " ++ exn_text e))).

(** Line 197: the record the handler of [history] writes. *)
Definition history_errors (db : Database) (plant_id : string) (limit : nat)
  : list string :=
  logged_on_raise ("Error retrieving history for plant " ++ plant_id ++ ": ")
    (history_body db plant_id limit).

(** ** Decoded JSON *)

#[local] Set Warnings "-register-all".

Inductive json : Type :=
  | JNull
  | JBool (b : bool)
  | JInt (n : Z)
  | JFloat (lexeme : pystr)
  | JStr (s : pystr)
  | JList (items : list json)
  | JObject (members : list (pystr * json)).

(** [d.get(key)] on the dictionary built from the members in order: a
    repeated key keeps its last value. *)
Fixpoint dict_get (key : pystr) (members : list (pystr * json)) : option json :=
  match members with
  | [] => None
  | (k, v) :: rest =>
      match dict_get key rest with
      | Some later => Some later
      | None => if pystr_eqb k key then Some v else None
      end
  end.

(** ** The Python runtime *)

(** What the code asks of a list element: whether it is a [str], and the
    text an f-string shows for it. *)
Inductive Element : Type :=
  | Text (s : pystr)
  | Other (shown : pystr).

(** What the code asks of the value of [ast.literal_eval]. *)
Inductive Literal : Type :=
  | LitList (items : list Element)
  | LitOther.

(** The parts of the Python runtime and of pydantic that the model leaves
    open: [str()] of a decoded value that is not a string,
    [ast.literal_eval] ([None] when it raises), whether a [str] field
    accepts a value that is not a string ([None] when it is refused), and
    the two limits of the interpreter that [json.loads] meets:
    [sys.get_int_max_str_digits()] (4300 unless configured, 0 for no
    limit) and the number of nested arrays and objects the decoder can
    enter before the recursion limit is reached, which depends on the
    depth of the call stack at the call. *)
Record Runtime : Type :=
  { py_str : json -> pystr;
    literal_eval : pystr -> option Literal;
    coerce_str : json -> option pystr;
    int_max_str_digits : nat;
    json_depth : nat }.

(** ** [json.loads] *)

(** What a scanner does with a text: it reads a value and leaves the rest,
    it raises [JSONDecodeError], or it raises another exception. *)
Inductive parse (A : Type) : Type :=
  | Parsed (a : A) (rest : pystr)
  | Malformed
  | Failed (e : exn)
  | NoFuel.
Arguments Parsed {A} a rest.
Arguments Malformed {A}.
Arguments Failed {A} e.
Arguments NoFuel {A}.

(** [int(text)] on more digits than the limit (longobject.c: the check is
    made above 640 digits, and a limit of 0 disables it). *)
Definition exceeds_int_limit (max_str_digits digits : nat) : bool :=
  ((640 <? digits) && (0 <? max_str_digits) && (max_str_digits <? digits))%nat.

Definition int_too_long (max_str_digits digits : nat) : exn :=
  Exn ValueError
    ("Exceeds the limit (" ++ str_of_nat max_str_digits
     ++ " digits) for integer string conversion: value has "
     ++ str_of_nat digits
     ++ " digits; use sys.set_int_max_str_digits() to increase the limit").

(** The [RecursionError] of the scanner; [what] is "object" or "array". *)
Definition too_deep (what : string) : exn :=
  Exn RecursionError
    ("maximum recursion depth exceeded while decoding a JSON " ++ what
     ++ " from a unicode string").

Definition is_json_space (c : N) : bool :=
  ((c =? 32) || (c =? 9) || (c =? 10) || (c =? 13))%N.

Fixpoint skip_ws (s : pystr) : pystr :=
  match s with
  | [] => []
  | c :: r => if is_json_space c then skip_ws r else s
  end.

Definition is_digit (c : N) : bool := ((48 <=? c) && (c <=? 57))%N.

Definition hexval (c : N) : option N :=
  if is_digit c then Some (c - 48)%N
  else if ((97 <=? c) && (c <=? 102))%N then Some (c - 87)%N
  else if ((65 <=? c) && (c <=? 70))%N then Some (c - 55)%N
  else None.

Definition hex4 (a b c d : N) : option N :=
  match hexval a, hexval b, hexval c, hexval d with
  | Some x, Some y, Some z, Some w => Some (((x * 16 + y) * 16 + z) * 16 + w)%N
  | _, _, _, _ => None
  end.

(** The table BACKSLASH of json.decoder. *)
Definition unescape (c : N) : option N :=
  if (c =? 34)%N then Some 34%N          (* quote *)
  else if (c =? 92)%N then Some 92%N     (* backslash *)
  else if (c =? 47)%N then Some 47%N     (* slash *)
  else if (c =? 98)%N then Some 8%N      (* b: backspace *)
  else if (c =? 102)%N then Some 12%N    (* f: form feed *)
  else if (c =? 110)%N then Some 10%N    (* n: line feed *)
  else if (c =? 114)%N then Some 13%N    (* r: carriage return *)
  else if (c =? 116)%N then Some 9%N     (* t: tab *)
  else None.

Definition high_surrogate (u : N) : bool := ((55296 <=? u) && (u <=? 56319))%N.
Definition low_surrogate (u : N) : bool := ((56320 <=? u) && (u <=? 57343))%N.

Definition combine_surrogates (hi lo : N) : N :=
  (65536 + ((hi - 55296) * 1024 + (lo - 56320)))%N.

(** [scanstring] in strict mode, started after the opening quote; [acc]
    holds the characters read so far, last one first. *)
Fixpoint scanstring (s : pystr) (acc : pystr) : parse pystr :=
  match s with
  | [] => Malformed
  | c :: r =>
      if (c =? 34)%N then Parsed (rev acc) r
      else if (c =? 92)%N then
        match r with
        | [] => Malformed
        | e :: r1 =>
            if (e =? 117)%N then
              match r1 with
              | h1 :: h2 :: h3 :: h4 :: r2 =>
                  match hex4 h1 h2 h3 h4 with
                  | None => Malformed
                  | Some uni =>
                      if high_surrogate uni then
                        match r2 with
                        | b :: u :: r2' =>
                            if ((b =? 92) && (u =? 117))%N then
                              match r2' with
                              | g1 :: g2 :: g3 :: g4 :: r3 =>
                                  match hex4 g1 g2 g3 g4 with
                                  | None => Malformed
                                  | Some uni2 =>
                                      if low_surrogate uni2
                                      then scanstring r3
                                             (combine_surrogates uni uni2 :: acc)
                                      else scanstring r2 (uni :: acc)
                                  end
                              | _ => Malformed
                              end
                            else scanstring r2 (uni :: acc)
                        | _ => scanstring r2 (uni :: acc)
                        end
                      else scanstring r2 (uni :: acc)
                  end
              | _ => Malformed
              end
            else
              match unescape e with
              | Some x => scanstring r1 (x :: acc)
              | None => Malformed
              end
        end
      else if (c <? 32)%N then Malformed
      else scanstring r (c :: acc)
  end.

(** The longest run of decimal digits at the head of [s], and what follows. *)
Fixpoint take_digits (s : pystr) : pystr * pystr :=
  match s with
  | [] => ([], [])
  | c :: r =>
      if is_digit c then let '(ds, rest) := take_digits r in (c :: ds, rest)
      else ([], s)
  end.

(** The value of a run of decimal digits. *)
Definition digits_value (ds : pystr) : Z :=
  fold_left (fun acc d => acc * 10 + Z.of_N (d - 48)) ds 0.

(** The integer part: a single 0, or a non-zero digit and more digits. *)
Definition scan_int_part (s : pystr) : option (pystr * pystr) :=
  match s with
  | [] => None
  | c :: r =>
      if (c =? 48)%N then Some ([c], r)
      else if is_digit c then let '(ds, rest) := take_digits r in Some (c :: ds, rest)
      else None
  end.

(** The optional fraction: a dot and at least one digit. *)
Definition scan_frac (s : pystr) : pystr * pystr :=
  match s with
  | dot :: d :: r =>
      if ((dot =? 46) && is_digit d)%N
      then let '(ds, rest) := take_digits r in (dot :: d :: ds, rest)
      else ([], s)
  | _ => ([], s)
  end.

(** The optional exponent: e or E, an optional sign, at least one digit. *)
Definition scan_exp (s : pystr) : pystr * pystr :=
  match s with
  | e :: r =>
      if ((e =? 101) || (e =? 69))%N then
        match r with
        | d :: r1 =>
            if is_digit d
            then let '(ds, rest) := take_digits r1 in (e :: d :: ds, rest)
            else if ((d =? 43) || (d =? 45))%N then
              match r1 with
              | d1 :: r2 =>
                  if is_digit d1
                  then let '(ds, rest) := take_digits r2 in
                       (e :: d :: d1 :: ds, rest)
                  else ([], s)
              | [] => ([], s)
              end
            else ([], s)
        | [] => ([], s)
        end
      else ([], s)
  | [] => ([], s)
  end.

(** NUMBER_RE of json.scanner: an integer when there is neither fraction
    nor exponent, a float (kept as its lexeme) otherwise.  The integer is
    converted by [int], which refuses a literal of more digits than the
    limit of the interpreter. *)
Definition scan_number (max_str_digits : nat) (s : pystr) : parse json :=
  let '(sign, s1) :=
    match s with
    | c :: r => if (c =? 45)%N then ([c], r) else ([], s)
    | [] => ([], s)
    end in
  match scan_int_part s1 with
  | None => Malformed
  | Some (int_part, s2) =>
      let '(frac, s3) := scan_frac s2 in
      let '(exp, s4) := scan_exp s3 in
      match frac, exp with
      | [], [] =>
          if exceeds_int_limit max_str_digits (length int_part)
          then Failed (int_too_long max_str_digits (length int_part))
          else
            let v := digits_value int_part in
            Parsed (JInt (if sign is [] then v else - v)) s4
      | _, _ => Parsed (JFloat (sign ++ int_part ++ frac ++ exp)) s4
      end
  end.

(** [s[idx:idx+len(word)] == word]: what follows the word, if it is there. *)
Fixpoint strip_prefix (word s : pystr) : option pystr :=
  match word, s with
  | [], _ => Some s
  | w :: word', c :: s' => if (w =? c)%N then strip_prefix word' s' else None
  | _ :: _, [] => None
  end.

(** The constants of the scanner, tried before NUMBER_RE. *)
Definition scan_constant (s : pystr) : option (json * pystr) :=
  match strip_prefix (py "null") s with
  | Some r => Some (JNull, r)
  | None =>
  match strip_prefix (py "true") s with
  | Some r => Some (JBool true, r)
  | None =>
  match strip_prefix (py "false") s with
  | Some r => Some (JBool false, r)
  | None =>
  match strip_prefix (py "NaN") s with
  | Some r => Some (JFloat (py "NaN"), r)
  | None =>
  match strip_prefix (py "Infinity") s with
  | Some r => Some (JFloat (py "Infinity"), r)
  | None =>
  match strip_prefix (py "-Infinity") s with
  | Some r => Some (JFloat (py "-Infinity"), r)
  | None => None
  end end end end end end.

Definition scan_scalar (max_str_digits : nat) (s : pystr) : parse json :=
  match scan_constant s with
  | Some (v, r) => Parsed v r
  | None => scan_number max_str_digits s
  end.

(** [scan_once], [JSONObject] and [JSONArray] of json.decoder.  Entering
    an object or an array takes one level of the [depth] the interpreter
    has left; without any left the scanner raises [RecursionError].  The
    fuel is what makes the definition structural; [json_loads] below
    provides enough of it. *)
Fixpoint scan_once (max_str_digits fuel depth : nat) (s : pystr) : parse json :=
  match fuel with
  | O => NoFuel
  | S fuel' =>
      match s with
      | [] => Malformed
      | c :: r =>
          if (c =? 34)%N then
            match scanstring r [] with
            | Parsed str rest => Parsed (JStr str) rest
            | Malformed => Malformed
            | Failed e => Failed e
            | NoFuel => NoFuel
            end
          else if (c =? 123)%N then
            match depth with
            | O => Failed (too_deep "object")
            | S depth' =>
                match skip_ws r with
                | x :: r1 =>
                    if (x =? 125)%N then Parsed (JObject []) r1
                    else if (x =? 34)%N
                    then scan_members max_str_digits fuel' depth' r1 []
                    else Malformed
                | [] => Malformed
                end
            end
          else if (c =? 91)%N then
            match depth with
            | O => Failed (too_deep "array")
            | S depth' =>
                match skip_ws r with
                | x :: r1 =>
                    if (x =? 93)%N then Parsed (JList []) r1
                    else scan_items max_str_digits fuel' depth' (x :: r1) []
                | [] => Malformed
                end
            end
          else scan_scalar max_str_digits s
      end
  end

(** The loop of [JSONObject], entered after the opening quote of a key. *)
with scan_members (max_str_digits fuel depth : nat) (s : pystr)
    (acc : list (pystr * json)) : parse json :=
  match fuel with
  | O => NoFuel
  | S fuel' =>
      match scanstring s [] with
      | Parsed key r =>
          match skip_ws r with
          | colon :: r1 =>
              if (colon =? 58)%N then
                match scan_once max_str_digits fuel' depth (skip_ws r1) with
                | Parsed value r2 =>
                    match skip_ws r2 with
                    | x :: r3 =>
                        if (x =? 125)%N
                        then Parsed (JObject (rev ((key, value) :: acc))) r3
                        else if (x =? 44)%N then
                          match skip_ws r3 with
                          | q :: r4 =>
                              if (q =? 34)%N
                              then scan_members max_str_digits fuel' depth r4
                                     ((key, value) :: acc)
                              else Malformed
                          | [] => Malformed
                          end
                        else Malformed
                    | [] => Malformed
                    end
                | Malformed => Malformed
                | Failed e => Failed e
                | NoFuel => NoFuel
                end
              else Malformed
          | [] => Malformed
          end
      | Malformed => Malformed
      | Failed e => Failed e
      | NoFuel => NoFuel
      end
  end

(** The loop of [JSONArray], entered at the start of an item. *)
with scan_items (max_str_digits fuel depth : nat) (s : pystr) (acc : list json)
  : parse json :=
  match fuel with
  | O => NoFuel
  | S fuel' =>
      match scan_once max_str_digits fuel' depth s with
      | Parsed value r =>
          match skip_ws r with
          | x :: r1 =>
              if (x =? 93)%N then Parsed (JList (rev (value :: acc))) r1
              else if (x =? 44)%N
              then scan_items max_str_digits fuel' depth (skip_ws r1) (value :: acc)
              else Malformed
          | [] => Malformed
          end
      | Malformed => Malformed
      | Failed e => Failed e
      | NoFuel => NoFuel
      end
  end.

Definition decode_error : exn := Exn JSONDecodeError "JSONDecodeError".

(** [json.loads(s)]: one value, surrounded by optional white space.  It
    raises [JSONDecodeError] on a text that is not JSON, [ValueError] on
    an integer literal longer than the limit and [RecursionError] on a
    nesting deeper than the interpreter allows, whichever the scanner
    meets first.  The fuel given here suffices for every text. *)
Definition json_loads (rt : Runtime) (s : pystr) : outcome json :=
  if startswith 65279 s then Raise decode_error
  else
    match scan_once (int_max_str_digits rt) (2 * length s + 1) (json_depth rt)
            (skip_ws s) with
    | Parsed v rest =>
        match skip_ws rest with
        | [] => Return v
        | _ :: _ => Raise decode_error
        end
    | Malformed => Raise decode_error
    | Failed e => Raise e
    | NoFuel => Raise decode_error
    end.

(** ** The response normalizer (app/agent.py, lines 268-345) *)

(** A source literal in which a backquote stands for the double quote. *)
Definition quoted (s : string) : pystr :=
  map (fun c => if (c =? 96)%N then 34%N else c) (py s).

Definition shown (x : Element) : pystr :=
  match x with
  | Text s => s
  | Other t => t
  end.

(** [", ".join(xs)] raises [TypeError] on the first item that is not a
    [str]. *)
Fixpoint all_text (xs : list Element) : outcome (list pystr) :=
  match xs with
  | [] => Return []
  | Text s :: rest => parts ← all_text rest; Return (s :: parts)
  | Other _ :: _ => Raise (Exn TypeError "sequence item: expected str instance")
  end.

(** Lines 299-306, and again lines 325-331. *)
Definition list_to_sentence (xs : list Element) : outcome pystr :=
  match xs with
  | [] => Return (py "No action needed")
  | [x] => Return (py "Take action: " ++ shown x)
  | _ :: _ :: _ =>
      parts ← all_text (removelast xs);
      let actions_str :=
        join (py ", ") parts ++ py " and " ++ from_option shown [] (last xs) in
      Return (py "Take multiple actions: " ++ actions_str)
  end.

(** The dictionary of the two fallback branches (lines 279-283, 287-291). *)
Definition fallback (response : pystr) : json :=
  JObject [ (py "status", JStr (py "OK"));
            (py "message", JStr response);
            (py "action", JStr (py "aucune")) ].

(** Lines 269-291: the candidate [result].  The handler is
    [except json.JSONDecodeError]; what else [json.loads] raises goes
    through. *)
Definition candidate (rt : Runtime) (response : pystr) : outcome json :=
  try_except
    (if contains (ch "{") response && contains (ch "}") response then
       let start := find (ch "{") response in
       let stop := S (rfind (ch "}") response) in
       json_loads rt (slice response start stop)
     else Return (fallback response))
    (fun e =>
       if is_instance e JSONDecodeError then Return (fallback response)
       else Raise e).

(** [result.get(key)]; [None] stands for the default of the call. *)
Definition result_get (result : json) (key : string) : outcome (option json) :=
  match result with
  | JObject members => Return (dict_get (py key) members)
  | _ => Raise (Exn AttributeError "object has no attribute 'get'")
  end.

Section Normalizer.

Variable rt : Runtime.

Definition element_of (v : json) : Element :=
  match v with
  | JStr s => Text s
  | _ => Other (py_str rt v)
  end.

(** Lines 297-309. *)
Definition action_text (action_value : json) : outcome pystr :=
  match action_value with
  | JList items => list_to_sentence (map element_of items)
  | JStr s => Return s
  | other => Return (py_str rt other)
  end.

(** Lines 315-318. *)
Definition strip_quotes (s : pystr) : pystr :=
  let s1 := if startswith dquote s && endswith dquote s then unwrap s else s in
  if startswith (ch "'") s1 && endswith (ch "'") s1 then unwrap s1 else s1.

(** Lines 321-334: any exception is swallowed by the bare [except]. *)
Definition reparse_list (s : pystr) : pystr :=
  if startswith (ch "[") s && endswith (ch "]") s then
    match literal_eval rt s with
    | Some (LitList items) =>
        match list_to_sentence items with
        | Return sentence => sentence
        | Raise _ => s
        end
    | Some LitOther => s
    | None => s
    end
  else s.

(** Lines 294-338. *)
Definition coerce_action (action_value : option json) : outcome pystr :=
  text ← action_text (default (JStr (py "No action needed")) action_value);
  let cleaned := reparse_list (strip_quotes (strip text)) in
  Return (if cleaned is [] then py "No action needed" else cleaned).

End Normalizer.

(** ** The typed result (app/models.py) *)

Record AnalysisResponse : Type :=
  { status : Status;
    message : pystr;
    action : pystr }.

Definition validation_error : exn := Exn ValidationError "validation error for AnalysisResponse".

(** [status: Literal["OK", "ALERT"]] *)
Definition validate_status (v : option json) : outcome Status :=
  match v with
  | None => Return OK
  | Some (JStr s) =>
      if pystr_eqb s (py "OK") then Return OK
      else if pystr_eqb s (py "ALERT") then Return ALERT
      else Raise validation_error
  | Some _ => Raise validation_error
  end.

(** [message: str] *)
Definition validate_message (rt : Runtime) (v : option json) : outcome pystr :=
  match v with
  | None => Return (py "Analysis completed")
  | Some (JStr s) => Return s
  | Some other =>
      match coerce_str rt other with
      | Some s => Return s
      | None => Raise validation_error
      end
  end.

(** Lines 293-345, from the candidate dictionary to the typed result. *)
Definition build_response (rt : Runtime) (result : json) : outcome AnalysisResponse :=
  action_field ← result_get result "action";
  action_value ← coerce_action rt action_field;
  status_field ← result_get result "status";
  message_field ← result_get result "message";
  st ← validate_status status_field;
  msg ← validate_message rt message_field;
  Return {| status := st; message := msg; action := action_value |}.

(** Lines 268-345. *)
Definition normalize (rt : Runtime) (response : pystr) : outcome AnalysisResponse :=
  result ← candidate rt response;
  build_response rt result.

(** ** The pipeline (app/state.py, app/agent.py) *)

Record SensorData : Type :=
  { humidity : Q;
    light_level : Q;                    (* "light" *)
    temperature_level : Q;              (* "temperature" *)
    plant_id : string;
    plant_type : string }.

Inductive Verdict : Type :=
  | SoilResult (v : SoilVerdict)
  | BandResult (v : BandVerdict).

(** [state.metadata["history"]]: the result of the history node, or the
    dictionary the pipeline writes when the node raises. *)
Inductive HistoryMeta : Type :=
  | HistoryOf (h : HistoryResult)
  | HistoryFailed (error : string).

Record State : Type :=
  { sensor_data : SensorData;
    comparisons : gmap string Verdict;
    metadata : gmap string HistoryMeta }.

Definition create_state (data : SensorData) : State :=
  {| sensor_data := data; comparisons := ∅; metadata := ∅ |}.

Definition with_comparison (key : string) (v : Verdict) (state : State) : State :=
  {| sensor_data := sensor_data state;
     comparisons := <[key := v]> (comparisons state);
     metadata := metadata state |}.

Definition with_history (h : HistoryMeta) (state : State) : State :=
  {| sensor_data := sensor_data state;
     comparisons := comparisons state;
     metadata := <["history" := h]> (metadata state) |}.

(** One line of the prompt under "Trends (compared to historical
    average)". *)
Record TrendLine : Type :=
  { tl_metric : string;
    tl_direction : Direction;
    tl_change : Q;
    tl_average : Q }.

(** Lines 204-212: the line of a metric reads [trend['average_historical']],
    a key the short form of the dictionary does not have. *)
Definition trend_line (metric : string) (trends : gmap string Trend)
  : outcome (list TrendLine) :=
  match trends !! metric with
  | None => Return []
  | Some trend =>
      match average_historical trend with
      | Some average =>
          Return [ {| tl_metric := metric; tl_direction := direction trend;
                      tl_change := change trend; tl_average := average |} ]
      | None => Raise (Exn KeyError "'average_historical'")
      end
  end.

(** What the prompt is made of (lines 178-253); the wording around it is
    fixed text. *)
Record Prompt : Type :=
  { prompt_state : State;
    prompt_trends : list TrendLine;
    prompt_recent : list RecentAnalysis }.

Definition build_prompt (state : State) : outcome Prompt :=
  match metadata state !! "history" with
  | Some (HistoryOf history_data) =>
      if has_history history_data then
        humidity_line ← trend_line "humidity" (trends history_data);
        light_line ← trend_line "light" (trends history_data);
        temperature_line ← trend_line "temperature" (trends history_data);
        Return {| prompt_state := state;
                  prompt_trends := humidity_line ++ light_line ++ temperature_line;
                  prompt_recent :=
                    if (1 <? length (recent_analyses history_data))%nat
                    then firstn 5 (recent_analyses history_data)
                    else [] |}
      else Return {| prompt_state := state; prompt_trends := []; prompt_recent := [] |}
  | _ => Return {| prompt_state := state; prompt_trends := []; prompt_recent := [] |}
  end.

(** The reasoning engine: it answers a prompt with a text, or raises. *)
Definition Agent := Prompt -> outcome pystr.

Definition next_id (db : Database) : nat := S (list_max (map pa_id (rows db))).

(** app/database.py, [save_analysis]: the new row and the store after the
    call.  A failed commit is rolled back. *)
Definition save_analysis (db : Database) (data : SensorData)
    (response : AnalysisResponse) (timestamp : option datetime) (utcnow : datetime)
  : outcome PlantAnalysis * Database :=
  if session_local db then
    let analysis :=
      {| pa_id := next_id db;
         pa_plant_id := plant_id data;
         pa_timestamp := default utcnow timestamp;
         pa_humidity := humidity data;
         pa_light := light_level data;
         pa_temperature := temperature_level data;
         pa_status := match status response with OK => "OK" | ALERT => "ALERT" end;
         pa_message := message response;
         pa_action := action response |} in
    match write_fault db with
    | Some e => (try_finally (Raise e) (db_close db), db)
    | None =>
        (try_finally (Return analysis) (db_close db),
         {| session_local := session_local db;
            rows := rows db ++ [analysis];
            read_fault := read_fault db;
            write_fault := write_fault db;
            close_fault := close_fault db |})
    end
  else (Raise not_initialized, db).

(** Line 185: the handler of [save_analysis] writes a record for what
    the [try] block raises, which is the failure of the commit; the check
    of [SessionLocal] stands before the [try], and [db.close()] runs in
    its [finally]. *)
Definition save_analysis_errors (db : Database) : list string :=
  if session_local db then
    match write_fault db with
    | Some e => [("Error saving analysis: " ++ exn_text e)%string]
    | None => []
    end
  else [].

(** What one call of [process_with_pipeline] leaves behind: what the caller
    gets, the store, and the records of [logger.error] in the order they
    are written, those of the functions it calls included. *)
Record Run : Type :=
  { result : outcome AnalysisResponse;
    store : Database;
    errors_logged : list string }.

Definition aborted (e : exn) (db : Database) (log : list string) : Run :=
  {| result := Raise e; store := db; errors_logged := log |}.

(** Lines 137-175: the comparison nodes in their order, then the history
    node, whose failure is absorbed. *)
Definition run_nodes (plants : Catalog) (db : Database) (data : SensorData)
  : outcome State * list string :=
  let state := create_state data in
  match soil_moisture plants (plant_type data) (humidity data) with
  | Raise e =>
      (Raise e,
       soil_moisture_errors plants (plant_type data) (humidity data)
       ++ [("Error in soil_moisture node: " ++ exn_text e)%string])
  | Return soil_moisture_result =>
  let state := with_comparison "soil_moisture" (SoilResult soil_moisture_result) state in
  match temperature plants (plant_type data) (temperature_level data) with
  | Raise e =>
      (Raise e,
       temperature_errors plants (plant_type data) (temperature_level data)
       ++ [("Error in temperature node: " ++ exn_text e)%string])
  | Return temperature_result =>
  let state := with_comparison "temperature" (BandResult temperature_result) state in
  match light plants (plant_type data) (light_level data) with
  | Raise e =>
      (Raise e,
       light_errors plants (plant_type data) (light_level data)
       ++ [("Error in light node: " ++ exn_text e)%string])
  | Return light_result =>
  let state := with_comparison "light" (BandResult light_result) state in
  match history db (plant_id data) 10 with
  | Return history_result =>
      (Return (with_history (HistoryOf history_result) state),
       history_errors db (plant_id data) 10)
  | Raise e =>
      (Return (with_history (HistoryFailed (exn_text e)) state),
       history_errors db (plant_id data) 10
       ++ [("Error in history node: " ++ exn_text e)%string])
  end end end end.

(** Lines 128-345: everything up to and including normalization. *)
Definition analyse (rt : Runtime) (agent : option Agent) (plants : Catalog)
    (db : Database) (data : SensorData) : outcome AnalysisResponse * list string :=
  match agent with
  | None =>
      (Raise (Exn RuntimeError "LangChain agent is not initialized. Check server logs."),
       [])
  | Some engine =>
      match run_nodes plants db data with
      | (Raise e, log) => (Raise e, log)
      | (Return state, log) =>
          match build_prompt state with
          | Raise e => (Raise e, log)
          | Return prompt =>
              match engine prompt with
              | Raise e =>
                  (Raise e, log ++ [("Error invoking agent/LLM: " ++ exn_text e)%string])
              | Return response => (normalize rt response, log)
              end
          end
      end
  end.

(** app/agent.py, [process_with_pipeline]. *)
Definition process_with_pipeline (rt : Runtime) (agent : option Agent)
    (plants : Catalog) (db : Database) (data : SensorData)
    (test_timestamp : option datetime) (utcnow : datetime) : Run :=
  match analyse rt agent plants db data with
  | (Raise e, log) => aborted e db log
  | (Return analysis_response, log) =>
      match save_analysis db data analysis_response test_timestamp utcnow with
      | (Return _, db') =>
          {| result := Return analysis_response;
             store := db';
             errors_logged := log ++ save_analysis_errors db |}
      | (Raise e, db') =>
          {| result := Return analysis_response;
             store := db';
             errors_logged :=
               log ++ save_analysis_errors db
               ++ [("Failed to save analysis to database: " ++ exn_text e)%string] |}
      end
  end.

(** ** Vocabulary of the properties and sample data *)

(** The acceptance rule of the banded comparators. *)
Definition accepted (b : Band) (tolerance value : Q) : Prop :=
  ((band_min b <= value /\ value <= band_max b)
   \/ Qabs (value - band_ideal b) <= tolerance)%Q.

(** A catalog with one entry, used to run the definitions. *)
Definition basil : Plant :=
  {| plant_key := "basil";
     ideal_conditions :=
       {| ic_soil_moisture := 60;
          ic_light := {| band_min := 1000; band_max := 2000; band_ideal := 1500 |};
          ic_temperature := {| band_min := 18; band_max := 26; band_ideal := 22 |} |};
     tolerances :=
       {| tol_soil_moisture := 5; tol_light := 600; tol_temperature := 5 |} |}.

Definition day : Z := 86400.

(** A store that is initialised and reports no fault. *)
Definition healthy (table : list PlantAnalysis) : Database :=
  {| session_local := true;
     rows := table;
     read_fault := None;
     write_fault := None;
     close_fault := None |}.

Definition reading_row (id : nat) (plant : string) (at_time : datetime)
    (h l t : Q) (st : string) : PlantAnalysis :=
  {| pa_id := id; pa_plant_id := plant; pa_timestamp := at_time;
     pa_humidity := h; pa_light := l; pa_temperature := t;
     pa_status := st; pa_message := []; pa_action := [] |}.

(** Three back-dated analyses of one plant, humidity 70, 65, 55, and one
    analysis of another plant. *)
Definition three_days : list PlantAnalysis :=
  [ reading_row 1 "basil-001" (1 * day) 70 1200 22 "OK";
    reading_row 2 "mint-007" (1 * day + 60) 40 900 19 "ALERT";
    reading_row 3 "basil-001" (2 * day) 65 1200 22 "OK";
    reading_row 4 "basil-001" (3 * day) 55 1200 22 "ALERT" ].

Definition basil_reading : SensorData :=
  {| humidity := 50; light_level := 1200; temperature_level := 22;
     plant_id := "basil-001"; plant_type := "basil" |}.

Definition connection_lost : exn :=
  Exn OperationalError "Can't connect to MySQL server".

(** A store whose reads and commits fail. *)
Definition unreachable (table : list PlantAnalysis) : Database :=
  {| session_local := true;
     rows := table;
     read_fault := Some connection_lost;
     write_fault := Some connection_lost;
     close_fault := None |}.

(** The rows of one plant, as the query filters them. *)
Definition rows_of (db : Database) (plant : string) : list PlantAnalysis :=
  List.filter (fun r => String.eqb (pa_plant_id r) plant) (rows db).

(** The window the query hands to the analysis; empty when the read fails. *)
Definition window (db : Database) (plant : string) (limit : nat)
  : list PlantAnalysis :=
  match fetch_recent db plant limit with
  | Return analyses => analyses
  | Raise _ => []
  end.

(** The state the nodes build for [basil_reading] over [three_days]. *)
Definition basil_state : State :=
  match run_nodes [basil] (healthy three_days) basil_reading with
  | (Return state, _) => state
  | (Raise _, _) => create_state basil_reading
  end.

Definition with_write_fault (fault : option exn) (db : Database) : Database :=
  {| session_local := session_local db;
     rows := rows db;
     read_fault := read_fault db;
     write_fault := fault;
     close_fault := close_fault db |}.

(** A runtime to run the definitions with: [str()] is spelled out for
    [None] and the booleans, [ast.literal_eval] refuses every text, a
    [str] field refuses every value that is not a string, integers have
    at most 4300 digits and the decoder can enter 900 nested arrays and
    objects. *)
Definition strict_runtime : Runtime :=
  {| py_str := fun v =>
       match v with
       | JNull => py "None"
       | JBool true => py "True"
       | JBool false => py "False"
       | JFloat lexeme => lexeme
       | _ => py "..."
       end;
     literal_eval := fun _ => None;
     coerce_str := fun _ => None;
     int_max_str_digits := 4300;
     json_depth := 900 |}.

(** An engine that answers every prompt with the same text. *)
Definition scripted (answer : pystr) : Agent := fun _ => Return answer.

Definition dry_soil_answer : pystr :=
  quoted "Here is my analysis: {`status`: `ALERT`, `message`: `Soil is dry`, `action`: [`water`, `light`]}".

Definition dry_soil_response : AnalysisResponse :=
  {| status := ALERT;
     message := py "Soil is dry";
     action := py "Take multiple actions: water and light" |}.

(** The fields of a candidate that the typed result accepts. *)
Definition status_admissible (v : option json) : Prop :=
  v = None \/ v = Some (JStr (py "OK")) \/ v = Some (JStr (py "ALERT")).

Definition message_admissible (v : option json) : Prop :=
  v = None \/ exists s, v = Some (JStr s).

(** An action that, when it is a list, is a list of strings. *)
Definition action_admissible (v : option json) : Prop :=
  forall items, v = Some (JList items) -> exists l, items = map JStr l.

Definition yellow_leaves_answer : pystr :=
  quoted "{`status`: `WARNING`, `message`: `Leaves are yellow`, `action`: `Check the roots`}".

(** ** Texts within the limits of the interpreter *)

Definition is_opener (c : N) : bool := ((c =? 123) || (c =? 91))%N.

(** The number of opening braces and brackets in a text. *)
Definition openers (s : pystr) : nat := length (List.filter is_opener s).

(** The length of the run of decimal digits a text starts with. *)
Fixpoint digit_prefix (s : pystr) : nat :=
  match s with
  | [] => 0
  | c :: r => if is_digit c then S (digit_prefix r) else 0
  end.

(** The length of the longest run of decimal digits in a text. *)
Fixpoint longest_digit_run (s : pystr) : nat :=
  match s with
  | [] => 0
  | _ :: r => Nat.max (digit_prefix s) (longest_digit_run r)
  end.

(** A text that cannot take the decoder to a limit of the interpreter: it
    has no more opening braces and brackets than the depth left, and no
    run of digits longer than an integer may be. *)
Definition within_limits (rt : Runtime) (s : pystr) : Prop :=
  (openers s <= json_depth rt)%nat
  /\ (int_max_str_digits rt = 0%nat
      \/ (longest_digit_run s <= int_max_str_digits rt)%nat).

(** What an exception of the decoder that is not a [JSONDecodeError]
    tells about the text: an integer literal over the limit stands in
    it, or it has more opening braces and brackets than the depth
    left. *)
Definition limit_met (limit depth : nat) (s : pystr) (e : exn) : Prop :=
  (exists digits,
     e = int_too_long limit digits
     /\ exceeds_int_limit limit digits = true
     /\ (digits <= longest_digit_run s)%nat)
  \/ (exists what, e = too_deep what /\ (depth < openers s)%nat).

(** ** The sentence of a list of actions, as the specification words it *)

Definition claimed_sentence (actions : list pystr) : pystr :=
  match actions with
  | [] => py "No action needed"
  | [x] => py "Take action: " ++ x
  | _ :: _ :: _ =>
      py "Take multiple actions: " ++ join (py ", ") (removelast actions)
      ++ py " and " ++ default [] (last actions)
  end.

(** ** Further vocabulary *)

From Stdlib Require Import Sorted Permutation.

(** A list of records in the order of the query: no record is newer than
    one before it. *)
Definition newest_first (l : list PlantAnalysis) : Prop :=
  StronglySorted (fun a b => pa_timestamp b <= pa_timestamp a) l.

Definition not_found (plant_id : string) : exn :=
  Exn ValueError ("Plante " ++ plant_id ++ " non trouvée").

(** A catalog with a second entry under the key of the first. *)
Definition shadowed_basil : Plant :=
  {| plant_key := "basil";
     ideal_conditions :=
       {| ic_soil_moisture := 10;
          ic_light := {| band_min := 0; band_max := 1; band_ideal := 0 |};
          ic_temperature := {| band_min := 0; band_max := 1; band_ideal := 0 |} |};
     tolerances :=
       {| tol_soil_moisture := 1; tol_light := 1; tol_temperature := 1 |} |}.

Definition orchid_reading : SensorData :=
  {| humidity := 50; light_level := 1200; temperature_level := 22;
     plant_id := "orchid-001"; plant_type := "orchid" |}.

(** How the message of a banded verdict goes with its status. *)
Definition band_messages (b : Band) (tolerance value : Q) (v : BandVerdict) : Prop :=
  ((Qabs (value - band_ideal b) <= tolerance ->
    bv_status v = OK /\ bv_message v = Optimal value (band_ideal b))
   /\ (tolerance < Qabs (value - band_ideal b) ->
       band_min b <= value -> value <= band_max b ->
       bv_status v = OK
       /\ bv_message v = Acceptable value (band_min b) (band_max b))
   /\ (tolerance < Qabs (value - band_ideal b) -> value < band_min b ->
       bv_status v = ALERT
       /\ bv_message v = TooLow value (band_min b) (band_ideal b))
   /\ (tolerance < Qabs (value - band_ideal b) ->
       band_min b <= value -> band_max b < value ->
       bv_status v = ALERT
       /\ bv_message v = TooHigh value (band_max b) (band_ideal b)))%Q.

(** The row [save_analysis] builds for a reading and its result. *)
Definition saved_row (db : Database) (data : SensorData) (r : AnalysisResponse)
    (timestamp : option datetime) (utcnow : datetime) : PlantAnalysis :=
  {| pa_id := next_id db;
     pa_plant_id := plant_id data;
     pa_timestamp := default utcnow timestamp;
     pa_humidity := humidity data;
     pa_light := light_level data;
     pa_temperature := temperature_level data;
     pa_status := match status r with OK => "OK" | ALERT => "ALERT" end;
     pa_message := message r;
     pa_action := action r |}.

Definition with_rows (table : list PlantAnalysis) (db : Database) : Database :=
  {| session_local := session_local db;
     rows := table;
     read_fault := read_fault db;
     write_fault := write_fault db;
     close_fault := close_fault db |}.

(** ** The analysis endpoint (app/core_routes.py) *)

(** What the endpoint answers: the body with status 200, or the
    [HTTPException] it raises. *)
Inductive HttpResponse (A : Type) : Type :=
  | Ok200 (body : A)
  | HttpError (status_code : nat) (detail : string).
Arguments Ok200 {A} body.
Arguments HttpError {A} status_code detail.

(** The two parsers of the standard library the endpoint calls; [None]
    stands for their [ValueError]. *)
Record DateParsers : Type :=
  { fromisoformat : string -> option datetime;
    strptime : string -> string -> option datetime }.

(** [c in s] for a one-character [c] *)
Fixpoint has_char (c : ascii) (s : string) : bool :=
  match s with
  | EmptyString => false
  | String x rest => Ascii.eqb x c || has_char c rest
  end.

(** [s.replace('Z', '+00:00')] *)
Fixpoint replace_Z (s : string) : string :=
  match s with
  | EmptyString => EmptyString
  | String x rest =>
      if Ascii.eqb x "Z" then ("+00:00" ++ replace_Z rest)%string
      else String x (replace_Z rest)
  end.

(** Lines 65-82: the timestamp override; a text neither parser accepts is
    ignored. *)
Definition parse_test_date (parsers : DateParsers) (test_date : option string)
  : option datetime :=
  match test_date with
  | None => None
  | Some EmptyString => None
  | Some text =>
      match fromisoformat parsers (replace_Z text) with
      | Some t => Some t
      | None =>
          if has_char "T" text || has_char " " text
          then strptime parsers text "%Y-%m-%dT%H:%M:%S"
          else strptime parsers text "%Y-%m-%d"
      end
  end.

Record Served : Type :=
  { response : HttpResponse AnalysisResponse;
    served_store : Database }.

(** [analyze_sensor_data], lines 63-99: [except RuntimeError] comes first,
    [except Exception] second. *)
Definition analyze_sensor_data (rt : Runtime) (parsers : DateParsers)
    (agent : option Agent) (plants : Catalog) (db : Database)
    (data : SensorData) (test_date : option string) (utcnow : datetime) : Served :=
  let test_timestamp := parse_test_date parsers test_date in
  let run := process_with_pipeline rt agent plants db data test_timestamp utcnow in
  {| response :=
       match result run with
       | Return analysis_response => Ok200 analysis_response
       | Raise e =>
           if is_instance e RuntimeError
           then HttpError 503 "LangChain agent is not initialized. Check server logs."
           else HttpError 500 ("Error during analysis: " ++ exn_text e)
       end;
     served_store := store run |}.

(** Parsers that refuse every text. *)
Definition no_parsers : DateParsers :=
  {| fromisoformat := fun _ => None; strptime := fun _ _ => None |}.

(** An engine that fails with a [RuntimeError] of its own. *)
Definition crashing_engine : Agent :=
  fun _ => Raise (Exn RuntimeError "CUDA out of memory").

(** ** The history endpoints (app/core_routes.py) *)

(** [.offset(offset).limit(limit)]; [None] is no bound. *)
Definition paginate {A : Type} (offset limit : option nat) (l : list A) : list A :=
  let skipped := skipn (default 0%nat offset) l in
  match limit with
  | Some n => firstn n skipped
  | None => skipped
  end.

Record HistoryPage : Type :=
  { page_plant_id : option string;
    count : nat;
    analyses : list PlantAnalysis }.

(** The body common to [get_plant_history] (with a plant) and
    [get_all_history] (without), given the session the framework
    provides.  Each record is rendered field by field; the rendering is
    left out. *)
Definition history_page (db : Database) (plant : option string)
    (limit offset : option nat) : HttpResponse HistoryPage :=
  match read_fault db with
  | Some e =>
      if is_instance e RuntimeError
      then HttpError 503 "Database is not available. Please check server logs."
      else HttpError 500 ("Error retrieving history: " ++ exn_text e)
  | None =>
      let selected :=
        match plant with
        | Some plant_id => rows_of db plant_id
        | None => rows db
        end in
      let results := paginate offset limit (order_by_timestamp_desc selected) in
      Ok200 {| page_plant_id := plant; count := length results; analyses := results |}
  end.

Definition get_plant_history (db : Database) (plant_id : string)
    (limit offset : option nat) : HttpResponse HistoryPage :=
  history_page db (Some plant_id) limit offset.

Definition get_all_history (db : Database) (limit offset : option nat)
  : HttpResponse HistoryPage :=
  history_page db None limit offset.

(** The rows of a page, empty for an error. *)
Definition page_rows (r : HttpResponse HistoryPage) : list PlantAnalysis :=
  match r with
  | Ok200 page => analyses page
  | HttpError _ _ => []
  end.

(** ** The webhook tools (app/tools/discord_tool.py, app/tools/slack_tool.py) *)

(** What [requests.post] does: an answer with its status code and text,
    or one of the exceptions the tools tell apart. *)
Inductive PostOutcome : Type :=
  | Responded (status_code : nat) (text : pystr)
  | TimedOut
  | ConnectionFailed (text : pystr)
  | RequestFailed (text : pystr)
  | Unexpected (text : pystr).

(** The decimal digits of a status code. *)
Definition decimal (n : nat) : pystr := py (str_of_nat n).

Record DiscordPayload : Type :=
  { content : pystr;
    username : option pystr }.

(** discord_tool.py, lines 53-63. *)
Definition discord_payload (channel message : pystr) : DiscordPayload :=
  let message :=
    if (2000 <? length message)%nat then firstn 1997 message ++ py "..."
    else message in
  {| content := message;
     username :=
       match channel with
       | [] => None
       | _ :: _ => Some (py "Carmen Bot - " ++ channel)
       end |}.

Definition discord_sent (channel : pystr) : pystr :=
  py "Success: Message sent to Discord channel '" ++ channel ++ py "'".

(** [send_discord_message]; the webhook address comes from the
    environment. *)
Definition send_discord_message (webhook_url : pystr)
    (post : DiscordPayload -> PostOutcome) (channel message : pystr) : pystr :=
  match webhook_url with
  | [] =>
      py "Error: DISCORD_WEBHOOK_URL environment variable is not set. Please configure DISCORD_WEBHOOK_URL in your .env file."
  | _ :: _ =>
      match post (discord_payload channel message) with
      | Responded status_code text =>
          if (status_code =? 204)%nat then discord_sent channel
          else if ((status_code =? 200) || (status_code =? 201))%nat
          then discord_sent channel
          else py "Error: Failed to send message to Discord - Discord API returned status code "
               ++ decimal status_code ++ py ": " ++ text
      | TimedOut => py "Error: Request to Discord webhook timed out"
      | ConnectionFailed e =>
          py "Error: Failed to connect to Discord webhook: " ++ e
      | RequestFailed e =>
          py "Error: Failed to send message to Discord - Request error: " ++ e
      | Unexpected e =>
          py "Error: Failed to send message to Discord - Unexpected error: " ++ e
      end
  end.

(** The payload of the Slack tool once its [None] values are removed. *)
Record SlackPayload : Type :=
  { slack_text : pystr;
    slack_channel : option pystr }.

Definition slack_payload (channel message : pystr) : SlackPayload :=
  {| slack_text := message;
     slack_channel := match channel with [] => None | _ :: _ => Some channel end |}.

(** [send_slack_message] *)
Definition send_slack_message (webhook_url : pystr)
    (post : SlackPayload -> PostOutcome) (channel message : pystr) : pystr :=
  match webhook_url with
  | [] =>
      py "Error: SLACK_WEBHOOK_URL environment variable is not set. Please configure SLACK_WEBHOOK_URL in your .env file."
  | _ :: _ =>
      match post (slack_payload channel message) with
      | Responded status_code text =>
          if (status_code =? 200)%nat
          then py "Success: Message sent to Slack channel '" ++ channel ++ py "'"
          else py "Error: Failed to send message to Slack - Slack API returned status code "
               ++ decimal status_code ++ py ": " ++ text
      | TimedOut => py "Error: Request to Slack webhook timed out"
      | ConnectionFailed e => py "Error: Failed to connect to Slack webhook: " ++ e
      | RequestFailed e =>
          py "Error: Failed to send message to Slack - Request error: " ++ e
      | Unexpected e =>
          py "Error: Failed to send message to Slack - Unexpected error: " ++ e
      end
  end.

(** A status text that announces success. *)
Definition announces_success (s : pystr) : Prop :=
  exists rest, s = py "Success: " ++ rest.

(** ** The request sender (dataset_testing/send_test_requests.py) *)

(** An entry of the requests file: what [get("date")] and [get("body")]
    give. *)
Record TestRequest : Type :=
  { req_date : option string;
    req_body : option (list (pystr * json)) }.

(** What [send_request] does: it returns the decoded answer, returns
    [None] after a failure it reports, or leaves the script with
    [sys.exit(1)] when the server cannot be reached. *)
Inductive SendOutcome : Type :=
  | Answered (result : list (pystr * json))
  | GaveUp
  | ServerUnreachable.

Inductive ScriptEnd : Type :=
  | Finished (successful failed : nat)
  | Exited (code : nat)
  | ZeroDivisionError.

(** The loop of [main], lines 130-150. *)
Fixpoint send_all (send : string -> list (pystr * json) -> SendOutcome)
    (requests : list TestRequest) (successful failed : nat) : ScriptEnd :=
  match requests with
  | [] => Finished successful failed
  | request_data :: rest =>
      match req_date request_data, req_body request_data with
      | Some (String c d), Some (field :: fields) =>
          match send (String c d) (field :: fields) with
          | Answered [] => send_all send rest successful (S failed)
          | Answered (_ :: _) => send_all send rest (S successful) failed
          | GaveUp => send_all send rest successful (S failed)
          | ServerUnreachable => Exited 1
          end
      | _, _ => send_all send rest successful (S failed)
      end
  end.

(** [main]; [confirmed] tells whether the answer typed at the prompt is
    "y" once stripped and put in lower case. *)
Definition main (send : string -> list (pystr * json) -> SendOutcome)
    (test_requests : list TestRequest) (confirmed : bool) : ScriptEnd :=
  if confirmed then
    match send_all send test_requests 0 0 with
    | Finished successful failed =>
        match test_requests with
        | [] => ZeroDivisionError
        | _ :: _ => Finished successful failed
        end
    | other => other
    end
  else Exited 0.

(** A webhook that accepts every post with the given status. *)
Definition answering {P : Type} (status_code : nat) : P -> PostOutcome :=
  fun _ => Responded status_code [].

Definition sample_requests : list TestRequest :=
  [ {| req_date := Some "2024-01-15T10:30:00";
       req_body := Some [(py "plant_id", JStr (py "basil-001"))] |};
    {| req_date := None;
       req_body := Some [(py "plant_id", JStr (py "basil-001"))] |};
    {| req_date := Some "2024-01-16T10:30:00"; req_body := Some [] |} ].

Definition always_ok : string -> list (pystr * json) -> SendOutcome :=
  fun _ _ => Answered [(py "status", JStr (py "OK"))].

(** * Properties *)

(** ** Comparisons of rationals *)

Lemma Qltb_lt (x y : Q) : Qltb x y = true <-> (x < y)%Q.
Proof.
  unfold Qltb. rewrite negb_true_iff. split.
  - intros H. apply Qnot_le_lt. intros Hle.
    apply Qle_bool_iff in Hle. congruence.
  - intros H. destruct (Qle_bool y x) eqn:E; [|reflexivity].
    apply Qle_bool_iff in E. exfalso. exact (Qlt_not_le _ _ H E).
Qed.

Lemma Qle_bool_not (x y : Q) : Qle_bool x y = false <-> ~ (x <= y)%Q.
Proof.
  rewrite <- Qle_bool_iff. destruct (Qle_bool x y); split; intros H;
    congruence || (exfalso; apply H; reflexivity) || reflexivity.
Qed.

(** ** Texts *)

Lemma append_assoc (a b c : string) :
  ((a ++ b) ++ c)%string = (a ++ b ++ c)%string.
Proof.
  induction a as [|x a IH]; [reflexivity | exact (f_equal (String x) IH)].
Qed.

(** ** Metric comparators *)

Section Comparators.

Local Open Scope Q_scope.


Lemma compare_band_difference parameter b tolerance value :
  bv_difference (compare_band parameter b tolerance value) = value - band_ideal b.
Proof. reflexivity. Qed.

Lemma compare_band_ok parameter b tolerance value :
  accepted b tolerance value ->
  bv_status (compare_band parameter b tolerance value) = OK.
Proof.
  intros [[Hlo Hhi] | Htol]; unfold compare_band, bv_status.
  - apply Qle_bool_iff in Hlo, Hhi. now rewrite Hlo, Hhi.
  - apply Qle_bool_iff in Htol. rewrite Htol.
    now destruct (Qle_bool (band_min b) value && Qle_bool value (band_max b))%bool.
Qed.

Lemma compare_band_alert parameter b tolerance value :
  ~ accepted b tolerance value ->
  bv_status (compare_band parameter b tolerance value) = ALERT.
Proof.
  intros Hno; unfold compare_band, bv_status.
  destruct (Qle_bool (band_min b) value && Qle_bool value (band_max b))%bool eqn:Hband.
  - exfalso. apply Hno. left.
    apply andb_true_iff in Hband as [Hlo Hhi].
    now split; apply Qle_bool_iff.
  - destruct (Qle_bool (Qabs (value - band_ideal b)) tolerance) eqn:Htol;
      [|reflexivity].
    exfalso. apply Hno. right. now apply Qle_bool_iff.
Qed.


(** C2.  For a plant type that resolves in the catalog and any value, the
    light and the temperature comparators return: status OK when the
    value lies in [min, max] or within the tolerance of the ideal point
    (also outside the band), status ALERT otherwise, and as difference
    the value minus the ideal point. *)
Theorem banded_comparators_follow_rule
    (plants : Catalog) (kind : string) (plant : Plant) (value : Q) :
  load_plant_data plants kind = Return plant ->
  (exists v, light plants kind value = Return v
     /\ (accepted (ic_light (ideal_conditions plant))
           (tol_light (tolerances plant)) value -> bv_status v = OK)
     /\ (~ accepted (ic_light (ideal_conditions plant))
             (tol_light (tolerances plant)) value -> bv_status v = ALERT)
     /\ bv_difference v = value - band_ideal (ic_light (ideal_conditions plant)))
  /\ (exists v, temperature plants kind value = Return v
     /\ (accepted (ic_temperature (ideal_conditions plant))
           (tol_temperature (tolerances plant)) value -> bv_status v = OK)
     /\ (~ accepted (ic_temperature (ideal_conditions plant))
             (tol_temperature (tolerances plant)) value -> bv_status v = ALERT)
     /\ bv_difference v
        = value - band_ideal (ic_temperature (ideal_conditions plant))).
Proof.
  intros Hload. unfold light, temperature. rewrite Hload. cbn [mbind outcome_bind].
  split; eexists; (split; [reflexivity|]);
    (split; [apply compare_band_ok | split; [apply compare_band_alert | reflexivity]]).
Qed.

End Comparators.


Lemma banded_comparators_follow_rule_witness :
  load_plant_data [basil] "basil" = Return basil
  /\ exists v, temperature [basil] "basil" 28 = Return v
       /\ bv_status v = ALERT /\ bv_difference v = (28 - 22)%Q.
Proof.
  split; [reflexivity|].
  destruct (banded_comparators_follow_rule [basil] "basil" basil 28 eq_refl)
    as [_ [v [Hv [_ [Halert Hdiff]]]]].
  exists v. split; [exact Hv|]. split; [|exact Hdiff].
  apply Halert. unfold accepted, basil; cbn.
  intros [[_ H] | H]; revert H; vm_compute; intros H; apply H; reflexivity.
Defined.

(** A value below the band and within the tolerance is accepted; the
    difference is still taken from the ideal point. *)
Example light_below_band_within_tolerance :
  exists v, light [basil] "basil" 950 = Return v
    /\ bv_status v = OK /\ bv_difference v = (950 - 1500)%Q
    /\ bv_message v = Optimal 950 1500.
Proof. eexists. split; [reflexivity|]. repeat split. Qed.

Example temperature_far_above_band :
  exists v, temperature [basil] "basil" 35 = Return v
    /\ bv_status v = ALERT /\ bv_message v = TooHigh 35 26 22.
Proof. eexists. split; [reflexivity|]. repeat split. Qed.

(** ** Trend computation *)

Section Trend.

Local Open Scope Q_scope.

Lemma raw_change_percent_positive_mean values current_value :
  0 < avg_historical values ->
  raw_change_percent values current_value
  = raw_change values current_value / avg_historical values * 100.
Proof.
  intros H. unfold raw_change_percent.
  apply Qltb_lt in H. now rewrite H.
Qed.

Lemma raw_change_percent_zero_mean values current_value :
  avg_historical values == 0 ->
  raw_change_percent values current_value = 0.
Proof.
  intros H. unfold raw_change_percent.
  destruct (Qltb 0 (avg_historical values)) eqn:E; [|reflexivity].
  apply Qltb_lt in E. rewrite H in E. now apply Qlt_irrefl in E.
Qed.

(** The guard is [avg_historical > 0]: a negative mean takes the branch
    meant for the zero mean. *)
Lemma raw_change_percent_negative_mean values current_value :
  avg_historical values < 0 ->
  raw_change_percent values current_value = 0
  /\ trend_direction values current_value = stable.
Proof.
  intros H.
  assert (E : Qltb 0 (avg_historical values) = false).
  { destruct (Qltb 0 (avg_historical values)) eqn:E; [|reflexivity].
    apply Qltb_lt in E. exfalso. apply (Qlt_irrefl 0).
    now apply Qlt_trans with (avg_historical values). }
  unfold trend_direction, raw_change_percent. rewrite E. now split.
Qed.

(** C4.  The code at a window of sub-zero temperatures, -10 and -10,
    and a current value of 5: the mean is -10, the change 15, and
    change / mean * 100 is -150; yet the percentage the code computes is
    0 and the direction it reports is stable. *)
Theorem calculate_trend_negative_window :
  let values := [-10; -10] in
  let current_value := 5 in
  avg_historical values == -10
  /\ raw_change values current_value == 15
  /\ raw_change values current_value / avg_historical values * 100 == -150
  /\ raw_change_percent values current_value == 0
  /\ direction (calculate_trend values current_value) = stable
  /\ (exists p, change_percent (calculate_trend values current_value) = Some p
      /\ p == 0).
Proof.
  cbv zeta. repeat split. exists (py_round 0 2). split; reflexivity.
Qed.

Lemma calculate_trend_computed values current_value :
  direction (calculate_trend values current_value) <> insufficient_data
  <-> (2 <= length values)%nat.
Proof.
  unfold calculate_trend.
  destruct (length values <? 2)%nat eqn:E.
  - apply Nat.ltb_lt in E. cbn. split; [congruence | lia].
  - apply Nat.ltb_ge in E. cbn. split; [intros _; exact E | intros _].
    unfold trend_direction.
    destruct (Qltb _ 2); [discriminate|].
    destruct (Qltb 0 _); discriminate.
Qed.

Lemma calculate_trend_short values current_value :
  (length values < 2)%nat ->
  calculate_trend values current_value
  = {| direction := insufficient_data; change := 0;
       change_percent := None; average_historical := None; period := None |}.
Proof.
  intros H. unfold calculate_trend. apply Nat.ltb_lt in H. now rewrite H.
Qed.

End Trend.

(** ** The history node *)

Lemma try_except_returns {A : Type} (body : outcome A) (handler : exn -> A) :
  returns (try_except body (fun e => Return (handler e))).
Proof. destruct body; eexists; reflexivity. Qed.

Lemma history_returns (db : Database) (plant : string) (limit : nat) :
  returns (history db plant limit).
Proof. apply try_except_returns. Qed.

(** The failures the body of [history] can meet, and what they raise. *)
Lemma history_body_raises (db : Database) (plant : string) (limit : nat) :
  (session_local db = false -> history_body db plant limit = Raise not_initialized)
  /\ (forall e, session_local db = true -> close_fault db = Some e ->
        history_body db plant limit = Raise e)
  /\ (forall e, session_local db = true -> close_fault db = None ->
        read_fault db = Some e -> history_body db plant limit = Raise e).
Proof.
  unfold history_body, get_db, try_finally, db_close, fetch_recent.
  repeat split.
  - intros ->. reflexivity.
  - intros e -> ->. reflexivity.
  - intros e -> -> ->. reflexivity.
Qed.

Lemma history_on_window (db : Database) (plant : string) (limit : nat)
    (analyses : list PlantAnalysis) :
  session_local db = true -> close_fault db = None ->
  fetch_recent db plant limit = Return analyses ->
  history db plant limit
  = Return (match analyses with
            | [] => no_history "No historical data available"
            | _ :: _ => summarize analyses
            end).
Proof.
  intros Hs Hc Hf. unfold history, history_body, get_db, try_finally, db_close.
  rewrite Hs, Hc, Hf. cbn. now destruct analyses.
Qed.

(** Whatever the store does, the trends of the result are those of the
    window, or there are none. *)
Lemma history_trends (db : Database) (plant : string) (limit : nat)
    (h : HistoryResult) :
  history db plant limit = Return h ->
  trends h = ∅
  \/ (window db plant limit <> [] /\ h = summarize (window db plant limit)).
Proof.
  unfold history, history_body, window, get_db, try_finally, db_close.
  destruct (session_local db); cbn; [|intros [= <-]; now left].
  destruct (close_fault db); cbn; [intros [= <-]; now left|].
  destruct (fetch_recent db plant limit) as [analyses|e]; cbn;
    [|intros [= <-]; now left].
  destruct analyses; cbn; intros [= <-]; [now left | now right].
Qed.

Lemma add_trend_newest (key : string) (older : list Q) (newest : Q)
    (m : gmap string Trend) :
  add_trend key (older ++ [newest]) m
  = match older with
    | [] => m
    | _ :: _ => <[key := calculate_trend older newest]> m
    end.
Proof.
  unfold add_trend, current_of. rewrite last_snoc, removelast_last.
  rewrite length_app; cbn.
  destruct older; cbn; [reflexivity|].
  now replace (length older + 1)%nat with (S (length older)) by lia.
Qed.

(** The trends of a window, newest record first. *)
Lemma summarize_trends (newest : PlantAnalysis) (older : list PlantAnalysis) :
  trends (summarize (newest :: older))
  = match older with
    | [] => ∅
    | _ :: _ =>
        <["temperature" :=
            calculate_trend (rev (map pa_temperature older)) (pa_temperature newest)]>
          (<["light" :=
               calculate_trend (rev (map pa_light older)) (pa_light newest)]>
             (<["humidity" :=
                  calculate_trend (rev (map pa_humidity older)) (pa_humidity newest)]>
                ∅))
    end.
Proof.
  unfold summarize, trends. cbn [map rev].
  rewrite !add_trend_newest.
  destruct older as [|second rest]; [reflexivity|].
  cbn [map rev].
  destruct (rev (map pa_humidity rest) ++ [pa_humidity second]) eqn:Eh;
    [now destruct (rev (map pa_humidity rest))|].
  destruct (rev (map pa_light rest) ++ [pa_light second]) eqn:El;
    [now destruct (rev (map pa_light rest))|].
  destruct (rev (map pa_temperature rest) ++ [pa_temperature second]) eqn:Et;
    [now destruct (rev (map pa_temperature rest))|].
  reflexivity.
Qed.

(** Every entry of the trends of a window is the trend of one metric of
    the newest record against the older records. *)
Lemma summarize_trend_entry (newest : PlantAnalysis) (older : list PlantAnalysis)
    (key : string) (t : Trend) :
  trends (summarize (newest :: older)) !! key = Some t ->
  older <> []
  /\ exists metric : PlantAnalysis -> Q,
       t = calculate_trend (rev (map metric older)) (metric newest).
Proof.
  rewrite summarize_trends. destruct older as [|second rest].
  - rewrite lookup_empty. discriminate.
  - intros H. split; [discriminate|].
    destruct (decide (key = "temperature")) as [->|Ht].
    { rewrite lookup_insert_eq in H. injection H as <-. now exists pa_temperature. }
    rewrite lookup_insert_ne in H by congruence.
    destruct (decide (key = "light")) as [->|Hl].
    { rewrite lookup_insert_eq in H. injection H as <-. now exists pa_light. }
    rewrite lookup_insert_ne in H by congruence.
    destruct (decide (key = "humidity")) as [->|Hh].
    { rewrite lookup_insert_eq in H. injection H as <-. now exists pa_humidity. }
    rewrite lookup_insert_ne in H by congruence.
    rewrite lookup_empty in H. discriminate.
Qed.

(** C9.  For every window the history node fetches, an entry for a metric
    appears in the trends map only when the window holds at least 2
    records; the entry is a computed trend only when at least 2 records
    remain once the newest one, which the code takes as the current value,
    is set aside; with fewer than 2 such records the entry, if there is
    one, is the insufficient-data placeholder, without change percent and
    without historical average. *)
Theorem trend_entries_need_two_points
    (db : Database) (plant : string) (limit : nat) (h : HistoryResult)
    (key : string) (t : Trend) :
  history db plant limit = Return h ->
  trends h !! key = Some t ->
  (2 <= length (window db plant limit))%nat
  /\ (direction t <> insufficient_data ->
      (2 <= length (tail (window db plant limit)))%nat)
  /\ ((length (tail (window db plant limit)) < 2)%nat ->
      direction t = insufficient_data
      /\ change_percent t = None /\ average_historical t = None).
Proof.
  intros Hh Ht.
  destruct (history_trends _ _ _ _ Hh) as [Hempty | [Hne ->]].
  { rewrite Hempty, lookup_empty in Ht. discriminate. }
  destruct (window db plant limit) as [|newest older]; [congruence|].
  apply summarize_trend_entry in Ht as [Holder [metric ->]].
  cbn [tail length].
  assert (Hlen : length (rev (map metric older)) = length older)
    by now rewrite length_rev, length_map.
  split; [destruct older; [congruence | cbn; lia]|].
  split.
  - intros Hd. apply calculate_trend_computed in Hd. lia.
  - intros Hshort. rewrite calculate_trend_short by lia. now cbn.
Qed.

Lemma trend_entries_need_two_points_witness :
  let db := healthy three_days in
  let h := summarize (window db "basil-001" 10) in
  let t := calculate_trend [70; 65]%Q 55%Q in
  history db "basil-001" 10 = Return h
  /\ trends h !! "humidity" = Some t
  /\ (2 <= length (window db "basil-001" 10))%nat
  /\ (direction t <> insufficient_data ->
      (2 <= length (tail (window db "basil-001" 10)))%nat)
  /\ ((length (tail (window db "basil-001" 10)) < 2)%nat ->
      direction t = insufficient_data
      /\ change_percent t = None /\ average_historical t = None).
Proof.
  intros db h t.
  assert (Hh : history db "basil-001" 10 = Return h) by (vm_compute; reflexivity).
  assert (Ht : trends h !! "humidity" = Some t) by (vm_compute; reflexivity).
  split; [exact Hh|]. split; [exact Ht|].
  exact (trend_entries_need_two_points db "basil-001" 10 h "humidity" t Hh Ht).
Defined.

(** With two records in the window an entry is present, and it is the
    placeholder. *)
Example two_records_give_placeholder :
  exists h,
    history (healthy (firstn 3 three_days)) "basil-001" 10 = Return h
    /\ trends h !! "humidity"
       = Some {| direction := insufficient_data; change := 0;
                 change_percent := None; average_historical := None;
                 period := None |}.
Proof. eexists. split; [reflexivity|]. vm_compute. reflexivity. Qed.

Lemma fetch_single (db : Database) (plant : string) (limit : nat)
    (row : PlantAnalysis) :
  read_fault db = None -> rows_of db plant = [row] -> (0 < limit)%nat ->
  fetch_recent db plant limit = Return [row].
Proof.
  intros Hr Hrows Hl. unfold fetch_recent. rewrite Hr.
  unfold rows_of in Hrows. rewrite Hrows. cbn.
  destruct limit as [|n]; [lia|]. cbn. now destruct n.
Qed.

(** C10.  When exactly one persisted record exists for a plant, the
    history node returns has_history = true, an empty trends map and a
    time span of 1 day. *)
Theorem single_record_history
    (db : Database) (plant : string) (limit : nat) (row : PlantAnalysis) :
  session_local db = true -> read_fault db = None -> close_fault db = None ->
  rows_of db plant = [row] -> (0 < limit)%nat ->
  exists h stats,
    history db plant limit = Return h
    /\ has_history h = true
    /\ trends h = ∅
    /\ summary h = SummaryOf stats
    /\ time_span_days stats = 1
    /\ total_analyses stats = 1%nat.
Proof.
  intros Hs Hr Hc Hrows Hl.
  rewrite (history_on_window db plant limit [row] Hs Hc
             (fetch_single db plant limit row Hr Hrows Hl)).
  eexists _, _. split; [reflexivity|].
  repeat split.
Qed.

Lemma single_record_history_witness :
  exists h stats,
    history (healthy three_days) "mint-007" 10 = Return h
    /\ has_history h = true
    /\ trends h = ∅
    /\ summary h = SummaryOf stats
    /\ time_span_days stats = 1
    /\ total_analyses stats = 1%nat.
Proof.
  apply (single_record_history (healthy three_days) "mint-007" 10
           (reading_row 2 "mint-007" (1 * day + 60) 40 900 19 "ALERT"));
    reflexivity || lia.
Defined.

(** ** The history node inside the pipeline *)

(** The handler of [history] writes its record exactly when the body
    raises. *)
Lemma history_errors_on_window (db : Database) (plant : string) (limit : nat)
    (analyses : list PlantAnalysis) :
  session_local db = true -> close_fault db = None ->
  fetch_recent db plant limit = Return analyses ->
  history_errors db plant limit = [].
Proof.
  intros Hs Hc Hf. unfold history_errors, history_body, get_db, try_finally, db_close.
  rewrite Hs, Hc, Hf. cbn. now destruct analyses.
Qed.

Lemma run_nodes_history (plants : Catalog) (db : Database) (data : SensorData)
    (state : State) (log : list string) :
  run_nodes plants db data = (Return state, log) ->
  exists h, history db (plant_id data) 10 = Return h
    /\ metadata state !! "history" = Some (HistoryOf h)
    /\ log = history_errors db (plant_id data) 10.
Proof.
  unfold run_nodes.
  destruct (soil_moisture plants _ _); [|discriminate].
  destruct (temperature plants _ _); [|discriminate].
  destruct (light plants _ _); [|discriminate].
  destruct (history_returns db (plant_id data) 10) as [h Hh]. rewrite Hh.
  intros [= <- <-]. exists h. split; [reflexivity|].
  split; [|reflexivity]. cbn. apply lookup_insert_eq.
Qed.

(** When the plant type resolves, the nodes reach their end; the state
    holds the result of the history node and the log what that node
    wrote. *)
Lemma run_nodes_returns (plants : Catalog) (db : Database) (data : SensorData)
    (entry : Plant) :
  load_plant_data plants (plant_type data) = Return entry ->
  exists state h,
    run_nodes plants db data = (Return state, history_errors db (plant_id data) 10)
    /\ history db (plant_id data) 10 = Return h
    /\ metadata state !! "history" = Some (HistoryOf h).
Proof.
  intros Hload.
  destruct (history_returns db (plant_id data) 10) as [h Hh].
  unfold run_nodes, soil_moisture, temperature, light.
  rewrite Hload. cbn [mbind outcome_bind]. rewrite Hh.
  eexists _, h. split; [reflexivity|]. split; [reflexivity|].
  cbn. apply lookup_insert_eq.
Qed.

(** ** The order of the query *)

Lemma insert_desc_perm (r : PlantAnalysis) (l : list PlantAnalysis) :
  Permutation (insert_desc r l) (r :: l).
Proof.
  induction l as [|x l IH]; cbn; [reflexivity|].
  destruct (pa_timestamp x <? pa_timestamp r); [reflexivity|].
  rewrite IH. apply perm_swap.
Qed.

Lemma order_by_timestamp_desc_perm (l : list PlantAnalysis) :
  Permutation (order_by_timestamp_desc l) l.
Proof.
  unfold order_by_timestamp_desc. induction l as [|x l IH]; cbn; [reflexivity|].
  rewrite insert_desc_perm. now rewrite IH.
Qed.

Lemma insert_desc_sorted (r : PlantAnalysis) (l : list PlantAnalysis) :
  newest_first l -> newest_first (insert_desc r l).
Proof.
  unfold newest_first. induction l as [|x l IH]; intros Hs; cbn.
  - repeat constructor.
  - inversion Hs as [|? ? Hl Hx]; subst.
    destruct (pa_timestamp x <? pa_timestamp r) eqn:E.
    + apply Z.ltb_lt in E. constructor; [exact Hs|].
      constructor; [lia|].
      eapply Forall_impl; [exact Hx|]. cbn. intros y Hy. lia.
    + apply Z.ltb_ge in E. constructor; [now apply IH|].
      rewrite (insert_desc_perm r l). constructor; [lia | exact Hx].
Qed.

Lemma order_by_timestamp_desc_sorted (l : list PlantAnalysis) :
  newest_first (order_by_timestamp_desc l).
Proof.
  unfold order_by_timestamp_desc. induction l as [|x l IH]; cbn.
  - constructor.
  - now apply insert_desc_sorted.
Qed.

(** With distinct timestamps the head of the window is the one record
    that is more recent than all the others. *)
Lemma newest_is_latest (db : Database) (plant : string) (limit : nat)
    (newest : PlantAnalysis) (older : list PlantAnalysis) :
  NoDup (map pa_timestamp (rows_of db plant)) ->
  fetch_recent db plant limit = Return (newest :: older) ->
  Forall (fun o => pa_timestamp o < pa_timestamp newest) older.
Proof.
  unfold fetch_recent. intros Hnd. destruct (read_fault db); [discriminate|].
  intros [= H]. fold (rows_of db plant) in H.
  pose proof (order_by_timestamp_desc_perm (rows_of db plant)) as Hperm.
  pose proof (order_by_timestamp_desc_sorted (rows_of db plant)) as Hsorted.
  apply (Permutation_map pa_timestamp) in Hperm.
  rewrite <- Hperm in Hnd. clear Hperm.
  rewrite <- (firstn_skipn limit (order_by_timestamp_desc (rows_of db plant)))
    in Hsorted, Hnd.
  rewrite H in Hsorted, Hnd. cbn in Hsorted, Hnd.
  inversion Hsorted as [|? ? _ Hle]; subst.
  apply NoDup_cons in Hnd as [Hnotin _].
  apply Forall_app in Hle as [Hle _].
  apply Forall_forall. intros o Ho.
  rewrite Forall_forall in Hle. specialize (Hle o Ho). cbn in Hle.
  assert (Hne : pa_timestamp o <> pa_timestamp newest).
  { intros E. apply Hnotin. rewrite <- E, map_app.
    apply elem_of_app. left. apply list_elem_of_In, in_map.
    now apply list_elem_of_In. }
  lia.
Qed.

Lemma insert_desc_ids (bound : nat) (r : PlantAnalysis) (l : list PlantAnalysis) :
  Forall (fun x => (pa_id x < bound)%nat) (r :: l) ->
  Forall (fun x => (pa_id x < bound)%nat) (insert_desc r l).
Proof.
  induction l as [|x l IH]; cbn; [auto|].
  intros H. destruct (pa_timestamp x <? pa_timestamp r); [exact H|].
  inversion H as [|? ? Hr Hrest]; subst.
  inversion Hrest as [|? ? Hx Hl]; subst.
  constructor; [exact Hx|]. apply IH. now constructor.
Qed.

(** The record a run is about to save gets an identifier above those of
    all stored rows: it is not among the rows the history node fetches. *)
Lemma fetched_rows_are_older (db : Database) (plant : string) (limit : nat) :
  Forall (fun x => (pa_id x < next_id db)%nat) (window db plant limit).
Proof.
  unfold window, fetch_recent.
  destruct (read_fault db); [constructor|].
  apply Forall_take. unfold order_by_timestamp_desc.
  assert (Hall : Forall (fun x => (pa_id x < next_id db)%nat) (rows db)).
  { unfold next_id. apply Forall_forall. intros x Hx.
    pose proof (list_max_le (map pa_id (rows db)) (list_max (map pa_id (rows db))))
      as [Hmax _].
    specialize (Hmax (Nat.le_refl _)).
    rewrite List.Forall_forall in Hmax.
    specialize (Hmax (pa_id x)). 
    assert (In (pa_id x) (map pa_id (rows db))).
    { apply in_map. now apply list_elem_of_In. }
    specialize (Hmax H). lia. }
  induction (rows db) as [|r l IH]; cbn; [constructor|].
  inversion Hall as [|? ? Hr Hl]; subst.
  destruct (pa_plant_id r =? plant)%string; cbn; [|now apply IH].
  apply insert_desc_ids. constructor; [exact Hr | now apply IH].
Qed.

(** C3, as the code has it.  The trend of each metric is computed from
    the stored records alone.  When the window holds at least 3 records,
    the most recent one and at least 2 older ones, the current value is
    that of the most recent record, the baseline is the mean of the older
    records of the window, the change is their difference, the change
    percent is the change over the mean (0 when the mean is not
    positive), all rounded to 2 decimals, and the direction is decided
    on them.  With exactly 2 records the three entries are the
    insufficient-data placeholder, and with one record there is no
    entry.  The node is called with the plant identifier alone: the same
    result comes out for every reading in flight of that plant, and the
    record of the reading, saved after the analysis, is not in the
    window.  (Timestamps are taken distinct, so that the most recent
    record is determined.) *)
Theorem trend_compares_newest_record_with_older
    (plants : Catalog) (db : Database) (data : SensorData) (entry : Plant)
    (newest : PlantAnalysis) (older : list PlantAnalysis) :
  load_plant_data plants (plant_type data) = Return entry ->
  session_local db = true -> close_fault db = None ->
  NoDup (map pa_timestamp (rows_of db (plant_id data))) ->
  fetch_recent db (plant_id data) 10 = Return (newest :: older) ->
  let computed (metric : PlantAnalysis -> Q) :=
    let current_value := metric newest in
    let baseline := mean (rev (map metric older)) in
    {| direction := trend_direction (rev (map metric older)) current_value;
       change := py_round (current_value - baseline) 2;
       change_percent :=
         Some (py_round (if Qltb 0 baseline
                         then (current_value - baseline) / baseline * 100
                         else 0) 2);
       average_historical := Some (py_round baseline 2);
       period := Some (length older) |}%Q in
  let placeholder :=
    {| direction := insufficient_data; change := 0%Q;
       change_percent := None; average_historical := None; period := None |} in
  exists state h,
    run_nodes plants db data = (Return state, [])
    /\ metadata state !! "history" = Some (HistoryOf h)
    /\ ((2 <= length older)%nat ->
        trends h !! "humidity" = Some (computed pa_humidity)
        /\ trends h !! "light" = Some (computed pa_light)
        /\ trends h !! "temperature" = Some (computed pa_temperature))
    /\ (length older = 1%nat ->
        trends h !! "humidity" = Some placeholder
        /\ trends h !! "light" = Some placeholder
        /\ trends h !! "temperature" = Some placeholder)
    /\ (older = [] -> trends h = ∅)
    /\ Forall (fun o => pa_timestamp o < pa_timestamp newest) older
    /\ Forall (fun x => (pa_id x < next_id db)%nat) (newest :: older)
    /\ (forall other entry',
          plant_id other = plant_id data ->
          load_plant_data plants (plant_type other) = Return entry' ->
          exists state',
            run_nodes plants db other = (Return state', [])
            /\ metadata state' !! "history" = Some (HistoryOf h)).
Proof.
  intros Hload Hs Hc Hnd Hf computed placeholder.
  pose proof (history_on_window _ _ _ _ Hs Hc Hf) as Hh.
  pose proof (history_errors_on_window _ _ _ _ Hs Hc Hf) as Hlog.
  destruct (run_nodes_returns plants db data entry Hload) as [state [h [Hrun [Hh' Hm]]]].
  rewrite Hlog in Hrun. rewrite Hh in Hh'. injection Hh' as <-.
  exists state, (summarize (newest :: older)).
  split; [exact Hrun|]. split; [exact Hm|].
  assert (Hentries : forall t : (PlantAnalysis -> Q) -> Trend,
             (forall metric,
                calculate_trend (rev (map metric older)) (metric newest) = t metric) ->
             older <> [] ->
             trends (summarize (newest :: older)) !! "humidity" = Some (t pa_humidity)
             /\ trends (summarize (newest :: older)) !! "light" = Some (t pa_light)
             /\ trends (summarize (newest :: older)) !! "temperature"
                = Some (t pa_temperature)).
  { intros t Ht Hne. rewrite summarize_trends.
    destruct older as [|second rest]; [congruence|].
    rewrite <- !Ht. split; [|split].
    - rewrite !lookup_insert_ne by done. apply lookup_insert_eq.
    - rewrite lookup_insert_ne by done. apply lookup_insert_eq.
    - apply lookup_insert_eq. }
  assert (Hl : forall metric : PlantAnalysis -> Q,
             length (rev (map metric older)) = length older)
    by (intros metric; now rewrite length_rev, length_map).
  split; [|split; [|split; [|split; [|split]]]].
  - intros Hlen. apply (Hentries computed); [|destruct older; [cbn in Hlen; lia | discriminate]].
    intros metric. unfold calculate_trend, computed. rewrite Hl.
    destruct (length older <? 2)%nat eqn:E; [apply Nat.ltb_lt in E; lia | reflexivity].
  - intros Hlen. apply (Hentries (fun _ => placeholder));
      [|destruct older; [discriminate Hlen | discriminate]].
    intros metric. apply calculate_trend_short. rewrite Hl. lia.
  - intros ->. now rewrite summarize_trends.
  - exact (newest_is_latest _ _ _ _ _ Hnd Hf).
  - pose proof (fetched_rows_are_older db (plant_id data) 10) as H.
    unfold window in H. now rewrite Hf in H.
  - intros other entry' Hid Hload'.
    destruct (run_nodes_returns plants db other entry' Hload')
      as [state' [h' [Hrun' [Hh'' Hm']]]].
    rewrite Hid, Hlog in Hrun'. rewrite Hid, Hh in Hh''. injection Hh'' as <-.
    now exists state'.
Qed.

Lemma trend_compares_newest_record_with_older_witness :
  let db := healthy three_days in
  exists state h,
    run_nodes [basil] db basil_reading = (Return state, [])
    /\ metadata state !! "history" = Some (HistoryOf h)
    /\ trends h !! "humidity"
       = Some {| direction := decreasing;
                 change := py_round (55 - 135 / 2) 2;
                 change_percent := Some (py_round ((55 - 135 / 2) / (135 / 2) * 100) 2);
                 average_historical := Some (py_round (135 / 2) 2);
                 period := Some 2%nat |}%Q.
Proof.
  intros db.
  assert (Hnd : NoDup (map pa_timestamp (rows_of db (plant_id basil_reading))))
    by (apply (bool_decide_unpack _); vm_compute; exact I).
  destruct (trend_compares_newest_record_with_older [basil] db basil_reading basil
              (reading_row 4 "basil-001" (3 * day) 55 1200 22 "ALERT")
              [reading_row 3 "basil-001" (2 * day) 65 1200 22 "OK";
               reading_row 1 "basil-001" (1 * day) 70 1200 22 "OK"]
              eq_refl eq_refl eq_refl Hnd eq_refl)
    as [state [h [Hrun [Hm [Hthree _]]]]].
  exists state, h. split; [exact Hrun|]. split; [exact Hm|].
  destruct (Hthree ltac:(cbn; lia)) as [Hhum _].
  rewrite Hhum. vm_compute. reflexivity.
Defined.

(** C3 fails as stated.  Three records with humidity 70, 65 and 55 are
    stored and the reading in flight has humidity 50.  The claim asks for
    the trend of 50 against the mean of 70, 65 and 55, a change of -13.33;
    the history node reports the trend of 55 against the mean of 70 and
    65, a change of -12.5, whatever the reading in flight is. *)
Lemma trend_does_not_use_reading_in_flight :
  exists h t,
    humidity basil_reading = 50%Q
    /\ map pa_humidity (window (healthy three_days) "basil-001" 10)
       = [55; 65; 70]%Q
    /\ run_nodes [basil] (healthy three_days) basil_reading
       = (Return basil_state, [])
    /\ metadata basil_state !! "history" = Some (HistoryOf h)
    /\ trends h !! "humidity" = Some t
    /\ t = calculate_trend [70; 65]%Q 55%Q
    /\ (change t == - (25 # 2))%Q
    /\ (change (calculate_trend [70; 65; 55]%Q (humidity basil_reading))
        == - (1333 # 100))%Q.
Proof.
  assert (Hrun : run_nodes [basil] (healthy three_days) basil_reading
                 = (Return basil_state, [])) by (vm_compute; reflexivity).
  destruct (run_nodes_history _ _ _ _ _ Hrun) as [h [Hh [Hm _]]].
  exists h, (calculate_trend [70; 65]%Q 55%Q).
  split; [reflexivity|]. split; [reflexivity|].
  split; [exact Hrun|]. split; [exact Hm|].
  assert (Hw : fetch_recent (healthy three_days) "basil-001" 10
               = Return (window (healthy three_days) "basil-001" 10))
    by reflexivity.
  change (plant_id basil_reading) with "basil-001" in Hh.
  rewrite (history_on_window (healthy three_days) "basil-001" 10 _
             eq_refl eq_refl Hw) in Hh.
  injection Hh as <-.
  split; [vm_compute; reflexivity|].
  split; [reflexivity|].
  split; vm_compute; reflexivity.
Qed.

Lemma trend_line_empty (metric : string) : trend_line metric ∅ = Return [].
Proof. unfold trend_line. now rewrite lookup_empty. Qed.

(** Without history the prompt is built. *)
Lemma build_prompt_without_history (state : State) (h : HistoryResult) :
  metadata state !! "history" = Some (HistoryOf h) ->
  has_history h = false ->
  build_prompt state
  = Return {| prompt_state := state; prompt_trends := []; prompt_recent := [] |}.
Proof. intros Hm Hh. unfold build_prompt. now rewrite Hm, Hh. Qed.

(** C5.  The history node is total.  It returns for every store, plant
    and limit; an exception of its body (an uninitialised store, a failing
    read, a failing close) becomes a result with has_history = false whose
    summary carries the text of the exception; with no record for the
    plant it returns has_history = false; and in the pipeline, whenever
    the plant type resolves, the nodes reach their end with the node's
    result in the state, the log holding nothing but the record the node
    wrote for its own failure, and a result with has_history = false lets
    the prompt be built. *)
Theorem history_never_raises (db : Database) (plant : string) (limit : nat) :
  returns (history db plant limit)
  /\ (forall e, history_body db plant limit = Raise e ->
        exists h, history db plant limit = Return h
          /\ has_history h = false
          /\ summary h
             = SummaryMessage 0 ("Error retrieving history: " ++ exn_text e))
  /\ (session_local db = true -> read_fault db = None -> close_fault db = None ->
      rows_of db plant = [] ->
        exists h, history db plant limit = Return h
          /\ has_history h = false
          /\ summary h = SummaryMessage 0 "No historical data available")
  /\ (forall plants data entry,
        plant_id data = plant ->
        load_plant_data plants (plant_type data) = Return entry ->
        exists state h,
          run_nodes plants db data = (Return state, history_errors db plant 10)
          /\ (returns (history_body db plant 10) -> history_errors db plant 10 = [])
          /\ history db plant 10 = Return h
          /\ metadata state !! "history" = Some (HistoryOf h)
          /\ (has_history h = false -> returns (build_prompt state))).
Proof.
  split; [apply history_returns|]. split; [|split].
  - intros e He. unfold history. rewrite He. cbn.
    eexists. split; [reflexivity|]. now split.
  - intros Hs Hr Hc Hrows.
    assert (Hf : fetch_recent db plant limit = Return []).
    { unfold fetch_recent. rewrite Hr. unfold rows_of in Hrows. rewrite Hrows.
      cbn. now destruct limit. }
    rewrite (history_on_window _ _ _ _ Hs Hc Hf).
    eexists. split; [reflexivity|]. now split.
  - intros plants data entry <- Hload.
    destruct (run_nodes_returns plants db data entry Hload)
      as [state [h [Hrun [Hh Hm]]]].
    exists state, h. split; [exact Hrun|].
    split; [now intros [r Hr]; unfold history_errors; rewrite Hr|].
    split; [exact Hh|]. split; [exact Hm|].
    intros Hno. eexists. eapply build_prompt_without_history; [exact Hm | exact Hno].
Qed.

Lemma history_never_raises_witness :
  let db := unreachable three_days in
  history_body db "basil-001" 10 = Raise connection_lost
  /\ exists h, history db "basil-001" 10 = Return h
       /\ has_history h = false
       /\ summary h
          = SummaryMessage 0
              "Error retrieving history: Can't connect to MySQL server".
Proof.
  intros db.
  assert (He : history_body db "basil-001" 10 = Raise connection_lost)
    by reflexivity.
  split; [exact He|].
  destruct (history_never_raises db "basil-001" 10) as [_ [Herr _]].
  exact (Herr connection_lost He).
Defined.

(** With a failing store the run still reaches the engine. *)
Example unreachable_store_does_not_stop_the_run :
  fst (analyse strict_runtime (Some (scripted dry_soil_answer)) [basil]
         (unreachable three_days) basil_reading)
  = Return dry_soil_response.
Proof. vm_compute. reflexivity. Qed.

(** With exactly two records the history node succeeds, with placeholder
    entries; the prompt builder then reads a key the placeholder lacks. *)
Example two_records_stop_the_prompt :
  exists state e,
    run_nodes [basil] (healthy (firstn 3 three_days)) basil_reading
    = (Return state, [])
    /\ build_prompt state = Raise e
    /\ exn_class e = KeyError.
Proof. eexists _, _. split; [reflexivity|]. split; vm_compute; reflexivity. Qed.

(** ** Persistence *)

Lemma history_ignores_write_fault (fault : option exn) (db : Database)
    (plant : string) (limit : nat) :
  history (with_write_fault fault db) plant limit = history db plant limit.
Proof. reflexivity. Qed.





(** Without a fault the same run stores one more row and returns the same
    result. *)
Example successful_run_appends_a_row :
  let run := process_with_pipeline strict_runtime (Some (scripted dry_soil_answer))
               [basil] (healthy three_days) basil_reading None (4 * day) in
  result run = Return dry_soil_response
  /\ length (rows (store run)) = 5%nat
  /\ errors_logged run = [].
Proof. vm_compute. repeat split. Qed.

(** ** The JSON decoder: enough fuel, and what it consumes *)

Lemma skip_ws_length (s : pystr) : (length (skip_ws s) <= length s)%nat.
Proof.
  induction s as [|c r IH]; cbn; [lia|].
  destruct (is_json_space c); cbn; lia.
Qed.

(** Case analysis on every test and pattern match a scanner performs. *)
Ltac scan_cases H :=
  repeat match type of H with
         | context [match ?x with _ => _ end] =>
             let E := fresh "E" in
             destruct x eqn:E; try discriminate H; subst
         end.

Lemma scanstring_shrinks (n : nat) :
  forall s acc str rest,
    (length s <= n)%nat ->
    scanstring s acc = Parsed str rest -> (length rest < length s)%nat.
Proof.
  induction n as [|n IH]; intros s acc str rest Hn H.
  - destruct s; [discriminate H | cbn in Hn; lia].
  - destruct s as [|c r]; [discriminate H|].
    cbn [scanstring] in H. cbn [length] in *.
    scan_cases H;
      try (injection H as <- <-; cbn [length]; lia);
      try (apply IH in H; cbn [length] in *; lia).
Qed.

Lemma scanstring_has_fuel (n : nat) :
  forall s acc, (length s <= n)%nat -> scanstring s acc <> NoFuel.
Proof.
  induction n as [|n IH]; intros s acc Hn H.
  - destruct s; [discriminate H | cbn in Hn; lia].
  - destruct s as [|c r]; [discriminate H|].
    cbn [scanstring] in H. cbn [length] in *.
    scan_cases H; try (apply IH in H; [exact H | cbn [length] in *; lia]).
Qed.

Lemma take_digits_length (s ds rest : pystr) :
  take_digits s = (ds, rest) -> length s = (length ds + length rest)%nat.
Proof.
  revert ds rest. induction s as [|c r IH]; intros ds rest H; cbn in H.
  - now injection H as <- <-.
  - destruct (is_digit c).
    + destruct (take_digits r) as [ds' rest'] eqn:E.
      injection H as <- <-. cbn. now rewrite (IH _ _ eq_refl).
    + now injection H as <- <-.
Qed.

Lemma strip_prefix_length (word s rest : pystr) :
  strip_prefix word s = Some rest -> length s = (length word + length rest)%nat.
Proof.
  revert s. induction word as [|w word IH]; intros s H; cbn in H.
  - now injection H as <-.
  - destruct s as [|c s']; [discriminate|].
    destruct (w =? c)%N; [|discriminate]. cbn. now rewrite (IH _ H).
Qed.

Lemma scan_constant_shrinks (s : pystr) (v : json) (rest : pystr) :
  scan_constant s = Some (v, rest) -> (length rest < length s)%nat.
Proof.
  unfold scan_constant. intros H.
  repeat match type of H with
         | context [strip_prefix ?w s] =>
             let E := fresh "E" in
             destruct (strip_prefix w s) eqn:E;
             [apply strip_prefix_length in E; injection H as <- <-;
              rewrite E; cbn; lia|]
         end.
  discriminate.
Qed.

Lemma scan_frac_length (s frac rest : pystr) :
  scan_frac s = (frac, rest) -> length s = (length frac + length rest)%nat.
Proof.
  unfold scan_frac. intros H.
  destruct s as [|dot [|d r]]; try (now injection H as <- <-).
  destruct ((dot =? 46)%N && is_digit d)%bool; [|now injection H as <- <-].
  destruct (take_digits r) as [ds rest'] eqn:E. injection H as <- <-.
  apply take_digits_length in E. cbn. lia.
Qed.

Lemma scan_exp_length (s exp rest : pystr) :
  scan_exp s = (exp, rest) -> length s = (length exp + length rest)%nat.
Proof.
  unfold scan_exp. intros H.
  repeat match type of H with
         | context [take_digits ?r] =>
             let E := fresh "E" in
             destruct (take_digits r) eqn:E; apply take_digits_length in E
         | context [match ?x with _ => _ end] =>
             let E := fresh "E" in destruct x eqn:E; subst
         end;
    injection H as <- <-; cbn [length] in *; lia.
Qed.

Lemma scan_int_part_length (s int_part rest : pystr) :
  scan_int_part s = Some (int_part, rest) ->
  length s = (length int_part + length rest)%nat /\ int_part <> [].
Proof.
  unfold scan_int_part. intros H.
  destruct s as [|c r]; [discriminate|].
  destruct (c =? 48)%N; [injection H as <- <-; now cbn|].
  destruct (is_digit c); [|discriminate].
  destruct (take_digits r) as [ds rest'] eqn:E. injection H as <- <-.
  apply take_digits_length in E. cbn. split; [lia | discriminate].
Qed.

Lemma scan_number_shrinks (limit : nat) (s : pystr) (v : json) (rest : pystr) :
  scan_number limit s = Parsed v rest -> (length rest < length s)%nat.
Proof.
  unfold scan_number. intros H.
  destruct (match s with
            | [] => ([], s)
            | c :: r => if (c =? 45)%N then ([c], r) else ([], s)
            end) as [sign s1] eqn:Es.
  assert (Hs1 : (length s1 <= length s)%nat).
  { destruct s as [|c r]; [now injection Es as <- <-|].
    destruct (c =? 45)%N; injection Es as <- <-; cbn; lia. }
  destruct (scan_int_part s1) as [[int_part s2]|] eqn:Ei; [|discriminate].
  apply scan_int_part_length in Ei as [Hlen Hne].
  destruct (scan_frac s2) as [frac s3] eqn:Ef. apply scan_frac_length in Ef.
  destruct (scan_exp s3) as [exp s4] eqn:Ee. apply scan_exp_length in Ee.
  assert (0 < length int_part)%nat by (destruct int_part; [congruence | cbn; lia]).
  destruct frac, exp; try destruct (exceeds_int_limit _ _); try discriminate;
    injection H as <- <-; cbn [length] in *; lia.
Qed.

Lemma scan_number_has_fuel (limit : nat) (s : pystr) : scan_number limit s <> NoFuel.
Proof.
  unfold scan_number.
  destruct (match s with
            | [] => ([], s)
            | c :: r => if (c =? 45)%N then ([c], r) else ([], s)
            end) as [sign s1].
  destruct (scan_int_part s1) as [[int_part s2]|]; [|discriminate].
  destruct (scan_frac s2) as [frac s3]. destruct (scan_exp s3) as [exp s4].
  destruct frac, exp; try destruct (exceeds_int_limit _ _); discriminate.
Qed.

Lemma scan_scalar_shrinks (limit : nat) (s : pystr) (v : json) (rest : pystr) :
  scan_scalar limit s = Parsed v rest -> (length rest < length s)%nat.
Proof.
  unfold scan_scalar.
  destruct (scan_constant s) as [[v' r']|] eqn:E.
  - intros [= <- <-]. now apply scan_constant_shrinks in E.
  - apply scan_number_shrinks.
Qed.

Lemma scan_scalar_has_fuel (limit : nat) (s : pystr) : scan_scalar limit s <> NoFuel.
Proof.
  unfold scan_scalar. destruct (scan_constant s) as [[v r]|]; [discriminate|].
  apply scan_number_has_fuel.
Qed.

(** Each of the three scanners consumes at least one character. *)
Lemma scanners_shrink (limit fuel : nat) :
  (forall depth s v rest, scan_once limit fuel depth s = Parsed v rest ->
     (length rest < length s)%nat)
  /\ (forall depth s acc v rest, scan_members limit fuel depth s acc = Parsed v rest ->
        (length rest < length s)%nat)
  /\ (forall depth s acc v rest, scan_items limit fuel depth s acc = Parsed v rest ->
        (length rest < length s)%nat).
Proof.
  induction fuel as [|fuel [IHonce [IHmembers IHitems]]];
    [repeat split; intros; discriminate|].
  split; [|split].
  - intros depth s v rest H. cbn [scan_once] in H.
    destruct s as [|c r]; [discriminate|]. cbn [length].
    pose proof (skip_ws_length r) as Hws.
    destruct (c =? 34)%N.
    { destruct (scanstring r []) as [str rest'| | |] eqn:E; try discriminate.
      injection H as <- <-.
      apply (scanstring_shrinks (length r)) in E; lia. }
    destruct (c =? 123)%N.
    { destruct depth as [|depth]; [discriminate|].
      destruct (skip_ws r) as [|x r1]; [discriminate|]. cbn [length] in Hws.
      destruct (x =? 125)%N; [injection H as <- <-; lia|].
      destruct (x =? 34)%N; [|discriminate].
      apply IHmembers in H. lia. }
    destruct (c =? 91)%N.
    { destruct depth as [|depth]; [discriminate|].
      destruct (skip_ws r) as [|x r1]; [discriminate|]. cbn [length] in Hws.
      destruct (x =? 93)%N; [injection H as <- <-; lia|].
      apply IHitems in H. cbn [length] in H. lia. }
    apply scan_scalar_shrinks in H. cbn [length] in H. lia.
  - intros depth s acc v rest H. cbn [scan_members] in H.
    destruct (scanstring s []) as [key r| | |] eqn:Ek; try discriminate.
    apply (scanstring_shrinks (length s)) in Ek; [|lia].
    pose proof (skip_ws_length r) as Hr.
    destruct (skip_ws r) as [|colon r1]; [discriminate|]. cbn [length] in Hr.
    destruct (colon =? 58)%N; [|discriminate].
    pose proof (skip_ws_length r1) as Hr1.
    destruct (scan_once limit fuel depth (skip_ws r1)) as [value r2| | |] eqn:Ev;
      try discriminate.
    apply IHonce in Ev.
    pose proof (skip_ws_length r2) as Hr2.
    destruct (skip_ws r2) as [|x r3]; [discriminate|]. cbn [length] in Hr2.
    destruct (x =? 125)%N; [injection H as <- <-; lia|].
    destruct (x =? 44)%N; [|discriminate].
    pose proof (skip_ws_length r3) as Hr3.
    destruct (skip_ws r3) as [|q r4]; [discriminate|]. cbn [length] in Hr3.
    destruct (q =? 34)%N; [|discriminate].
    apply IHmembers in H. lia.
  - intros depth s acc v rest H. cbn [scan_items] in H.
    destruct (scan_once limit fuel depth s) as [value r| | |] eqn:Ev; try discriminate.
    apply IHonce in Ev.
    pose proof (skip_ws_length r) as Hr.
    destruct (skip_ws r) as [|x r1]; [discriminate|]. cbn [length] in Hr.
    destruct (x =? 93)%N; [injection H as <- <-; lia|].
    destruct (x =? 44)%N; [|discriminate].
    pose proof (skip_ws_length r1) as Hr1.
    apply IHitems in H. lia.
Qed.

(** The fuel [json_loads] provides is never used up. *)
Lemma scanners_have_fuel (limit fuel : nat) :
  (forall depth s, (2 * length s < fuel)%nat -> scan_once limit fuel depth s <> NoFuel)
  /\ (forall depth s acc, (2 * length s + 1 < fuel)%nat ->
        scan_members limit fuel depth s acc <> NoFuel)
  /\ (forall depth s acc, (2 * length s + 1 < fuel)%nat ->
        scan_items limit fuel depth s acc <> NoFuel).
Proof.
  induction fuel as [|fuel [IHonce [IHmembers IHitems]]];
    [repeat split; intros; lia|].
  split; [|split].
  - intros depth s Hf H. cbn [scan_once] in H.
    destruct s as [|c r]; [discriminate|]. cbn [length] in Hf.
    pose proof (skip_ws_length r) as Hws.
    destruct (c =? 34)%N.
    { destruct (scanstring r []) as [str rest'| | |] eqn:E; try discriminate.
      now apply (scanstring_has_fuel (length r)) in E. }
    destruct (c =? 123)%N.
    { destruct depth as [|depth]; [discriminate|].
      destruct (skip_ws r) as [|x r1]; [discriminate|]. cbn [length] in Hws.
      destruct (x =? 125)%N; [discriminate|].
      destruct (x =? 34)%N; [|discriminate].
      apply IHmembers in H; [exact H | lia]. }
    destruct (c =? 91)%N.
    { destruct depth as [|depth]; [discriminate|].
      destruct (skip_ws r) as [|x r1]; [discriminate|]. cbn [length] in Hws.
      destruct (x =? 93)%N; [discriminate|].
      apply IHitems in H; [exact H | cbn [length]; lia]. }
    now apply scan_scalar_has_fuel in H.
  - intros depth s acc Hf H. cbn [scan_members] in H.
    destruct (scanstring s []) as [key r| | |] eqn:Ek; try discriminate;
      [|now apply (scanstring_has_fuel (length s)) in Ek].
    apply (scanstring_shrinks (length s)) in Ek; [|lia].
    pose proof (skip_ws_length r) as Hr.
    destruct (skip_ws r) as [|colon r1]; [discriminate|]. cbn [length] in Hr.
    destruct (colon =? 58)%N; [|discriminate].
    pose proof (skip_ws_length r1) as Hr1.
    destruct (scan_once limit fuel depth (skip_ws r1)) as [value r2| | |] eqn:Ev;
      try discriminate; [|apply IHonce in Ev; [exact Ev | lia]].
    apply (proj1 (scanners_shrink limit fuel)) in Ev.
    pose proof (skip_ws_length r2) as Hr2.
    destruct (skip_ws r2) as [|x r3]; [discriminate|]. cbn [length] in Hr2.
    destruct (x =? 125)%N; [discriminate|].
    destruct (x =? 44)%N; [|discriminate].
    pose proof (skip_ws_length r3) as Hr3.
    destruct (skip_ws r3) as [|q r4]; [discriminate|]. cbn [length] in Hr3.
    destruct (q =? 34)%N; [|discriminate].
    apply IHmembers in H; [exact H | lia].
  - intros depth s acc Hf H. cbn [scan_items] in H.
    destruct (scan_once limit fuel depth s) as [value r| | |] eqn:Ev; try discriminate;
      [|apply IHonce in Ev; [exact Ev | lia]].
    apply (proj1 (scanners_shrink limit fuel)) in Ev.
    pose proof (skip_ws_length r) as Hr.
    destruct (skip_ws r) as [|x r1]; [discriminate|]. cbn [length] in Hr.
    destruct (x =? 93)%N; [discriminate|].
    destruct (x =? 44)%N; [|discriminate].
    pose proof (skip_ws_length r1) as Hr1.
    apply IHitems in H; [exact H | lia].
Qed.

(** ** The JSON decoder: where it stops, and what makes it fail *)

Lemma skip_ws_suffix (s : pystr) : skip_ws s `suffix_of` s.
Proof.
  induction s as [|c r IH]; cbn; [reflexivity|].
  destruct (is_json_space c); [now apply suffix_cons_r | reflexivity].
Qed.

Lemma scanstring_suffix (n : nat) :
  forall s acc str rest,
    (length s <= n)%nat ->
    scanstring s acc = Parsed str rest -> rest `suffix_of` s.
Proof.
  induction n as [|n IH]; intros s acc str rest Hn H.
  - destruct s; [discriminate H | cbn in Hn; lia].
  - destruct s as [|c r]; [discriminate H|].
    cbn [scanstring] in H. cbn [length] in *.
    scan_cases H;
      try (injection H as <- <-; apply suffix_cons_r; reflexivity);
      try (apply IH in H; [|cbn [length] in *; lia];
           repeat (assumption || apply suffix_cons_r)).
Qed.

Lemma scanstring_never_fails (n : nat) :
  forall s acc e, (length s <= n)%nat -> scanstring s acc <> Failed e.
Proof.
  induction n as [|n IH]; intros s acc e Hn H.
  - destruct s; [discriminate H | cbn in Hn; lia].
  - destruct s as [|c r]; [discriminate H|].
    cbn [scanstring] in H. cbn [length] in *.
    scan_cases H; try (apply IH in H; [exact H | cbn [length] in *; lia]).
Qed.

Lemma take_digits_app (s ds rest : pystr) :
  take_digits s = (ds, rest) -> s = ds ++ rest /\ length ds = digit_prefix s.
Proof.
  revert ds rest. induction s as [|c r IH]; intros ds rest H; cbn in H.
  - now injection H as <- <-.
  - cbn [digit_prefix]. destruct (is_digit c).
    + destruct (take_digits r) as [ds' rest'] eqn:E.
      injection H as <- <-. destruct (IH _ _ eq_refl) as [-> Hl].
      cbn. now rewrite Hl.
    + now injection H as <- <-.
Qed.

Lemma strip_prefix_suffix (word s rest : pystr) :
  strip_prefix word s = Some rest -> rest `suffix_of` s.
Proof.
  revert s. induction word as [|w word IH]; intros s H; cbn in H.
  - now injection H as <-.
  - destruct s as [|c s']; [discriminate|].
    destruct (w =? c)%N; [|discriminate]. apply suffix_cons_r. now apply IH.
Qed.

Lemma scan_constant_suffix (s : pystr) (v : json) (rest : pystr) :
  scan_constant s = Some (v, rest) -> rest `suffix_of` s.
Proof.
  unfold scan_constant. intros H.
  repeat match type of H with
         | context [strip_prefix ?w s] =>
             let E := fresh "E" in
             destruct (strip_prefix w s) eqn:E;
             [apply strip_prefix_suffix in E; now injection H as <- <-|]
         end.
  discriminate.
Qed.

Lemma scan_frac_suffix (s frac rest : pystr) :
  scan_frac s = (frac, rest) -> rest `suffix_of` s.
Proof.
  unfold scan_frac. intros H.
  destruct s as [|dot [|d r]]; try (now injection H as <- <-).
  destruct ((dot =? 46)%N && is_digit d)%bool; [|now injection H as <- <-].
  destruct (take_digits r) as [ds rest'] eqn:E. injection H as <- <-.
  apply take_digits_app in E as [-> _].
  do 2 apply suffix_cons_r. now apply suffix_app_r.
Qed.

Lemma scan_exp_suffix (s exp rest : pystr) :
  scan_exp s = (exp, rest) -> rest `suffix_of` s.
Proof.
  unfold scan_exp. intros H.
  repeat match type of H with
         | context [take_digits ?r] =>
             let E := fresh "E" in
             destruct (take_digits r) eqn:E; apply take_digits_app in E as [E _]
         | context [match ?x with _ => _ end] =>
             let E := fresh "E" in destruct x eqn:E; subst
         end;
    injection H as <- <-; try reflexivity;
    repeat apply suffix_cons_r; now apply suffix_app_r.
Qed.

Lemma scan_int_part_digits (s int_part rest : pystr) :
  scan_int_part s = Some (int_part, rest) ->
  rest `suffix_of` s /\ (length int_part <= digit_prefix s)%nat.
Proof.
  unfold scan_int_part. intros H.
  destruct s as [|c r]; [discriminate|]. cbn [digit_prefix].
  destruct (c =? 48)%N eqn:E0.
  { injection H as <- <-. apply N.eqb_eq in E0. subst c.
    split; [apply suffix_cons_r; reflexivity | cbn; lia]. }
  destruct (is_digit c); [|discriminate].
  destruct (take_digits r) as [ds rest'] eqn:E. injection H as <- <-.
  apply take_digits_app in E as [-> Hl].
  split; [apply suffix_cons_r; now apply suffix_app_r | cbn; lia].
Qed.

Lemma longest_digit_run_suffix (s' s : pystr) :
  s' `suffix_of` s -> (longest_digit_run s' <= longest_digit_run s)%nat.
Proof.
  intros [k ->]. induction k as [|c k IH]; [reflexivity|].
  cbn [app longest_digit_run]. lia.
Qed.

Lemma digit_prefix_le (s : pystr) : (digit_prefix s <= longest_digit_run s)%nat.
Proof. destruct s; cbn [longest_digit_run]; [reflexivity | lia]. Qed.

Lemma openers_suffix (s' s : pystr) :
  s' `suffix_of` s -> (openers s' <= openers s)%nat.
Proof.
  intros [k ->]. unfold openers. rewrite List.filter_app, length_app. lia.
Qed.

Lemma limit_met_suffix (limit depth : nat) (s' s : pystr) (e : exn) :
  s' `suffix_of` s -> limit_met limit depth s' e -> limit_met limit depth s e.
Proof.
  intros Hs [[digits [-> [Hx Hd]]] | [what [-> Hd]]].
  - left. exists digits. split; [reflexivity|]. split; [exact Hx|].
    pose proof (longest_digit_run_suffix _ _ Hs). lia.
  - right. exists what. split; [reflexivity|].
    pose proof (openers_suffix _ _ Hs). lia.
Qed.

Lemma limit_met_enter (limit depth : nat) (c : N) (r : pystr) (e : exn) :
  is_opener c = true ->
  limit_met limit depth r e -> limit_met limit (S depth) (c :: r) e.
Proof.
  intros Hc [[digits [-> [Hx Hd]]] | [what [-> Hd]]].
  - left. exists digits. split; [reflexivity|]. split; [exact Hx|].
    cbn [longest_digit_run]. lia.
  - right. exists what. split; [reflexivity|].
    unfold openers in *. cbn [List.filter]. rewrite Hc. cbn [length]. lia.
Qed.

Lemma scan_number_fails (limit : nat) (s : pystr) (e : exn) :
  scan_number limit s = Failed e ->
  exists digits,
    e = int_too_long limit digits
    /\ exceeds_int_limit limit digits = true
    /\ (digits <= longest_digit_run s)%nat.
Proof.
  unfold scan_number. intros H.
  destruct (match s with
            | [] => ([], s)
            | c :: r => if (c =? 45)%N then ([c], r) else ([], s)
            end) as [sign s1] eqn:Es.
  assert (Hs1 : s1 `suffix_of` s).
  { destruct s as [|c r]; [now injection Es as <- <-|].
    destruct (c =? 45)%N; injection Es as <- <-;
      [apply suffix_cons_r|]; reflexivity. }
  destruct (scan_int_part s1) as [[int_part s2]|] eqn:Ei; [|discriminate].
  apply scan_int_part_digits in Ei as [_ Hlen].
  destruct (scan_frac s2) as [frac s3]. destruct (scan_exp s3) as [exp s4].
  destruct frac, exp; try discriminate.
  destruct (exceeds_int_limit limit (length int_part)) eqn:Ex; [|discriminate].
  injection H as <-. exists (length int_part).
  split; [reflexivity|]. split; [exact Ex|].
  pose proof (digit_prefix_le s1). pose proof (longest_digit_run_suffix _ _ Hs1). lia.
Qed.

Lemma scan_number_suffix (limit : nat) (s : pystr) (v : json) (rest : pystr) :
  scan_number limit s = Parsed v rest -> rest `suffix_of` s.
Proof.
  unfold scan_number. intros H.
  destruct (match s with
            | [] => ([], s)
            | c :: r => if (c =? 45)%N then ([c], r) else ([], s)
            end) as [sign s1] eqn:Es.
  assert (Hs1 : s1 `suffix_of` s).
  { destruct s as [|c r]; [now injection Es as <- <-|].
    destruct (c =? 45)%N; injection Es as <- <-;
      [apply suffix_cons_r|]; reflexivity. }
  destruct (scan_int_part s1) as [[int_part s2]|] eqn:Ei; [|discriminate].
  apply scan_int_part_digits in Ei as [Hs2 _].
  destruct (scan_frac s2) as [frac s3] eqn:Ef. apply scan_frac_suffix in Ef.
  destruct (scan_exp s3) as [exp s4] eqn:Ee. apply scan_exp_suffix in Ee.
  assert (Hs4 : s4 `suffix_of` s).
  { etrans; [exact Ee|]. etrans; [exact Ef|]. etrans; [exact Hs2 | exact Hs1]. }
  destruct frac, exp; try destruct (exceeds_int_limit _ _); try discriminate;
    now injection H as <- <-.
Qed.

Lemma scan_scalar_suffix (limit : nat) (s : pystr) (v : json) (rest : pystr) :
  scan_scalar limit s = Parsed v rest -> rest `suffix_of` s.
Proof.
  unfold scan_scalar.
  destruct (scan_constant s) as [[v' r']|] eqn:E.
  - intros [= <- <-]. now apply scan_constant_suffix in E.
  - apply scan_number_suffix.
Qed.

Lemma scan_scalar_fails (limit depth : nat) (s : pystr) (e : exn) :
  scan_scalar limit s = Failed e -> limit_met limit depth s e.
Proof.
  unfold scan_scalar. destruct (scan_constant s) as [[v r]|]; [discriminate|].
  intros H. left. now apply scan_number_fails.
Qed.

(** What a scanner leaves is the end of what it was given. *)
Lemma scanners_suffix (limit fuel : nat) :
  (forall depth s v rest, scan_once limit fuel depth s = Parsed v rest ->
     rest `suffix_of` s)
  /\ (forall depth s acc v rest, scan_members limit fuel depth s acc = Parsed v rest ->
        rest `suffix_of` s)
  /\ (forall depth s acc v rest, scan_items limit fuel depth s acc = Parsed v rest ->
        rest `suffix_of` s).
Proof.
  induction fuel as [|fuel [IHonce [IHmembers IHitems]]];
    [repeat split; intros; discriminate|].
  split; [|split].
  - intros depth s v rest H. cbn [scan_once] in H.
    destruct s as [|c r]; [discriminate|].
    pose proof (skip_ws_suffix r) as Hws.
    destruct (c =? 34)%N.
    { destruct (scanstring r []) as [str rest'| | |] eqn:E; try discriminate.
      injection H as <- <-.
      apply (scanstring_suffix (length r)) in E; [|lia]. now apply suffix_cons_r. }
    destruct (c =? 123)%N.
    { destruct depth as [|depth]; [discriminate|].
      destruct (skip_ws r) as [|x r1]; [discriminate|].
      apply suffix_cons_r.
      assert (Hr1 : r1 `suffix_of` r)
        by (etrans; [|exact Hws]; apply suffix_cons_r; reflexivity).
      destruct (x =? 125)%N; [now injection H as <- <-|].
      destruct (x =? 34)%N; [|discriminate].
      apply IHmembers in H. etrans; [exact H | exact Hr1]. }
    destruct (c =? 91)%N.
    { destruct depth as [|depth]; [discriminate|].
      destruct (skip_ws r) as [|x r1]; [discriminate|].
      apply suffix_cons_r.
      destruct (x =? 93)%N.
      { injection H as <- <-. etrans; [|exact Hws]. apply suffix_cons_r; reflexivity. }
      apply IHitems in H. etrans; [exact H | exact Hws]. }
    now apply scan_scalar_suffix in H.
  - intros depth s acc v rest H. cbn [scan_members] in H.
    destruct (scanstring s []) as [key r| | |] eqn:Ek; try discriminate.
    apply (scanstring_suffix (length s)) in Ek; [|lia].
    pose proof (skip_ws_suffix r) as Hr.
    destruct (skip_ws r) as [|colon r1]; [discriminate|].
    destruct (colon =? 58)%N; [|discriminate].
    pose proof (skip_ws_suffix r1) as Hr1.
    destruct (scan_once limit fuel depth (skip_ws r1)) as [value r2| | |] eqn:Ev;
      try discriminate.
    apply IHonce in Ev.
    assert (Hr2 : r2 `suffix_of` s).
    { etrans; [exact Ev|]. etrans; [exact Hr1|].
      etrans; [|exact Ek]. etrans; [|exact Hr]. apply suffix_cons_r; reflexivity. }
    pose proof (skip_ws_suffix r2) as Hws2.
    destruct (skip_ws r2) as [|x r3]; [discriminate|].
    assert (Hr3 : r3 `suffix_of` s).
    { etrans; [|exact Hr2]. etrans; [|exact Hws2]. apply suffix_cons_r; reflexivity. }
    destruct (x =? 125)%N; [now injection H as <- <-|].
    destruct (x =? 44)%N; [|discriminate].
    pose proof (skip_ws_suffix r3) as Hws3.
    destruct (skip_ws r3) as [|q r4]; [discriminate|].
    destruct (q =? 34)%N; [|discriminate].
    apply IHmembers in H.
    etrans; [exact H|]. etrans; [|exact Hr3]. etrans; [|exact Hws3].
    apply suffix_cons_r; reflexivity.
  - intros depth s acc v rest H. cbn [scan_items] in H.
    destruct (scan_once limit fuel depth s) as [value r| | |] eqn:Ev; try discriminate.
    apply IHonce in Ev.
    pose proof (skip_ws_suffix r) as Hr.
    destruct (skip_ws r) as [|x r1]; [discriminate|].
    assert (Hr1 : r1 `suffix_of` s).
    { etrans; [|exact Ev]. etrans; [|exact Hr]. apply suffix_cons_r; reflexivity. }
    destruct (x =? 93)%N; [now injection H as <- <-|].
    destruct (x =? 44)%N; [|discriminate].
    apply IHitems in H.
    etrans; [exact H|]. etrans; [apply skip_ws_suffix | exact Hr1].
Qed.

(** An exception of a scanner that is not a [JSONDecodeError] comes from
    a limit of the interpreter. *)
Lemma scanners_fail (limit fuel : nat) :
  (forall depth s e, scan_once limit fuel depth s = Failed e ->
     limit_met limit depth s e)
  /\ (forall depth s acc e, scan_members limit fuel depth s acc = Failed e ->
        limit_met limit depth s e)
  /\ (forall depth s acc e, scan_items limit fuel depth s acc = Failed e ->
        limit_met limit depth s e).
Proof.
  induction fuel as [|fuel [IHonce [IHmembers IHitems]]];
    [repeat split; intros; discriminate|].
  split; [|split].
  - intros depth s e H. cbn [scan_once] in H.
    destruct s as [|c r]; [discriminate|].
    pose proof (skip_ws_suffix r) as Hws.
    destruct (c =? 34)%N.
    { destruct (scanstring r []) as [str rest'| | |] eqn:E; try discriminate.
      now apply (scanstring_never_fails (length r)) in E. }
    destruct (c =? 123)%N eqn:Ec.
    { assert (Hop : is_opener c = true) by (unfold is_opener; now rewrite Ec).
      destruct depth as [|depth].
      { injection H as <-. right. exists "object". split; [reflexivity|].
        unfold openers. cbn [List.filter]. rewrite Hop. cbn [length]. lia. }
      apply limit_met_enter; [exact Hop|].
      destruct (skip_ws r) as [|x r1]; [discriminate|].
      destruct (x =? 125)%N; [discriminate|].
      destruct (x =? 34)%N; [|discriminate].
      apply IHmembers in H. eapply limit_met_suffix; [|exact H].
      etrans; [|exact Hws]. apply suffix_cons_r; reflexivity. }
    destruct (c =? 91)%N eqn:Eb.
    { assert (Hop : is_opener c = true)
        by (unfold is_opener; rewrite Eb; apply orb_true_r).
      destruct depth as [|depth].
      { injection H as <-. right. exists "array". split; [reflexivity|].
        unfold openers. cbn [List.filter]. rewrite Hop. cbn [length]. lia. }
      apply limit_met_enter; [exact Hop|].
      destruct (skip_ws r) as [|x r1]; [discriminate|].
      destruct (x =? 93)%N; [discriminate|].
      apply IHitems in H. eapply limit_met_suffix; [exact Hws | exact H]. }
    now apply scan_scalar_fails.
  - intros depth s acc e H. cbn [scan_members] in H.
    destruct (scanstring s []) as [key r| | |] eqn:Ek; try discriminate;
      [|now apply (scanstring_never_fails (length s)) in Ek].
    apply (scanstring_suffix (length s)) in Ek; [|lia].
    pose proof (skip_ws_suffix r) as Hr.
    destruct (skip_ws r) as [|colon r1]; [discriminate|].
    destruct (colon =? 58)%N; [|discriminate].
    pose proof (skip_ws_suffix r1) as Hr1.
    assert (Hs1 : skip_ws r1 `suffix_of` s).
    { etrans; [exact Hr1|]. etrans; [|exact Ek]. etrans; [|exact Hr].
      apply suffix_cons_r; reflexivity. }
    destruct (scan_once limit fuel depth (skip_ws r1)) as [value r2| | |] eqn:Ev;
      try discriminate.
    + apply (proj1 (scanners_suffix limit fuel)) in Ev.
      pose proof (skip_ws_suffix r2) as Hws2.
      destruct (skip_ws r2) as [|x r3]; [discriminate|].
      destruct (x =? 125)%N; [discriminate|].
      destruct (x =? 44)%N; [|discriminate].
      pose proof (skip_ws_suffix r3) as Hws3.
      destruct (skip_ws r3) as [|q r4]; [discriminate|].
      destruct (q =? 34)%N; [|discriminate].
      apply IHmembers in H. eapply limit_met_suffix; [|exact H].
      etrans; [|exact Hs1]. etrans; [|exact Ev]. etrans; [|exact Hws2].
      apply suffix_cons_r. etrans; [|exact Hws3]. apply suffix_cons_r; reflexivity.
    + injection H as <-. apply IHonce in Ev.
      eapply limit_met_suffix; [exact Hs1 | exact Ev].
  - intros depth s acc e H. cbn [scan_items] in H.
    destruct (scan_once limit fuel depth s) as [value r| | |] eqn:Ev; try discriminate.
    + apply (proj1 (scanners_suffix limit fuel)) in Ev.
      pose proof (skip_ws_suffix r) as Hr.
      destruct (skip_ws r) as [|x r1]; [discriminate|].
      destruct (x =? 93)%N; [discriminate|].
      destruct (x =? 44)%N; [|discriminate].
      apply IHitems in H. eapply limit_met_suffix; [|exact H].
      etrans; [apply skip_ws_suffix|]. etrans; [|exact Ev]. etrans; [|exact Hr].
      apply suffix_cons_r; reflexivity.
    + injection H as <-. now apply IHonce.
Qed.

Lemma limit_met_class (limit depth : nat) (s : pystr) (e : exn) :
  limit_met limit depth s e ->
  (exn_class e = ValueError
   /\ (0 < limit)%nat /\ (limit < longest_digit_run s)%nat)
  \/ (exn_class e = RecursionError /\ (depth < openers s)%nat).
Proof.
  intros [[digits [-> [Hx Hd]]] | [what [-> Hd]]].
  - left. split; [reflexivity|]. unfold exceeds_int_limit in Hx.
    apply andb_true_iff in Hx as [Hx H2]. apply andb_true_iff in Hx as [_ H1].
    apply Nat.ltb_lt in H1, H2. lia.
  - right. now split.
Qed.

(** What [json.loads] raises: [JSONDecodeError], or the exception of a
    limit of the interpreter that the text meets. *)
Lemma json_loads_raises (rt : Runtime) (s : pystr) (e : exn) :
  json_loads rt s = Raise e ->
  e = decode_error \/ limit_met (int_max_str_digits rt) (json_depth rt) s e.
Proof.
  unfold json_loads. destruct (startswith 65279 s); [intros [= <-]; now left|].
  destruct (scan_once _ (2 * length s + 1) _ (skip_ws s)) as [v rest| |e'|] eqn:E.
  - destruct (skip_ws rest); [discriminate | intros [= <-]; now left].
  - intros [= <-]; now left.
  - intros [= <-]. right.
    apply (proj1 (scanners_fail _ _)) in E.
    eapply limit_met_suffix; [apply skip_ws_suffix | exact E].
  - intros [= <-]; now left.
Qed.

(** The fuel is never what stops [json.loads]. *)
Lemma json_loads_has_fuel (rt : Runtime) (s : pystr) :
  scan_once (int_max_str_digits rt) (2 * length s + 1) (json_depth rt) (skip_ws s)
  <> NoFuel.
Proof.
  apply (proj1 (scanners_have_fuel _ (2 * length s + 1))).
  pose proof (skip_ws_length s). lia.
Qed.

Lemma within_limits_not_met (rt : Runtime) (s : pystr) (e : exn) :
  within_limits rt s ->
  ~ limit_met (int_max_str_digits rt) (json_depth rt) s e.
Proof.
  intros [Hd Hi] H. apply limit_met_class in H as [[_ [H0 H1]] | [_ H]]; lia.
Qed.

Lemma scan_members_object (limit fuel : nat) :
  forall depth s acc v rest,
    scan_members limit fuel depth s acc = Parsed v rest ->
    exists members, v = JObject members.
Proof.
  induction fuel as [|fuel IH]; intros depth s acc v rest H; [discriminate|].
  cbn [scan_members] in H.
  scan_cases H; try (injection H as <- <-; eauto); eauto.
Qed.

(** A text that opens with a brace decodes to an object or not at all. *)
Lemma json_loads_object (rt : Runtime) (s : pystr) (v : json) :
  startswith (ch "{") s = true -> json_loads rt s = Return v ->
  exists members, v = JObject members.
Proof.
  intros Hs. destruct s as [|c r]; [discriminate|].
  cbn [startswith] in Hs. apply N.eqb_eq in Hs. subst c.
  unfold json_loads. cbn [startswith skip_ws].
  change (is_json_space (ch "{")) with false. cbn iota.
  change (ch "{" =? 65279)%N with false. cbn iota.
  generalize (2 * length (ch "{" :: r))%nat. intros n.
  replace (n + 1)%nat with (S n) by lia. cbn [scan_once].
  change (ch "{" =? 34)%N with false. change (ch "{" =? 123)%N with true.
  cbn iota.
  destruct (json_depth rt) as [|depth]; [discriminate|].
  destruct (skip_ws r) as [|x r1]; [discriminate|].
  destruct (x =? 125)%N.
  { destruct (skip_ws r1); [intros [= <-]; eauto | discriminate]. }
  destruct (x =? 34)%N; [|discriminate].
  destruct (scan_members _ n depth r1 []) as [v' rest| | |] eqn:E; try discriminate.
  apply scan_members_object in E as [members ->].
  destruct (skip_ws rest); [intros [= <-]; eauto | discriminate].
Qed.

(** ** The response normalizer *)

Lemma slice_from_find (c : N) (s : pystr) (stop : nat) :
  contains c s = true ->
  slice s (find c s) stop = [] \/ startswith c (slice s (find c s) stop) = true.
Proof.
  revert stop. induction s as [|x r IH]; intros stop H; [discriminate|].
  cbn [find]. destruct (x =? c)%N eqn:E.
  - unfold slice. rewrite Nat.sub_0_r. cbn [skipn].
    destruct stop; [now left | right]. cbn. exact E.
  - cbn [contains existsb] in H. rewrite N.eqb_sym, E in H. cbn in H.
    destruct (IH (Nat.pred stop) H) as [Hs | Hs].
    + left. unfold slice in *. cbn [skipn].
      now replace (stop - S (find c r))%nat with (Nat.pred stop - find c r)%nat by lia.
    + right. unfold slice in *. cbn [skipn].
      now replace (stop - S (find c r))%nat with (Nat.pred stop - find c r)%nat by lia.
Qed.

Lemma digit_prefix_firstn (n : nat) (s : pystr) :
  (digit_prefix (firstn n s) <= digit_prefix s)%nat.
Proof.
  revert n. induction s as [|c r IH]; intros [|n]; cbn; try lia.
  destruct (is_digit c); [|lia]. specialize (IH n). lia.
Qed.

Lemma longest_digit_run_firstn (n : nat) (s : pystr) :
  (longest_digit_run (firstn n s) <= longest_digit_run s)%nat.
Proof.
  revert n. induction s as [|c r IH]; intros [|n]; cbn [firstn longest_digit_run];
    try lia.
  pose proof (digit_prefix_firstn (S n) (c :: r)) as H. cbn [firstn] in H.
  specialize (IH n). lia.
Qed.

Lemma openers_firstn (n : nat) (s : pystr) :
  (openers (firstn n s) <= openers s)%nat.
Proof.
  unfold openers. revert n. induction s as [|c r IH]; intros [|n]; cbn; try lia.
  specialize (IH n). destruct (is_opener c); cbn; lia.
Qed.

Lemma skipn_suffix (n : nat) (s : pystr) : skipn n s `suffix_of` s.
Proof. exists (firstn n s). symmetry. apply firstn_skipn. Qed.

(** A limit that the text between the braces meets is met by the whole
    text. *)
Lemma limit_met_slice (limit depth : nat) (s : pystr) (start stop : nat) (e : exn) :
  limit_met limit depth (slice s start stop) e -> limit_met limit depth s e.
Proof.
  unfold slice.
  pose proof (longest_digit_run_firstn (stop - start) (skipn start s)).
  pose proof (openers_firstn (stop - start) (skipn start s)).
  pose proof (longest_digit_run_suffix _ _ (skipn_suffix start s)).
  pose proof (openers_suffix _ _ (skipn_suffix start s)).
  intros [[digits [-> [Hx Hd]]] | [what [-> Hd]]].
  - left. exists digits. split; [reflexivity|]. split; [exact Hx | lia].
  - right. exists what. split; [reflexivity | lia].
Qed.

Lemma limit_met_not_decode_error (limit depth : nat) (s : pystr) (e : exn) :
  limit_met limit depth s e -> is_instance e JSONDecodeError = false.
Proof. now intros [[digits [-> _]] | [what [-> _]]]. Qed.

(** The candidate is a dictionary, the fallback or the object the text
    between the braces decodes to, unless the decoder meets a limit of
    the interpreter: its exception then leaves the normalizer. *)
Lemma candidate_cases (rt : Runtime) (response : pystr) :
  (exists members,
     candidate rt response = Return (JObject members)
     /\ (JObject members = fallback response
         \/ json_loads rt (slice response (find (ch "{") response)
                             (S (rfind (ch "}") response)))
            = Return (JObject members)))
  \/ (exists e,
        candidate rt response = Raise e
        /\ json_loads rt (slice response (find (ch "{") response)
                            (S (rfind (ch "}") response))) = Raise e
        /\ limit_met (int_max_str_digits rt) (json_depth rt) response e).
Proof.
  unfold candidate.
  destruct (contains (ch "{") response) eqn:Hopen; cbn [andb];
    [|left; eexists; split; [reflexivity | now left]].
  destruct (contains (ch "}") response);
    [|left; eexists; split; [reflexivity | now left]].
  destruct (json_loads rt _) as [v|e] eqn:E.
  - left.
    destruct (slice_from_find (ch "{") response
                (S (rfind (ch "}") response)) Hopen) as [Hs | Hs].
    + rewrite Hs in E. unfold json_loads in E. cbn in E.
      destruct (json_depth rt); discriminate E.
    + destruct (json_loads_object _ _ _ Hs E) as [members ->].
      exists members. split; [reflexivity | now right].
  - destruct (json_loads_raises _ _ _ E) as [-> | Hmet].
    + left. eexists. split; [reflexivity | now left].
    + right. exists e. cbn [try_except].
      rewrite (limit_met_not_decode_error _ _ _ _ Hmet).
      split; [reflexivity|]. split; [reflexivity|].
      now apply limit_met_slice in Hmet.
Qed.

Lemma within_limits_candidate (rt : Runtime) (response : pystr) :
  within_limits rt response ->
  exists members, candidate rt response = Return (JObject members).
Proof.
  intros Hw. destruct (candidate_cases rt response)
    as [[members [Hc _]] | [e [_ [_ Hmet]]]].
  - now exists members.
  - now apply within_limits_not_met in Hmet.
Qed.

Lemma coerce_action_sentinel (rt : Runtime) :
  coerce_action rt (Some (JStr (py "aucune"))) = Return (py "aucune").
Proof. reflexivity. Qed.

Lemma build_response_fallback (rt : Runtime) (response : pystr) :
  build_response rt (fallback response)
  = Return {| status := OK; message := response; action := py "aucune" |}.
Proof. reflexivity. Qed.

(** C7, with the sentinel of the code.  When the text has no opening
    brace, or no closing brace, or when decoding what lies between the
    first opening and the last closing brace raises [JSONDecodeError],
    the candidate has status OK, the text itself as message and the
    sentinel "aucune" as action; and that is the typed result of the
    normalization.  For a text within the limits of the interpreter
    every failure of the decoder is a [JSONDecodeError].  Beyond them the
    decoder raises [ValueError] or [RecursionError], which the handler
    does not catch: the normalization raises it and builds no
    fallback. *)
Theorem non_json_candidate (rt : Runtime) (response : pystr) :
  let between :=
    slice response (find (ch "{") response) (S (rfind (ch "}") response)) in
  (contains (ch "{") response = false
   \/ contains (ch "}") response = false
   \/ (exists e, json_loads rt between = Raise e
                 /\ exn_class e = JSONDecodeError) ->
   candidate rt response
   = Return (JObject [ (py "status", JStr (py "OK"));
                       (py "message", JStr response);
                       (py "action", JStr (py "aucune")) ])
   /\ normalize rt response
      = Return {| status := OK; message := response; action := py "aucune" |})
  /\ (within_limits rt response ->
      forall e, json_loads rt between = Raise e -> exn_class e = JSONDecodeError)
  /\ (forall e,
        contains (ch "{") response = true -> contains (ch "}") response = true ->
        json_loads rt between = Raise e -> exn_class e <> JSONDecodeError ->
        normalize rt response = Raise e
        /\ (exn_class e = ValueError \/ exn_class e = RecursionError)).
Proof.
  intros between. split; [|split].
  - intros H.
    assert (Hc : candidate rt response = Return (fallback response)).
    { unfold candidate. destruct H as [H | [H | [e [H He]]]].
      - now rewrite H.
      - rewrite H. now rewrite andb_false_r.
      - destruct (contains (ch "{") response && contains (ch "}") response)%bool;
          [|reflexivity].
        fold between. rewrite H. cbn [try_except]. unfold is_instance.
        rewrite He. reflexivity. }
    split; [exact Hc|].
    unfold normalize. rewrite Hc. apply build_response_fallback.
  - intros Hw e He.
    destruct (json_loads_raises _ _ _ He) as [-> | Hmet]; [reflexivity|].
    apply limit_met_slice in Hmet. now apply within_limits_not_met in Hmet.
  - intros e Hopen Hclose He Hclass.
    destruct (json_loads_raises _ _ _ He) as [-> | Hmet]; [now contradict Hclass|].
    split.
    + unfold normalize, candidate. rewrite Hopen, Hclose. cbn [andb].
      fold between. rewrite He. cbn [try_except].
      now rewrite (limit_met_not_decode_error _ _ _ _ Hmet).
    + apply limit_met_class in Hmet as [[Hc _] | [Hc _]]; [now left | now right].
Qed.

Lemma non_json_candidate_witness :
  let response := py "The basil looks healthy {no action" in
  contains (ch "}") response = false
  /\ normalize strict_runtime response
     = Return {| status := OK; message := response; action := py "aucune" |}.
Proof.
  intros response.
  assert (H : contains (ch "}") response = false) by reflexivity.
  split; [exact H|].
  exact (proj2 (proj1 (non_json_candidate strict_runtime response)
                  (or_intror (or_introl H)))).
Defined.

(** C7 fails as stated: the action of the fallback is "aucune", which is
    not the text "none". *)
Lemma fallback_action_is_not_none :
  candidate strict_runtime (py "The basil looks healthy")
  = Return (fallback (py "The basil looks healthy"))
  /\ result_get (fallback (py "The basil looks healthy")) "action"
     = Return (Some (JStr (py "aucune")))
  /\ pystr_eqb (py "aucune") (py "none") = false.
Proof. repeat split. Qed.

(** Text between braces that does not decode is kept whole as message. *)
Example undecodable_braces :
  normalize strict_runtime (py "status {ALERT} water now")
  = Return {| status := OK;
              message := py "status {ALERT} water now";
              action := py "aucune" |}.
Proof. vm_compute. reflexivity. Qed.

(** An integer of 4301 digits in the object is refused by [int]: the
    [ValueError] is not a [JSONDecodeError] and leaves the normalizer. *)
Example over_long_integer_raises :
  normalize strict_runtime
    (quoted "{`action`: " ++ List.repeat (ch "7") 4301 ++ py "}")
  = Raise (int_too_long 4300 4301)
  /\ exn_class (int_too_long 4300 4301) = ValueError.
Proof. split; vm_compute; reflexivity. Qed.

(** So does the [RecursionError] of an action nested deeper than the
    interpreter allows, closed or not. *)
Example deep_nesting_raises :
  normalize strict_runtime
    (quoted "{`action`: " ++ List.repeat (ch "[") 900 ++ py "}")
  = Raise (too_deep "array")
  /\ normalize strict_runtime
       (quoted "{`action`: " ++ List.repeat (ch "[") 900
        ++ List.repeat (ch "]") 900 ++ py "}")
     = Raise (too_deep "array")
  /\ exn_class (too_deep "array") = RecursionError.
Proof. repeat split; vm_compute; reflexivity. Qed.

Lemma all_text_strings (l : list pystr) : all_text (map Text l) = Return l.
Proof.
  induction l as [|x l IH]; [reflexivity|].
  cbn [map all_text]. now rewrite IH.
Qed.

Lemma list_to_sentence_strings (first : pystr) (init : list pystr) (x : pystr) :
  list_to_sentence (map Text (first :: init ++ [x]))
  = Return (py "Take multiple actions: "
            ++ join (py ", ") (first :: init) ++ py " and " ++ x).
Proof.
  assert (Hinit : removelast (map Text (first :: init ++ [x]))
                  = map Text (first :: init)).
  { change (first :: init ++ [x]) with ((first :: init) ++ [x]).
    rewrite map_app. cbn [map]. apply removelast_last. }
  assert (Hlast : last (map Text (first :: init ++ [x])) = Some (Text x)).
  { change (first :: init ++ [x]) with ((first :: init) ++ [x]).
    rewrite map_app. cbn [map]. apply last_snoc. }
  unfold list_to_sentence.
  destruct (map Text (first :: init ++ [x])) as [|a [|b rest]] eqn:E.
  - discriminate E.
  - destruct init; discriminate E.
  - rewrite Hinit, Hlast, all_text_strings. reflexivity.
Qed.

Lemma action_text_strings (rt : Runtime) (first : pystr) (init : list pystr)
    (x : pystr) :
  action_text rt (JList (map JStr (first :: init ++ [x])))
  = Return (py "Take multiple actions: "
            ++ join (py ", ") (first :: init) ++ py " and " ++ x).
Proof.
  unfold action_text. rewrite map_map.
  change (map (fun v => element_of rt (JStr v)) (first :: init ++ [x]))
    with (map Text (first :: init ++ [x])).
  apply list_to_sentence_strings.
Qed.

Lemma lstrip_snoc (l : pystr) (c : N) :
  is_space c = false -> lstrip (l ++ [c]) = lstrip l ++ [c].
Proof.
  intros Hc. induction l as [|x l IH]; cbn; [now rewrite Hc|].
  destruct (is_space x); [exact IH | reflexivity].
Qed.

Lemma strip_cons (c : N) (rest : pystr) :
  is_space c = false -> strip (c :: rest) = c :: rstrip rest.
Proof.
  intros Hc. unfold strip, rstrip. cbn [lstrip]. rewrite Hc.
  cbn [rev]. rewrite lstrip_snoc by exact Hc.
  now rewrite rev_app_distr.
Qed.

Lemma capital_not_space (c : N) :
  (65 <= c)%N -> (c <= 90)%N -> is_space c = false.
Proof.
  intros Hlo Hhi. unfold is_space.
  repeat match goal with
         | |- context [(?a <=? ?b)%N] =>
             first [ rewrite (proj2 (N.leb_le a b)) by lia
                   | rewrite (proj2 (N.leb_gt a b)) by lia ]
         | |- context [(?a =? ?b)%N] =>
             rewrite (proj2 (N.eqb_neq a b)) by lia
         end.
  reflexivity.
Qed.

(** A text that opens with a letter goes through the clean-up of lines
    311-338 with nothing but the white space at its end removed. *)
Lemma coerce_action_sentence (rt : Runtime) (v : json) (c : N) (rest : pystr) :
  action_text rt v = Return (c :: rest) ->
  (65 <= c)%N -> (c <= 90)%N ->
  coerce_action rt (Some v) = Return (c :: rstrip rest).
Proof.
  intros Hv Hlo Hhi. unfold coerce_action.
  change (default (JStr (py "No action needed")) (Some v)) with v.
  rewrite Hv. cbn [mbind outcome_bind].
  assert (Hspace : is_space c = false) by now apply capital_not_space.
  rewrite strip_cons by exact Hspace.
  unfold strip_quotes, reparse_list. cbn [startswith].
  assert (Hq : (c =? dquote)%N = false) by (apply N.eqb_neq; unfold dquote; lia).
  assert (Ha : (c =? ch "'")%N = false)
    by (apply N.eqb_neq; change (ch "'") with 39%N; lia).
  assert (Hb : (c =? ch "[")%N = false)
    by (apply N.eqb_neq; change (ch "[") with 91%N; lia).
  rewrite Hq. cbn [andb startswith]. rewrite Ha. cbn [andb startswith].
  now rewrite Hb.
Qed.

Lemma rstrip_snoc (s : pystr) (c : N) :
  is_space c = false -> rstrip (s ++ [c]) = s ++ [c].
Proof.
  intros Hc. unfold rstrip. rewrite rev_app_distr. cbn [rev app lstrip].
  rewrite Hc. cbn [rev]. now rewrite rev_involutive.
Qed.

Lemma rstrip_cons (c : N) (rest : pystr) :
  is_space c = false -> rstrip (c :: rest) = c :: rstrip rest.
Proof.
  intros Hc. unfold rstrip. cbn [rev]. rewrite lstrip_snoc by exact Hc.
  now rewrite rev_app_distr.
Qed.

Lemma build_response_fields (rt : Runtime) (members : list (pystr * json))
    (r : AnalysisResponse) :
  build_response rt (JObject members) = Return r ->
  coerce_action rt (dict_get (py "action") members) = Return (action r)
  /\ validate_status (dict_get (py "status") members) = Return (status r)
  /\ validate_message rt (dict_get (py "message") members) = Return (message r).
Proof.
  unfold build_response, result_get. cbn [mbind outcome_bind].
  destruct (coerce_action rt _) as [a|e]; cbn [mbind outcome_bind]; [|discriminate].
  destruct (validate_status _) as [st|e]; cbn [mbind outcome_bind]; [|discriminate].
  destruct (validate_message rt _) as [msg|e]; cbn [mbind outcome_bind];
    [|discriminate].
  now intros [= <-].
Qed.

(** The sentence lines 297-306 build for a list of strings is the one
    the specification words. *)
Lemma action_text_claimed (rt : Runtime) (actions : list pystr) :
  action_text rt (JList (map JStr actions)) = Return (claimed_sentence actions).
Proof.
  destruct actions as [|a [|b rest]]; [reflexivity ..|].
  destruct (exists_last (l := b :: rest)) as [init [x E]]; [discriminate|].
  rewrite E, (action_text_strings rt a init x). f_equal.
  unfold claimed_sentence.
  change (a :: init ++ [x]) with ((a :: init) ++ [x]).
  rewrite removelast_last, last_snoc. now rewrite <- E.
Qed.

Lemma claimed_sentence_head (actions : list pystr) :
  exists c rest,
    claimed_sentence actions = c :: rest /\ (65 <= c)%N /\ (c <= 90)%N.
Proof.
  destruct actions as [|a [|b l]]; cbn; eexists _, _;
    (split; [reflexivity | lia]).
Qed.

(** After the clean-up of lines 311-338 the sentence of a list of strings
    has lost the white space at its end, and nothing else. *)
Lemma list_sentence_after_cleanup (rt : Runtime) (actions : list pystr) :
  coerce_action rt (Some (JList (map JStr actions)))
  = Return (rstrip (claimed_sentence actions)).
Proof.
  pose proof (action_text_claimed rt actions) as H.
  destruct (claimed_sentence_head actions) as [c [rest [E [Hlo Hhi]]]].
  rewrite E in *.
  rewrite (coerce_action_sentence rt _ _ _ H Hlo Hhi).
  rewrite rstrip_cons; [reflexivity | now apply capital_not_space].
Qed.

(** C8, as the code has it.  For a decoded action that is a list of
    strings the code builds the sentence of the specification: "No
    action needed" for the empty list, "Take action: x" for [x], and for
    two elements or more "Take multiple actions: " followed by all
    elements but the last joined by ", ", then " and ", then the last
    element.  The action it returns is that sentence with the white
    space at its end removed; it is the sentence itself whenever the
    last element ends with a character that is not white space. *)
Theorem list_of_strings_becomes_sentence (rt : Runtime) (actions : list pystr) :
  action_text rt (JList (map JStr actions)) = Return (claimed_sentence actions)
  /\ coerce_action rt (Some (JList (map JStr actions)))
     = Return (rstrip (claimed_sentence actions))
  /\ (forall response members r,
        candidate rt response = Return (JObject members) ->
        dict_get (py "action") members = Some (JList (map JStr actions)) ->
        normalize rt response = Return r ->
        action r = rstrip (claimed_sentence actions))
  /\ (actions = []
      \/ (exists init x c, actions = init ++ [x ++ [c]] /\ is_space c = false) ->
      rstrip (claimed_sentence actions) = claimed_sentence actions).
Proof.
  split; [apply action_text_claimed|].
  split; [apply list_sentence_after_cleanup|]. split.
  - intros response members r Hc Ha Hn. unfold normalize in Hn.
    rewrite Hc in Hn. cbn [mbind outcome_bind] in Hn.
    apply build_response_fields in Hn as [Hact _].
    rewrite Ha, list_sentence_after_cleanup in Hact. now injection Hact as <-.
  - intros [-> | [init [x [c [-> Hc]]]]]; [reflexivity|].
    assert (E : exists text, claimed_sentence (init ++ [x ++ [c]]) = text ++ [c]).
    { destruct init as [|i init].
      - exists (py "Take action: " ++ x). unfold claimed_sentence. cbn [app].
        apply app_assoc.
      - unfold claimed_sentence.
        change ((i :: init) ++ [x ++ [c]]) with (i :: (init ++ [x ++ [c]])).
        destruct (init ++ [x ++ [c]]) as [|b l] eqn:E; [now destruct init|].
        rewrite <- E. change (i :: init ++ [x ++ [c]]) with ((i :: init) ++ [x ++ [c]]).
        rewrite last_snoc. cbn [default from_option id].
        eexists. rewrite !app_assoc. reflexivity. }
    destruct E as [text ->]. now apply rstrip_snoc.
Qed.

Lemma list_of_strings_becomes_sentence_witness :
  let actions := [py "water"; py "light"] in
  coerce_action strict_runtime (Some (JList (map JStr actions)))
  = Return (py "Take multiple actions: water and light")
  /\ rstrip (claimed_sentence actions) = claimed_sentence actions.
Proof.
  intros actions.
  destruct (list_of_strings_becomes_sentence strict_runtime actions)
    as [_ [Hact [_ Hexact]]].
  split; [rewrite Hact; vm_compute; reflexivity|].
  apply Hexact. right. exists [py "water"], (py "ligh"), (ch "t").
  split; reflexivity.
Defined.

(** C8 fails as stated: the action returned for the list of the one
    string "water " is "Take action: water", without the space the
    sentence of the claim ends with; for the list of the empty string it
    is "Take action:". *)
Lemma list_action_loses_trailing_space :
  claimed_sentence [py "water "] = py "Take action: water "
  /\ coerce_action strict_runtime (Some (JList [JStr (py "water ")]))
     = Return (py "Take action: water")
  /\ normalize strict_runtime (quoted "{`action`: [`water `]}")
     = Return {| status := OK; message := py "Analysis completed";
                 action := py "Take action: water" |}
  /\ py "Take action: water" <> py "Take action: water "
  /\ coerce_action strict_runtime (Some (JList [JStr []]))
     = Return (py "Take action:").
Proof.
  split; [reflexivity|]. split; [vm_compute; reflexivity|].
  split; [vm_compute; reflexivity|]. split; [discriminate|].
  vm_compute; reflexivity.
Qed.

Lemma list_to_sentence_returns (l : list pystr) :
  returns (list_to_sentence (map Text l)).
Proof.
  destruct l as [|a [|b rest]]; [eexists; reflexivity ..|].
  destruct (exists_last (l := b :: rest)) as [init [x E]]; [discriminate|].
  rewrite E, list_to_sentence_strings. eexists; reflexivity.
Qed.

Lemma coerce_action_returns (rt : Runtime) (v : option json) :
  action_admissible v -> returns (coerce_action rt v).
Proof.
  intros Hadm. unfold coerce_action.
  assert (Htext : returns (action_text rt (default (JStr (py "No action needed")) v))).
  { destruct v as [v|]; [|eexists; reflexivity].
    destruct v; try (eexists; reflexivity).
    destruct (Hadm items eq_refl) as [l ->].
    cbn [default from_option id action_text]. rewrite map_map.
    change (map (fun s => element_of rt (JStr s)) l) with (map Text l).
    apply list_to_sentence_returns. }
  destruct Htext as [text ->]. eexists; reflexivity.
Qed.

(** C1, as the code has it.  For every text the candidate is a
    dictionary, unless the decoder meets a limit of the interpreter: an
    integer literal longer than [int] accepts raises [ValueError], a
    nesting deeper than the recursion limit allows raises
    [RecursionError], and the normalization raises the same.  A text
    with no more opening braces and brackets than the depth left, and
    no run of digits over the limit, always gives a dictionary.  From a
    dictionary the normalization returns a result with its three fields
    filled whenever the status is absent, "OK" or "ALERT", the message
    is absent or a string, and the action, when it is a list, is a list
    of strings. *)
Theorem normalize_returns_on_admissible_candidate
    (rt : Runtime) (response : pystr) :
  ((exists members, candidate rt response = Return (JObject members))
   \/ (exists e,
         candidate rt response = Raise e
         /\ normalize rt response = Raise e
         /\ ((exn_class e = ValueError
              /\ (0 < int_max_str_digits rt)%nat
              /\ (int_max_str_digits rt < longest_digit_run response)%nat)
             \/ (exn_class e = RecursionError
                 /\ (json_depth rt < openers response)%nat))))
  /\ (within_limits rt response ->
      exists members, candidate rt response = Return (JObject members))
  /\ (forall members,
        candidate rt response = Return (JObject members) ->
        status_admissible (dict_get (py "status") members) ->
        message_admissible (dict_get (py "message") members) ->
        action_admissible (dict_get (py "action") members) ->
        exists r,
          normalize rt response = Return r
          /\ validate_status (dict_get (py "status") members) = Return (status r)
          /\ validate_message rt (dict_get (py "message") members)
             = Return (message r)
          /\ coerce_action rt (dict_get (py "action") members)
             = Return (action r)).
Proof.
  split; [|split].
  - destruct (candidate_cases rt response)
      as [[members [Hc _]] | [e [Hc [_ Hmet]]]].
    + left. now exists members.
    + right. exists e. split; [exact Hc|].
      split; [unfold normalize; now rewrite Hc|].
      now apply limit_met_class.
  - apply within_limits_candidate.
  - intros members Hc Hs Hm Ha.
    destruct (coerce_action_returns rt _ Ha) as [act Hact].
    assert (Hst : returns (validate_status (dict_get (py "status") members))).
    { destruct Hs as [-> | [-> | ->]]; eexists; reflexivity. }
    assert (Hmsg : returns (validate_message rt (dict_get (py "message") members))).
    { destruct Hm as [-> | [s ->]]; eexists; reflexivity. }
    destruct Hst as [st Hst]. destruct Hmsg as [msg Hmsg].
    exists {| status := st; message := msg; action := act |}.
    split; [|now repeat split].
    unfold normalize. rewrite Hc. cbn [mbind outcome_bind].
    unfold build_response, result_get. cbn [mbind outcome_bind].
    rewrite Hact. cbn [mbind outcome_bind].
    rewrite Hst. cbn [mbind outcome_bind]. rewrite Hmsg. reflexivity.
Qed.

Lemma normalize_returns_on_admissible_candidate_witness :
  within_limits strict_runtime dry_soil_answer
  /\ exists members r,
       candidate strict_runtime dry_soil_answer = Return (JObject members)
       /\ status_admissible (dict_get (py "status") members)
       /\ message_admissible (dict_get (py "message") members)
       /\ action_admissible (dict_get (py "action") members)
       /\ normalize strict_runtime dry_soil_answer = Return r.
Proof.
  assert (Hw : within_limits strict_runtime dry_soil_answer)
    by (split; [|right]; vm_compute; lia).
  split; [exact Hw|].
  destruct (normalize_returns_on_admissible_candidate strict_runtime dry_soil_answer)
    as [_ [Hdict H]].
  destruct (Hdict Hw) as [members Hc].
  assert (Hm : members
               = [ (py "status", JStr (py "ALERT"));
                   (py "message", JStr (py "Soil is dry"));
                   (py "action", JList [JStr (py "water"); JStr (py "light")]) ]).
  { assert (E : candidate strict_runtime dry_soil_answer
                = Return (JObject
                    [ (py "status", JStr (py "ALERT"));
                      (py "message", JStr (py "Soil is dry"));
                      (py "action", JList [JStr (py "water"); JStr (py "light")]) ]))
      by (vm_compute; reflexivity).
    rewrite E in Hc. now injection Hc as <-. }
  assert (Hs : status_admissible (dict_get (py "status") members))
    by (subst members; right; right; reflexivity).
  assert (Hmsg : message_admissible (dict_get (py "message") members))
    by (subst members; right; eexists; reflexivity).
  assert (Ha : action_admissible (dict_get (py "action") members)).
  { subst members. intros items [= <-]. exists [py "water"; py "light"]. reflexivity. }
  destruct (H members Hc Hs Hmsg Ha) as [r [Hr _]].
  exists members, r. repeat split; assumption.
Defined.

(** An unknown status is refused by the model of the result, whatever the
    runtime. *)
Lemma unknown_status_is_refused (rt : Runtime) (members : list (pystr * json))
    (response s : pystr) :
  candidate rt response = Return (JObject members) ->
  action_admissible (dict_get (py "action") members) ->
  dict_get (py "status") members = Some (JStr s) ->
  s <> py "OK" -> s <> py "ALERT" ->
  normalize rt response = Raise validation_error.
Proof.
  intros Hc Ha Hs Hok Halert. unfold normalize. rewrite Hc.
  cbn [mbind outcome_bind]. unfold build_response, result_get.
  cbn [mbind outcome_bind].
  destruct (coerce_action_returns rt _ Ha) as [act ->]. cbn [mbind outcome_bind].
  rewrite Hs. unfold validate_status, pystr_eqb.
  rewrite (bool_decide_eq_false_2 _ Hok), (bool_decide_eq_false_2 _ Halert).
  reflexivity.
Qed.

(** C1 fails as stated: a decoded object whose status is "WARNING" makes
    the normalization raise a validation error. *)
Lemma normalize_raises_on_unknown_status :
  candidate strict_runtime yellow_leaves_answer
  = Return (JObject [ (py "status", JStr (py "WARNING"));
                      (py "message", JStr (py "Leaves are yellow"));
                      (py "action", JStr (py "Check the roots")) ])
  /\ normalize strict_runtime yellow_leaves_answer = Raise validation_error.
Proof. split; vm_compute; reflexivity. Qed.

(** A list of two numbers stops the normalization in [join], outside any
    [try]; the same list given as text goes through the guarded block. *)
Example list_of_numbers_raises :
  exists e, normalize strict_runtime (quoted "{`action`: [1, 2]}") = Raise e
    /\ exn_class e = TypeError.
Proof. eexists. split; vm_compute; reflexivity. Qed.

Example texts_that_degrade_gracefully :
  normalize strict_runtime [] 
  = Return {| status := OK; message := []; action := py "aucune" |}
  /\ normalize strict_runtime (quoted "{`action`: `\`Water the basil\``}")
     = Return {| status := OK; message := py "Analysis completed";
                 action := py "Water the basil" |}
  /\ normalize strict_runtime (quoted "{`action`: `['a', 'b']`}")
     = Return {| status := OK; message := py "Analysis completed";
                 action := py "['a', 'b']" |}
  /\ normalize strict_runtime (quoted "{`action`: []}")
     = Return {| status := OK; message := py "Analysis completed";
                 action := py "No action needed" |}.
Proof. repeat split; vm_compute; reflexivity. Qed.

(** An action given as the text of a list: when [ast.literal_eval] reads
    it as the list of two strings, the sentence is built from them. *)
Lemma stringified_list_is_reparsed (rt : Runtime) :
  literal_eval rt (py "['a', 'b']")
  = Some (LitList [Text (py "a"); Text (py "b")]) ->
  coerce_action rt (Some (JStr (py "['a', 'b']")))
  = Return (py "Take multiple actions: a and b").
Proof.
  intros H. vm_compute in H. vm_compute. rewrite H. reflexivity.
Qed.

(** Whatever [ast.literal_eval] answers or raises, the guarded block ends
    with a text. *)
Lemma reparse_list_total (rt : Runtime) (s : pystr) :
  reparse_list rt s = s
  \/ exists items sentence,
       literal_eval rt s = Some (LitList items)
       /\ list_to_sentence items = Return sentence
       /\ reparse_list rt s = sentence.
Proof.
  unfold reparse_list.
  destruct (startswith (ch "[") s && endswith (ch "]") s)%bool; [|now left].
  destruct (literal_eval rt s) as [[items|]|]; try now left.
  destruct (list_to_sentence items) as [sentence|e] eqn:E; [|now left].
  right. now exists items, sentence.
Qed.

(** * Further properties of the code *)

(** ** The catalog and the comparators *)

Lemma load_plant_data_unknown (plants : Catalog) (plant_id : string) :
  Forall (fun p => plant_key p <> plant_id) plants ->
  load_plant_data plants plant_id = Raise (not_found plant_id).
Proof.
  induction 1 as [|p rest Hp _ IH]; cbn [load_plant_data]; [reflexivity|].
  apply String.eqb_neq in Hp. now rewrite Hp.
Qed.

(** X1.  [load_plant_data] returns the first entry under the requested key,
    and raises [ValueError] exactly when no entry has that key. *)
Theorem load_plant_data_first_match (plants : Catalog) (plant_id : string) :
  (forall plant,
     load_plant_data plants plant_id = Return plant ->
     plant_key plant = plant_id
     /\ exists before after,
          plants = before ++ plant :: after
          /\ Forall (fun p => plant_key p <> plant_id) before)
  /\ (forall e,
        load_plant_data plants plant_id = Raise e ->
        e = not_found plant_id
        /\ Forall (fun p => plant_key p <> plant_id) plants)
  /\ (Forall (fun p => plant_key p <> plant_id) plants ->
      load_plant_data plants plant_id = Raise (not_found plant_id)).
Proof.
  induction plants as [|p rest [IHret [IHraise IHnone]]]; cbn [load_plant_data].
  - split; [discriminate|]. split; [|reflexivity].
    intros e [= <-]. split; [reflexivity | constructor].
  - destruct (String.eqb (plant_key p) plant_id) eqn:E.
    + apply String.eqb_eq in E. split; [|split].
      * intros plant [= <-]. split; [exact E|].
        exists [], rest. split; [reflexivity | constructor].
      * discriminate.
      * intros H. inversion H; subst. congruence.
    + apply String.eqb_neq in E. split; [|split].
      * intros plant H. destruct (IHret plant H) as [Hk [before [after [-> Hb]]]].
        split; [exact Hk|]. exists (p :: before), after.
        split; [reflexivity | now constructor].
      * intros e H. destruct (IHraise e H) as [-> Hall].
        split; [reflexivity | now constructor].
      * intros H. inversion H; subst. now apply IHnone.
Qed.

Lemma load_plant_data_first_match_witness :
  load_plant_data [basil; shadowed_basil] "basil" = Return basil
  /\ plant_key basil = "basil"
  /\ load_plant_data [basil; shadowed_basil] "orchid" = Raise (not_found "orchid").
Proof.
  assert (H : load_plant_data [basil; shadowed_basil] "basil" = Return basil)
    by reflexivity.
  split; [exact H|].
  destruct (load_plant_data_first_match [basil; shadowed_basil] "basil")
    as [Hret _].
  split; [exact (proj1 (Hret basil H))|].
  destruct (load_plant_data_first_match [basil; shadowed_basil] "orchid")
    as [_ [_ Hnone]].
  apply Hnone. repeat constructor; discriminate.
Defined.

Section SoilMoisture.

Local Open Scope Q_scope.

(** X2.  The soil-moisture comparator: the difference is the value minus the
    ideal, the status is OK exactly within the tolerance, and the message
    goes with the status: optimal for OK, too high for a value above the
    ideal, too low (with the absolute difference) otherwise. *)
Theorem soil_moisture_follows_tolerance
    (plants : Catalog) (kind : string) (plant : Plant) (value : Q) :
  load_plant_data plants kind = Return plant ->
  let ideal := ic_soil_moisture (ideal_conditions plant) in
  let tolerance := tol_soil_moisture (tolerances plant) in
  exists v,
    soil_moisture plants kind value = Return v
    /\ sv_current v = value /\ sv_ideal v = ideal
    /\ sv_difference v = value - ideal
    /\ (Qabs (value - ideal) <= tolerance ->
        sv_status v = OK /\ sv_message v = SoilOptimal value ideal)
    /\ (tolerance < Qabs (value - ideal) -> 0 < value - ideal ->
        sv_status v = ALERT /\ sv_message v = SoilTooHigh (value - ideal) ideal)
    /\ (tolerance < Qabs (value - ideal) -> value - ideal <= 0 ->
        sv_status v = ALERT
        /\ sv_message v = SoilTooLow (Qabs (value - ideal)) ideal).
Proof.
  intros Hload ideal tolerance. unfold soil_moisture. rewrite Hload.
  cbn [mbind outcome_bind]. fold ideal tolerance.
  eexists. split; [reflexivity|]. cbn [sv_current sv_ideal sv_difference sv_status sv_message].
  split; [reflexivity|]. split; [reflexivity|]. split; [reflexivity|].
  split; [|split].
  - intros H. apply Qle_bool_iff in H. now rewrite H.
  - intros Hout Hpos.
    assert (E : Qle_bool (Qabs (value - ideal)) tolerance = false).
    { apply Qle_bool_not. now apply Qlt_not_le. }
    rewrite E. apply Qltb_lt in Hpos. now rewrite Hpos.
  - intros Hout Hneg.
    assert (E : Qle_bool (Qabs (value - ideal)) tolerance = false).
    { apply Qle_bool_not. now apply Qlt_not_le. }
    rewrite E.
    assert (E2 : Qltb 0 (value - ideal) = false).
    { destruct (Qltb 0 (value - ideal)) eqn:E2; [|reflexivity].
      apply Qltb_lt in E2. exfalso. exact (Qlt_not_le _ _ E2 Hneg). }
    now rewrite E2.
Qed.

End SoilMoisture.

Lemma soil_moisture_follows_tolerance_witness :
  load_plant_data [basil] "basil" = Return basil
  /\ exists v, soil_moisture [basil] "basil" 50 = Return v
       /\ sv_status v = ALERT
       /\ sv_message v = SoilTooLow (Qabs (50 - 60)) 60.
Proof.
  split; [reflexivity|].
  destruct (soil_moisture_follows_tolerance [basil] "basil" basil 50 eq_refl)
    as [v [Hv [_ [_ [_ [_ [_ Hlow]]]]]]].
  exists v. split; [exact Hv|].
  apply Hlow; vm_compute; [reflexivity | discriminate].
Defined.

Section BandMessages.

Local Open Scope Q_scope.

Lemma Qle_bool_true (x y : Q) : x <= y -> Qle_bool x y = true.
Proof. apply Qle_bool_iff. Qed.

Lemma Qle_bool_lt (x y : Q) : y < x -> Qle_bool x y = false.
Proof. intros H. apply Qle_bool_not. now apply Qlt_not_le. Qed.

Lemma Qltb_true (x y : Q) : x < y -> Qltb x y = true.
Proof. apply Qltb_lt. Qed.

Lemma Qltb_le (x y : Q) : y <= x -> Qltb x y = false.
Proof.
  intros H. destruct (Qltb x y) eqn:E; [|reflexivity].
  apply Qltb_lt in E. exfalso. exact (Qlt_not_le _ _ E H).
Qed.

Lemma compare_band_messages parameter b tolerance value :
  band_messages b tolerance value (compare_band parameter b tolerance value).
Proof.
  unfold band_messages, compare_band. cbv zeta. cbn [bv_status bv_message].
  split; [|split; [|split]].
  - intros H. rewrite (Qle_bool_true _ _ H).
    destruct (Qle_bool (band_min b) value && Qle_bool value (band_max b))%bool;
      now split.
  - intros Hout Hlo Hhi.
    rewrite (Qle_bool_true _ _ Hlo), (Qle_bool_true _ _ Hhi). cbn [andb].
    rewrite (Qle_bool_lt _ _ Hout). now split.
  - intros Hout Hlo.
    rewrite (Qle_bool_lt _ _ Hlo), (Qle_bool_lt _ _ Hout). cbn [andb].
    rewrite (Qltb_true _ _ Hlo). now split.
  - intros Hout Hlo Hhi.
    rewrite (Qle_bool_true _ _ Hlo), (Qle_bool_lt _ _ Hhi), (Qle_bool_lt _ _ Hout).
    cbn [andb]. rewrite (Qltb_le _ _ Hlo), (Qltb_true _ _ Hhi). now split.
Qed.

(** X3.  The messages of the light and temperature comparators go with the
    status: optimal within the tolerance, acceptable inside the band
    beyond the tolerance, too low below the minimum, too high above the
    maximum. *)
Theorem banded_messages_match_status
    (plants : Catalog) (kind : string) (plant : Plant) (value : Q) :
  load_plant_data plants kind = Return plant ->
  (exists v, light plants kind value = Return v
     /\ bv_parameter v = "light" /\ bv_current v = value
     /\ band_messages (ic_light (ideal_conditions plant))
          (tol_light (tolerances plant)) value v)
  /\ (exists v, temperature plants kind value = Return v
      /\ bv_parameter v = "temperature" /\ bv_current v = value
      /\ band_messages (ic_temperature (ideal_conditions plant))
           (tol_temperature (tolerances plant)) value v).
Proof.
  intros Hload. unfold light, temperature. rewrite Hload. cbn [mbind outcome_bind].
  split; eexists; (split; [reflexivity|]);
    (split; [reflexivity|]); (split; [reflexivity|]);
    apply compare_band_messages.
Qed.

End BandMessages.

Lemma banded_messages_match_status_witness :
  load_plant_data [basil] "basil" = Return basil
  /\ exists v, light [basil] "basil" 2500 = Return v
       /\ bv_status v = ALERT
       /\ bv_message v = TooHigh 2500 2000 1500.
Proof.
  split; [reflexivity|].
  destruct (banded_messages_match_status [basil] "basil" basil 2500 eq_refl)
    as [[v [Hv [_ [_ [_ [_ [_ Hhigh]]]]]]] _].
  exists v. split; [exact Hv|].
  apply Hhigh; vm_compute; reflexivity || discriminate.
Defined.

(** ** Fatal errors of a run *)

(** X4.  A plant type that is not in the catalog stops the run at the first
    comparator: the caller gets the [ValueError] of the lookup, the engine
    is not consulted, the store is left as it was, and two error records
    are written, the one of the comparator and then the one of the
    pipeline. *)
Theorem unknown_plant_type_aborts_run
    (rt : Runtime) (engine : Agent) (plants : Catalog) (db : Database)
    (data : SensorData) (test_timestamp : option datetime) (utcnow : datetime) :
  Forall (fun p => plant_key p <> plant_type data) plants ->
  process_with_pipeline rt (Some engine) plants db data test_timestamp utcnow
  = {| result := Raise (not_found (plant_type data));
       store := db;
       errors_logged :=
         [("Error in soil_moisture node for " ++ plant_type data
           ++ ": Plante " ++ plant_type data ++ " non trouvée")%string;
          ("Error in soil_moisture node: Plante " ++ plant_type data
           ++ " non trouvée")%string] |}.
Proof.
  intros Hnone.
  pose proof (load_plant_data_unknown plants (plant_type data) Hnone) as H.
  unfold process_with_pipeline, analyse, run_nodes, soil_moisture_errors,
    soil_moisture.
  rewrite H. cbn [mbind outcome_bind logged_on_raise app not_found exn_text].
  unfold aborted. now rewrite !append_assoc.
Qed.

Lemma unknown_plant_type_aborts_run_witness :
  Forall (fun p => plant_key p <> plant_type orchid_reading) [basil]
  /\ process_with_pipeline strict_runtime (Some (scripted dry_soil_answer))
       [basil] (healthy three_days) orchid_reading None (4 * day)
     = {| result := Raise (not_found "orchid");
          store := healthy three_days;
          errors_logged :=
            ["Error in soil_moisture node for orchid: Plante orchid non trouvée";
             "Error in soil_moisture node: Plante orchid non trouvée"] |}.
Proof.
  assert (H : Forall (fun p => plant_key p <> plant_type orchid_reading) [basil])
    by (repeat constructor; discriminate).
  split; [exact H|].
  exact (unknown_plant_type_aborts_run strict_runtime
           (scripted dry_soil_answer) [basil] (healthy three_days)
           orchid_reading None (4 * day) H).
Defined.

Lemma save_analysis_store (db : Database) (data : SensorData)
    (r : AnalysisResponse) (timestamp : option datetime) (utcnow : datetime) :
  snd (save_analysis db data r timestamp utcnow)
  = match session_local db, write_fault db with
    | true, None =>
        with_rows (rows db ++ [saved_row db data r timestamp utcnow]) db
    | _, _ => db
    end.
Proof.
  unfold save_analysis, with_rows, saved_row.
  destruct (session_local db); [|reflexivity].
  destruct (write_fault db); reflexivity.
Qed.

(** X5.  A run only ever appends to the table.  A run that raises leaves the
    store as it was.  A run that returns has added one row, made of the
    reading, the result and the timestamp (the override when there is
    one, the clock otherwise), exactly when the store is initialised and
    the commit does not fail; otherwise the store is unchanged. *)
Theorem run_is_append_only
    (rt : Runtime) (agent : option Agent) (plants : Catalog) (db : Database)
    (data : SensorData) (test_timestamp : option datetime) (utcnow : datetime) :
  let run := process_with_pipeline rt agent plants db data test_timestamp utcnow in
  (forall e, result run = Raise e -> store run = db)
  /\ (forall r, result run = Return r ->
        session_local db = true -> write_fault db = None ->
        store run
        = with_rows (rows db ++ [saved_row db data r test_timestamp utcnow]) db)
  /\ (forall r, result run = Return r ->
        session_local db = false \/ write_fault db <> None ->
        store run = db).
Proof.
  cbv zeta. unfold process_with_pipeline.
  destruct (analyse rt agent plants db data) as [[r|e] log].
  - match goal with |- context [result ?x] => set (run := x) end.
    assert (Hres : result run = Return r).
    { subst run.
      now destruct (save_analysis db data r test_timestamp utcnow) as [[row|e] db']. }
    assert (Hstore : store run = snd (save_analysis db data r test_timestamp utcnow)).
    { subst run.
      now destruct (save_analysis db data r test_timestamp utcnow) as [[row|e] db']. }
    rewrite Hres, Hstore, save_analysis_store.
    split; [discriminate|]. split.
    + intros r' [= <-] -> ->. reflexivity.
    + intros r' [= <-] [-> | Hw]; [reflexivity|].
      destruct (session_local db); [|reflexivity].
      now destruct (write_fault db).
  - cbn. split; [reflexivity|]. split; discriminate.
Qed.

Lemma run_is_append_only_witness :
  let db := healthy three_days in
  let run := process_with_pipeline strict_runtime (Some (scripted dry_soil_answer))
               [basil] db basil_reading (Some (5 * day)) (4 * day) in
  result run = Return dry_soil_response
  /\ rows (store run)
     = three_days
       ++ [ {| pa_id := 5; pa_plant_id := "basil-001"; pa_timestamp := 5 * day;
               pa_humidity := 50; pa_light := 1200; pa_temperature := 22;
               pa_status := "ALERT"; pa_message := py "Soil is dry";
               pa_action := py "Take multiple actions: water and light" |} ].
Proof.
  intros db run.
  assert (H : result run = Return dry_soil_response) by (vm_compute; reflexivity).
  split; [exact H|].
  destruct (run_is_append_only strict_runtime (Some (scripted dry_soil_answer))
              [basil] db basil_reading (Some (5 * day)) (4 * day)) as [_ [Hadd _]].
  fold run in Hadd. rewrite (Hadd dry_soil_response H eq_refl eq_refl).
  reflexivity.
Defined.

(** ** The direction of a trend *)

Section Direction.

Local Open Scope Q_scope.

Lemma trend_direction_cases values current_value :
  let pct := raw_change_percent values current_value in
  let chg := raw_change values current_value in
  (Qabs pct < 2 /\ trend_direction values current_value = stable)
  \/ (2 <= Qabs pct /\ 0 < chg /\ trend_direction values current_value = increasing)
  \/ (2 <= Qabs pct /\ chg <= 0 /\ trend_direction values current_value = decreasing).
Proof.
  cbv zeta. unfold trend_direction.
  destruct (Qltb (Qabs (raw_change_percent values current_value)) 2) eqn:E.
  { left. split; [now apply Qltb_lt | reflexivity]. }
  assert (Hge : 2 <= Qabs (raw_change_percent values current_value)).
  { apply Qnot_lt_le. intros H. apply Qltb_lt in H. congruence. }
  right. destruct (Qltb 0 (raw_change values current_value)) eqn:E2.
  - left. split; [exact Hge|]. split; [now apply Qltb_lt | reflexivity].
  - right. split; [exact Hge|]. split; [|reflexivity].
    apply Qnot_lt_le. intros H. apply Qltb_lt in H. congruence.
Qed.

Lemma large_percent_needs_positive_mean values current_value :
  2 <= Qabs (raw_change_percent values current_value) ->
  0 < avg_historical values /\ ~ raw_change values current_value == 0.
Proof.
  intros H. unfold raw_change_percent in H.
  destruct (Qltb 0 (avg_historical values)) eqn:E.
  - split; [now apply Qltb_lt|]. intros Hz.
    assert (Hp : raw_change values current_value / avg_historical values * 100 == 0).
    { rewrite Hz. unfold Qdiv. now rewrite !Qmult_0_l. }
    rewrite Hp in H. vm_compute in H. now apply H.
  - vm_compute in H. exfalso. now apply H.
Qed.

(** X6.  The direction of a computed trend is decided on the unrounded
    numbers: stable when the change is below 2 percent of the mean in
    absolute value, else increasing for a positive change and decreasing
    otherwise.  A decreasing trend has a negative change, and both
    directions require a positive mean; a current value equal to the mean
    is stable. *)
Theorem trend_direction_rule (values : list Q) (current_value : Q) :
  (2 <= length values)%nat ->
  let t := calculate_trend values current_value in
  let pct := raw_change_percent values current_value in
  let chg := raw_change values current_value in
  (Qabs pct < 2 -> direction t = stable)
  /\ (2 <= Qabs pct -> 0 < chg -> direction t = increasing)
  /\ (2 <= Qabs pct -> chg <= 0 -> direction t = decreasing)
  /\ (direction t = increasing -> 0 < chg /\ 0 < avg_historical values)
  /\ (direction t = decreasing -> chg < 0 /\ 0 < avg_historical values)
  /\ (current_value == avg_historical values -> direction t = stable).
Proof.
  intros Hlen. cbv zeta.
  assert (Hd : direction (calculate_trend values current_value)
               = trend_direction values current_value).
  { unfold calculate_trend.
    destruct (length values <? 2)%nat eqn:E; [|reflexivity].
    apply Nat.ltb_lt in E. lia. }
  rewrite Hd.
  pose proof (trend_direction_cases values current_value) as Hc. cbv zeta in Hc.
  split; [|split; [|split; [|split; [|split]]]].
  - intros Hs. destruct Hc as [[_ ->] | [[Hge _] | [Hge _]]]; [reflexivity | |];
      exfalso; exact (Qlt_not_le _ _ Hs Hge).
  - intros Hge Hpos. destruct Hc as [[Hs _] | [[_ [_ ->]] | [_ [Hneg _]]]];
      [| reflexivity |].
    + exfalso; exact (Qlt_not_le _ _ Hs Hge).
    + exfalso; exact (Qlt_not_le _ _ Hpos Hneg).
  - intros Hge Hneg. destruct Hc as [[Hs _] | [[_ [Hpos _]] | [_ [_ ->]]]];
      [| | reflexivity].
    + exfalso; exact (Qlt_not_le _ _ Hs Hge).
    + exfalso; exact (Qlt_not_le _ _ Hpos Hneg).
  - intros Hi. destruct Hc as [[_ H] | [[Hge [Hpos _]] | [_ [_ H]]]]; try congruence.
    split; [exact Hpos|]. now apply (large_percent_needs_positive_mean values current_value).
  - intros Hi. destruct Hc as [[_ H] | [[_ [_ H]] | [Hge [Hneg _]]]]; try congruence.
    destruct (large_percent_needs_positive_mean values current_value Hge)
      as [Havg Hnz].
    split; [|exact Havg].
    apply Qle_lt_or_eq in Hneg as [Hlt | Heq]; [exact Hlt | contradiction].
  - intros Heq.
    destruct Hc as [[_ ->] | [[Hge _] | [Hge _]]]; [reflexivity | |];
      destruct (large_percent_needs_positive_mean values current_value Hge)
        as [_ Hnz]; exfalso; apply Hnz; unfold raw_change; rewrite Heq; ring.
Qed.

End Direction.

Lemma trend_direction_rule_witness :
  (2 <= length [70; 65]%Q)%nat
  /\ direction (calculate_trend [70; 65]%Q 55%Q) = decreasing
  /\ (raw_change [70; 65] 55 < 0)%Q.
Proof.
  assert (H : (2 <= length [70; 65]%Q)%nat) by (cbn; lia).
  split; [exact H|].
  destruct (trend_direction_rule [70; 65]%Q 55%Q H) as [_ [_ [Hdec [_ [Hneg _]]]]].
  assert (Hd : direction (calculate_trend [70; 65]%Q 55%Q) = decreasing).
  { apply Hdec; vm_compute; discriminate. }
  split; [exact Hd|]. exact (proj1 (Hneg Hd)).
Defined.

(** ** The query of the history node *)

Lemma sorted_split {A : Type} (R : A -> A -> Prop) (l1 l2 : list A) :
  StronglySorted R (l1 ++ l2) ->
  StronglySorted R l1 /\ Forall (fun a => Forall (R a) l2) l1.
Proof.
  induction l1 as [|a l1 IH]; cbn; intros H; [split; constructor|].
  inversion H as [|? ? Hl Ha]; subst.
  destruct (IH Hl) as [Hs Hf].
  apply Forall_app in Ha as [Ha1 Ha2].
  split; constructor; assumption.
Qed.

(** X7.  The query returns at most [limit] records, all of the requested
    plant, newest first, and they are the most recent ones: together with
    the records left out they are the stored records of the plant, and no
    record left out is newer than a record returned.  A failing read
    raises. *)
Theorem fetch_recent_returns_latest
    (db : Database) (plant : string) (limit : nat) :
  (forall e, read_fault db = Some e -> fetch_recent db plant limit = Raise e)
  /\ (forall analyses,
        fetch_recent db plant limit = Return analyses ->
        newest_first analyses
        /\ length analyses = Nat.min limit (length (rows_of db plant))
        /\ Forall (fun r => pa_plant_id r = plant /\ In r (rows db)) analyses
        /\ exists left_out,
             Permutation (analyses ++ left_out) (rows_of db plant)
             /\ Forall (fun r =>
                          Forall (fun old => pa_timestamp old <= pa_timestamp r)
                            left_out) analyses).
Proof.
  unfold fetch_recent. split; [now intros e ->|].
  intros analyses. destruct (read_fault db); [discriminate|].
  intros [= <-]. fold (rows_of db plant).
  set (sorted := order_by_timestamp_desc (rows_of db plant)).
  assert (Hperm : Permutation sorted (rows_of db plant))
    by apply order_by_timestamp_desc_perm.
  assert (Hsorted : newest_first sorted) by apply order_by_timestamp_desc_sorted.
  rewrite <- (firstn_skipn limit sorted) in Hsorted, Hperm.
  apply sorted_split in Hsorted as [Hs Hf].
  split; [exact Hs|]. split; [|split].
  - rewrite length_take. subst sorted.
    now rewrite (Permutation_length (order_by_timestamp_desc_perm _)), Nat.min_comm.
  - apply Forall_forall. intros r Hr.
    assert (Hin : In r (rows_of db plant)).
    { apply (Permutation_in r Hperm). apply in_or_app. left.
      now apply list_elem_of_In. }
    unfold rows_of in Hin. apply List.filter_In in Hin as [Hin Hk].
    split; [now apply String.eqb_eq | exact Hin].
  - exists (skipn limit sorted). split; [exact Hperm | exact Hf].
Qed.

Lemma fetch_recent_returns_latest_witness :
  fetch_recent (healthy three_days) "basil-001" 2
  = Return [ reading_row 4 "basil-001" (3 * day) 55 1200 22 "ALERT";
             reading_row 3 "basil-001" (2 * day) 65 1200 22 "OK" ]
  /\ newest_first [ reading_row 4 "basil-001" (3 * day) 55 1200 22 "ALERT";
                    reading_row 3 "basil-001" (2 * day) 65 1200 22 "OK" ].
Proof.
  assert (H : fetch_recent (healthy three_days) "basil-001" 2
              = Return [ reading_row 4 "basil-001" (3 * day) 55 1200 22 "ALERT";
                         reading_row 3 "basil-001" (2 * day) 65 1200 22 "OK" ])
    by reflexivity.
  split; [exact H|].
  destruct (fetch_recent_returns_latest (healthy three_days) "basil-001" 2)
    as [_ Hret].
  exact (proj1 (Hret _ H)).
Defined.

(** ** The summary of the history node *)

Lemma history_shape (db : Database) (plant : string) (limit : nat)
    (h : HistoryResult) :
  history db plant limit = Return h ->
  (exists text, h = no_history text)
  \/ (window db plant limit <> [] /\ h = summarize (window db plant limit)).
Proof.
  unfold history, history_body, window, get_db, try_finally, db_close.
  destruct (session_local db); cbn; [|intros [= <-]; left; eauto].
  destruct (close_fault db); cbn; [intros [= <-]; left; eauto|].
  destruct (fetch_recent db plant limit) as [analyses|e]; cbn;
    [|intros [= <-]; left; eauto].
  destruct analyses; cbn; intros [= <-]; [left; eauto | now right].
Qed.

Lemma window_properties (db : Database) (plant : string) (limit : nat) :
  newest_first (window db plant limit)
  /\ (length (window db plant limit) <= limit)%nat
  /\ Forall (fun r => pa_plant_id r = plant) (window db plant limit).
Proof.
  unfold window, fetch_recent.
  destruct (read_fault db);
    [split; [constructor|]; split; [cbn; lia | constructor]|].
  fold (rows_of db plant).
  pose proof (order_by_timestamp_desc_sorted (rows_of db plant)) as Hs.
  rewrite <- (firstn_skipn limit (order_by_timestamp_desc (rows_of db plant))) in Hs.
  apply sorted_split in Hs as [Hs _].
  split; [exact Hs|]. split; [rewrite length_take; lia|].
  apply Forall_take, Forall_forall. intros r Hr. apply list_elem_of_In in Hr.
  apply (Permutation_in r (order_by_timestamp_desc_perm _)) in Hr.
  unfold rows_of in Hr. apply List.filter_In in Hr as [_ Hk].
  now apply String.eqb_eq.
Qed.

Section Rounding.

Local Open Scope Q_scope.

Lemma round_half_even_bounds (x : Q) (lo hi : Z) :
  inject_Z lo <= x -> x <= inject_Z hi ->
  (lo <= round_half_even x <= hi)%Z.
Proof.
  intros Hlo Hhi. unfold round_half_even.
  assert (Hn1 : (lo <= Qfloor x)%Z).
  { rewrite <- (Qfloor_Z lo). now apply Qfloor_resp_le. }
  assert (Hn2 : (Qfloor x <= hi)%Z).
  { rewrite <- (Qfloor_Z hi). now apply Qfloor_resp_le. }
  destruct (Z.eq_dec (Qfloor x) hi) as [Heq | Hne].
  - assert (Hx : x == inject_Z hi).
    { apply Qle_antisym; [exact Hhi|]. rewrite <- Heq. apply Qfloor_le. }
    assert (Hfrac : x - inject_Z (Qfloor x) < 1 # 2).
    { rewrite Heq, Hx. unfold Qminus. rewrite Qplus_opp_r. reflexivity. }
    destruct (Qcompare_spec (x - inject_Z (Qfloor x)) (1 # 2)) as [He | Hl | Hg].
    + rewrite He in Hfrac. now apply Qlt_irrefl in Hfrac.
    + lia.
    + exfalso. exact (Qlt_irrefl _ (Qlt_trans _ _ _ Hfrac Hg)).
  - destruct (x - inject_Z (Qfloor x) ?= 1 # 2); [|lia|lia].
    destruct (Z.even (Qfloor x)); lia.
Qed.

Lemma py_round_bounds (x : Q) (ndigits : nat) (lo hi : Z) :
  inject_Z lo <= x -> x <= inject_Z hi ->
  inject_Z lo <= py_round x ndigits /\ py_round x ndigits <= inject_Z hi.
Proof.
  intros Hlo Hhi. unfold py_round.
  set (scale := (10 ^ Z.of_nat ndigits)%Z).
  assert (Hs : (0 < scale)%Z) by (subst scale; apply Z.pow_pos_nonneg; lia).
  assert (HsQ : 0 < inject_Z scale).
  { change 0 with (inject_Z 0). now rewrite <- Zlt_Qlt. }
  destruct (round_half_even_bounds (x * inject_Z scale) (lo * scale) (hi * scale))
    as [H1 H2].
  - rewrite inject_Z_mult. apply Qmult_le_compat_r; [exact Hlo | now apply Qlt_le_weak].
  - rewrite inject_Z_mult. apply Qmult_le_compat_r; [exact Hhi | now apply Qlt_le_weak].
  - split.
    + apply Qle_shift_div_l; [exact HsQ|].
      rewrite <- inject_Z_mult. now rewrite <- Zle_Qle.
    + apply Qle_shift_div_r; [exact HsQ|].
      rewrite <- inject_Z_mult. now rewrite <- Zle_Qle.
Qed.

Lemma ratio_percent_bounds (count total : nat) :
  (count <= total)%nat -> (0 < total)%nat ->
  inject_Z 0 <= inject_Z (Z.of_nat count) / inject_Z (Z.of_nat total) * 100
  /\ inject_Z (Z.of_nat count) / inject_Z (Z.of_nat total) * 100 <= inject_Z 100.
Proof.
  intros Hle Hpos.
  assert (Ht : 0 < inject_Z (Z.of_nat total)).
  { change 0 with (inject_Z 0). rewrite <- Zlt_Qlt. lia. }
  assert (H0 : 0 <= inject_Z (Z.of_nat count) / inject_Z (Z.of_nat total)).
  { apply Qle_shift_div_l; [exact Ht|]. rewrite Qmult_0_l.
    change 0 with (inject_Z 0). rewrite <- Zle_Qle. lia. }
  assert (H1 : inject_Z (Z.of_nat count) / inject_Z (Z.of_nat total) <= 1).
  { apply Qle_shift_div_r; [exact Ht|]. rewrite Qmult_1_l.
    rewrite <- Zle_Qle. lia. }
  split.
  - change (inject_Z 0) with (0 * 100). apply Qmult_le_compat_r; [exact H0 | discriminate].
  - change (inject_Z 100) with (1 * 100). apply Qmult_le_compat_r; [exact H1 | discriminate].
Qed.

End Rounding.

Lemma days_span_positive (analyses : list PlantAnalysis) : 1 <= days_span analyses.
Proof.
  unfold days_span. destruct (1 <? length analyses)%nat; [|lia].
  destruct (head analyses); [|lia]. destruct (last analyses); [|lia].
  destruct (0 <? _) eqn:E; [|lia]. apply Z.ltb_lt in E. lia.
Qed.

Lemma filter_length_le {A : Type} (P : A -> bool) (l : list A) :
  (length (List.filter P l) <= length l)%nat.
Proof.
  induction l as [|x l IH]; cbn; [lia|]. destruct (P x); cbn; lia.
Qed.

(** X8.  The counts of the summary.  A result without history has no recent
    analyses and no trends.  A result with history counts the records of
    the window: between 1 and [limit] of them, as many recent analyses,
    no more alerts than records, an alert percentage between 0 and 100,
    and a time span of at least one day. *)
Theorem history_summary_counts
    (db : Database) (plant : string) (limit : nat) (h : HistoryResult) :
  history db plant limit = Return h ->
  (has_history h = false ->
   recent_analyses h = [] /\ trends h = ∅
   /\ exists text, summary h = SummaryMessage 0 text)
  /\ (has_history h = true ->
      exists stats,
        summary h = SummaryOf stats
        /\ total_analyses stats = length (window db plant limit)
        /\ length (recent_analyses h) = total_analyses stats
        /\ (1 <= total_analyses stats <= limit)%nat
        /\ alert_count stats
           = length (List.filter is_alert (window db plant limit))
        /\ (alert_count stats <= total_analyses stats)%nat
        /\ (0 <= alert_percentage stats /\ alert_percentage stats <= 100)%Q
        /\ 1 <= time_span_days stats).
Proof.
  intros Hh. destruct (history_shape _ _ _ _ Hh) as [[text ->] | [Hne ->]].
  - split; [|discriminate]. intros _. cbn. repeat split. now exists text.
  - split; [discriminate|]. intros _.
    destruct (window_properties db plant limit) as [_ [Hlen _]].
    set (w := window db plant limit) in *.
    eexists. split; [reflexivity|].
    cbn [total_analyses alert_count alert_percentage time_span_days
         recent_analyses summarize].
    assert (Hpos : (1 <= length w)%nat) by (destruct w; [congruence | cbn; lia]).
    pose proof (filter_length_le is_alert w) as Hal.
    split; [reflexivity|]. split; [now rewrite length_map|].
    split; [lia|]. split; [reflexivity|]. split; [exact Hal|].
    split; [|apply days_span_positive].
    destruct (0 <? length w)%nat eqn:E; [|apply Nat.ltb_ge in E; lia].
    destruct (ratio_percent_bounds (length (List.filter is_alert w)) (length w))
      as [H0 H100]; [exact Hal | lia |].
    exact (py_round_bounds _ 1 0 100 H0 H100).
Qed.

Lemma history_summary_counts_witness :
  let db := healthy three_days in
  exists h stats,
    history db "basil-001" 10 = Return h
    /\ has_history h = true
    /\ summary h = SummaryOf stats
    /\ total_analyses stats = 3%nat
    /\ alert_count stats = 1%nat
    /\ time_span_days stats = 2.
Proof.
  intros db.
  destruct (history_returns db "basil-001" 10) as [h Hh].
  assert (Hs : h = summarize (window db "basil-001" 10)).
  { assert (E : history db "basil-001" 10
                = Return (summarize (window db "basil-001" 10)))
      by (vm_compute; reflexivity).
    rewrite E in Hh. now injection Hh. }
  assert (Hhas : has_history h = true) by (subst h; reflexivity).
  destruct (history_summary_counts db "basil-001" 10 h Hh) as [_ H].
  destruct (H Hhas) as [stats [Hsum [Ht [_ [_ [Ha _]]]]]].
  exists h, stats. split; [exact Hh|]. split; [exact Hhas|].
  split; [exact Hsum|]. split; [exact Ht|]. split; [exact Ha|].
  subst h. injection Hsum as <-. reflexivity.
Defined.

Lemma newest_first_filter (P : PlantAnalysis -> bool) (l : list PlantAnalysis) :
  newest_first l -> newest_first (List.filter P l).
Proof.
  unfold newest_first. induction 1 as [|x l Hl IH Hx]; cbn; [constructor|].
  destruct (P x); [|exact IH]. constructor; [exact IH|].
  apply Forall_forall. intros y Hy. apply list_elem_of_In in Hy.
  apply List.filter_In in Hy as [Hy _].
  rewrite List.Forall_forall in Hx. now apply Hx.
Qed.

(** X9.  The dates of the summary.  There is a last alert date exactly when
    the window holds an alert; it is the timestamp of an alert of the
    window, and no alert of the window is more recent.  The most recent
    date is the timestamp of a record of the window, and no record of the
    window is more recent. *)
Theorem history_summary_dates
    (db : Database) (plant : string) (limit : nat) (h : HistoryResult)
    (stats : SummaryStats) :
  history db plant limit = Return h ->
  summary h = SummaryOf stats ->
  let w := window db plant limit in
  (last_alert_date stats = None <-> alert_count stats = 0%nat)
  /\ (forall t, last_alert_date stats = Some t ->
        (exists r, In r w /\ pa_status r = "ALERT" /\ pa_timestamp r = t)
        /\ Forall (fun a => pa_status a = "ALERT" -> pa_timestamp a <= t) w)
  /\ (exists newest r,
        most_recent_date stats = Some newest
        /\ In r w /\ pa_timestamp r = newest
        /\ Forall (fun a => pa_timestamp a <= newest) w).
Proof.
  intros Hh Hsum w.
  destruct (history_shape _ _ _ _ Hh) as [[text ->] | [Hne ->]]; [discriminate|].
  destruct (window_properties db plant limit) as [Hsorted _].
  fold w in Hne, Hsum, Hsorted.
  cbn [summary summarize] in Hsum. injection Hsum as <-.
  cbn [last_alert_date alert_count most_recent_date].
  pose proof (newest_first_filter is_alert w Hsorted) as Hfs.
  split; [|split].
  - destruct (List.filter is_alert w); cbn; split; congruence.
  - intros t Ht.
    destruct (List.filter is_alert w) as [|r alerts] eqn:E; [discriminate|].
    cbn in Ht. injection Ht as <-.
    assert (Hr : In r (List.filter is_alert w)) by (rewrite E; now left).
    apply List.filter_In in Hr as [Hr Hal].
    split.
    + exists r. split; [exact Hr|]. split; [|reflexivity].
      now apply String.eqb_eq.
    + apply Forall_forall. intros a Ha Hst. apply list_elem_of_In in Ha.
      assert (Hin : In a (r :: alerts)).
      { rewrite <- E. apply List.filter_In. split; [exact Ha|].
        now apply String.eqb_eq. }
      destruct Hin as [<- | Hin]; [lia|].
      inversion Hfs as [|? ? _ Hall]; subst.
      rewrite List.Forall_forall in Hall. now apply Hall.
  - destruct w as [|r rest]; [congruence|].
    exists (pa_timestamp r), r. split; [reflexivity|]. split; [now left|].
    split; [reflexivity|].
    inversion Hsorted as [|? ? _ Hall]; subst.
    constructor; [lia | exact Hall].
Qed.

Lemma history_summary_dates_witness :
  let db := healthy three_days in
  let h := summarize (window db "basil-001" 10) in
  exists stats,
    history db "basil-001" 10 = Return h
    /\ summary h = SummaryOf stats
    /\ last_alert_date stats = Some (3 * day)
    /\ Forall (fun a => pa_status a = "ALERT" -> pa_timestamp a <= 3 * day)
         (window db "basil-001" 10).
Proof.
  intros db h.
  assert (Hh : history db "basil-001" 10 = Return h) by (vm_compute; reflexivity).
  eexists. split; [exact Hh|]. split; [reflexivity|]. split; [reflexivity|].
  destruct (history_summary_dates db "basil-001" 10 h _ Hh eq_refl) as [_ [H _]].
  exact (proj2 (H (3 * day) eq_refl)).
Defined.

(** ** A run and the history of later runs *)

Lemma run_store (rt : Runtime) (agent : option Agent) (plants : Catalog)
    (db : Database) (data : SensorData) (test_timestamp : option datetime)
    (utcnow : datetime) :
  let run := process_with_pipeline rt agent plants db data test_timestamp utcnow in
  store run
  = match result run, session_local db, write_fault db with
    | Return r, true, None =>
        with_rows (rows db ++ [saved_row db data r test_timestamp utcnow]) db
    | _, _, _ => db
    end.
Proof.
  cbv zeta. unfold process_with_pipeline.
  destruct (analyse rt agent plants db data) as [[r|e] log]; [|reflexivity].
  pose proof (save_analysis_store db data r test_timestamp utcnow) as Hs.
  destruct (save_analysis db data r test_timestamp utcnow) as [[row|e] db'];
    cbn [snd] in Hs; cbn [result store]; exact Hs.
Qed.

Lemma rows_of_append (db : Database) (row : PlantAnalysis) (plant : string) :
  rows_of (with_rows (rows db ++ [row]) db) plant
  = if String.eqb (pa_plant_id row) plant
    then rows_of db plant ++ [row]
    else rows_of db plant.
Proof.
  unfold rows_of, with_rows. cbn [rows]. rewrite List.filter_app. cbn.
  destruct (String.eqb (pa_plant_id row) plant); [reflexivity|].
  apply app_nil_r.
Qed.

Lemma history_depends_on_rows_of (db db' : Database) (plant : string) (limit : nat) :
  session_local db' = session_local db ->
  read_fault db' = read_fault db ->
  close_fault db' = close_fault db ->
  rows_of db' plant = rows_of db plant ->
  history db' plant limit = history db plant limit.
Proof.
  intros Hs Hr Hc Hrows.
  unfold history, history_body, get_db, try_finally, db_close, fetch_recent.
  fold (rows_of db' plant) (rows_of db plant).
  now rewrite Hs, Hr, Hc, Hrows.
Qed.

(** X10.  A run for one plant does not change what the history node reports
    for any other plant. *)
Theorem run_keeps_history_of_other_plants
    (rt : Runtime) (agent : option Agent) (plants : Catalog) (db : Database)
    (data : SensorData) (test_timestamp : option datetime) (utcnow : datetime)
    (other : string) (limit : nat) :
  plant_id data <> other ->
  history (store (process_with_pipeline rt agent plants db data
                    test_timestamp utcnow)) other limit
  = history db other limit.
Proof.
  intros Hne.
  rewrite (run_store rt agent plants db data test_timestamp utcnow).
  destruct (result _) as [r|e]; [|reflexivity].
  destruct (session_local db) eqn:Es; [|reflexivity].
  destruct (write_fault db) eqn:Ew; [reflexivity|].
  apply history_depends_on_rows_of; try reflexivity.
  rewrite rows_of_append. cbn [saved_row pa_plant_id].
  apply String.eqb_neq in Hne. now rewrite Hne.
Qed.

Lemma run_keeps_history_of_other_plants_witness :
  plant_id basil_reading <> "mint-007"
  /\ history (store (process_with_pipeline strict_runtime
                      (Some (scripted dry_soil_answer)) [basil]
                      (healthy three_days) basil_reading None (4 * day)))
       "mint-007" 10
     = history (healthy three_days) "mint-007" 10.
Proof.
  assert (H : plant_id basil_reading <> "mint-007") by discriminate.
  split; [exact H|].
  exact (run_keeps_history_of_other_plants strict_runtime
           (Some (scripted dry_soil_answer)) [basil] (healthy three_days)
           basil_reading None (4 * day) "mint-007" 10 H).
Defined.




(** ** What a normalized result is made of *)

Lemma coerce_action_not_empty (rt : Runtime) (v : option json) (a : pystr) :
  coerce_action rt v = Return a -> a <> [].
Proof.
  unfold coerce_action.
  destruct (action_text rt _) as [text|e]; cbn [mbind outcome_bind]; [|discriminate].
  intros [= <-].
  destruct (reparse_list rt (strip_quotes (strip text))); discriminate.
Qed.

Lemma validate_status_alert (v : option json) :
  validate_status v = Return ALERT -> v = Some (JStr (py "ALERT")).
Proof.
  unfold validate_status. destruct v as [[]|]; try discriminate.
  destruct (pystr_eqb s (py "OK")); [discriminate|].
  destruct (pystr_eqb s (py "ALERT")) eqn:E; [|discriminate].
  intros _. unfold pystr_eqb in E. apply bool_decide_eq_true in E. now subst s.
Qed.

(** X12.  Every result the normalizer returns has an action that is not empty,
    and it says ALERT only when the text between the braces decodes to an
    object whose status is "ALERT": the fallback never raises an alert. *)
Theorem normalized_result_is_grounded
    (rt : Runtime) (response : pystr) (r : AnalysisResponse) :
  normalize rt response = Return r ->
  action r <> []
  /\ (status r = ALERT ->
      exists members,
        json_loads rt (slice response (find (ch "{") response)
                         (S (rfind (ch "}") response))) = Return (JObject members)
        /\ dict_get (py "status") members = Some (JStr (py "ALERT"))).
Proof.
  intros H. unfold normalize in H.
  destruct (candidate_cases rt response) as [[members [Hc Hfrom]] | [e [Hc _]]];
    [|rewrite Hc in H; discriminate H].
  rewrite Hc in H. cbn [mbind outcome_bind] in H.
  apply build_response_fields in H as [Ha [Hs _]].
  split; [exact (coerce_action_not_empty _ _ _ Ha)|].
  intros Halert. rewrite Halert in Hs. apply validate_status_alert in Hs.
  destruct Hfrom as [Hfb | Hdec].
  - injection Hfb as ->. discriminate Hs.
  - exists members. now split.
Qed.

Lemma normalized_result_is_grounded_witness :
  normalize strict_runtime dry_soil_answer = Return dry_soil_response
  /\ action dry_soil_response <> []
  /\ exists members,
       json_loads strict_runtime (slice dry_soil_answer (find (ch "{") dry_soil_answer)
                     (S (rfind (ch "}") dry_soil_answer)))
       = Return (JObject members)
       /\ dict_get (py "status") members = Some (JStr (py "ALERT")).
Proof.
  assert (H : normalize strict_runtime dry_soil_answer = Return dry_soil_response)
    by (vm_compute; reflexivity).
  split; [exact H|].
  destruct (normalized_result_is_grounded strict_runtime dry_soil_answer
              dry_soil_response H) as [Ha Hs].
  split; [exact Ha | exact (Hs eq_refl)].
Defined.

(** ** Structural extraction *)

Lemma contains_app (c : N) (a b : pystr) :
  contains c (a ++ b) = contains c a || contains c b.
Proof. unfold contains. apply existsb_app. Qed.

Lemma find_skips_prefix (c : N) (prefix rest : pystr) :
  contains c prefix = false ->
  find c (prefix ++ c :: rest) = length prefix.
Proof.
  induction prefix as [|x p IH]; cbn [app find length contains existsb].
  - now rewrite N.eqb_refl.
  - intros H. apply orb_false_iff in H as [Hx Hp].
    rewrite N.eqb_sym, Hx. f_equal. now apply IH.
Qed.

Lemma rfind_before_suffix (c : N) (before suffix : pystr) :
  contains c suffix = false ->
  rfind c (before ++ c :: suffix) = length before.
Proof.
  intros Hs. induction before as [|x b IH]; cbn [app rfind length].
  - now rewrite Hs.
  - rewrite contains_app. cbn [contains existsb]. rewrite N.eqb_refl.
    cbn [orb]. rewrite orb_true_r. now rewrite IH.
Qed.

Lemma endswith_snoc (c : N) (s : pystr) :
  endswith c s = true -> exists init, s = init ++ [c].
Proof.
  unfold endswith. induction s as [|x init _] using rev_ind; [discriminate|].
  rewrite last_snoc. intros H. apply N.eqb_eq in H. subst x. now exists init.
Qed.

Lemma slice_middle (prefix body suffix : pystr) :
  slice (prefix ++ body ++ suffix) (length prefix) (length prefix + length body)
  = body.
Proof.
  unfold slice.
  replace (length prefix + length body - length prefix)%nat with (length body) by lia.
  rewrite drop_app_length. apply take_app_length.
Qed.

Lemma extraction_finds_body (prefix body suffix : pystr) :
  contains (ch "{") prefix = false ->
  contains (ch "}") suffix = false ->
  startswith (ch "{") body = true ->
  endswith (ch "}") body = true ->
  let response := prefix ++ body ++ suffix in
  contains (ch "{") response && contains (ch "}") response = true
  /\ slice response (find (ch "{") response) (S (rfind (ch "}") response)) = body.
Proof.
  intros Hp Hs Hopen Hclose response.
  destruct body as [|c rest]; [discriminate|].
  cbn [startswith] in Hopen. apply N.eqb_eq in Hopen. subst c.
  destruct (endswith_snoc _ _ Hclose) as [init Hinit].
  assert (R1 : response = prefix ++ ch "{" :: (rest ++ suffix)) by reflexivity.
  assert (R2 : response = (prefix ++ init) ++ ch "}" :: suffix).
  { subst response. rewrite Hinit, <- !app_assoc. reflexivity. }
  assert (Hfind : find (ch "{") response = length prefix).
  { rewrite R1. now apply find_skips_prefix. }
  assert (Hrfind : rfind (ch "}") response = length (prefix ++ init)).
  { rewrite R2. now apply rfind_before_suffix. }
  assert (Hself : forall c l, contains c (c :: l) = true).
  { intros c l. cbn [contains existsb]. now rewrite N.eqb_refl. }
  split.
  - apply andb_true_iff. split.
    + rewrite R1, contains_app, Hself. apply orb_true_r.
    + rewrite R2, contains_app, Hself. apply orb_true_r.
  - rewrite Hfind, Hrfind.
    replace (S (length (prefix ++ init)))
      with (length prefix + length (ch "{" :: rest))%nat.
    + apply slice_middle.
    + rewrite Hinit, !length_app. cbn [length]. lia.
Qed.

(** X13.  Text around the object is ignored.  When the object opens with the
    first brace of the text and closes with its last brace, and decodes,
    the candidate is the decoded object and the typed result is the one
    the object alone would give. *)
Theorem surrounding_text_is_ignored
    (rt : Runtime) (prefix body suffix : pystr) (v : json) :
  contains (ch "{") prefix = false ->
  contains (ch "}") suffix = false ->
  startswith (ch "{") body = true ->
  endswith (ch "}") body = true ->
  json_loads rt body = Return v ->
  candidate rt (prefix ++ body ++ suffix) = Return v
  /\ normalize rt (prefix ++ body ++ suffix) = normalize rt body.
Proof.
  intros Hp Hs Hopen Hclose Hv.
  assert (Hwhole : candidate rt (prefix ++ body ++ suffix) = Return v).
  { destruct (extraction_finds_body prefix body suffix Hp Hs Hopen Hclose)
      as [Hc Hslice].
    unfold candidate. rewrite Hc, Hslice, Hv. reflexivity. }
  assert (Halone : candidate rt body = Return v).
  { destruct (extraction_finds_body [] body [] eq_refl eq_refl Hopen Hclose)
      as [Hc Hslice].
    cbn [app] in Hc, Hslice. rewrite app_nil_r in Hc, Hslice.
    unfold candidate. rewrite Hc, Hslice, Hv. reflexivity. }
  split; [exact Hwhole|].
  unfold normalize. now rewrite Hwhole, Halone.
Qed.

Lemma surrounding_text_is_ignored_witness :
  let body := quoted "{`status`: `ALERT`, `message`: `Soil is dry`, `action`: [`water`, `light`]}" in
  normalize strict_runtime (py "Here is my analysis: " ++ body ++ py " Hope it helps!")
  = normalize strict_runtime body.
Proof.
  intros body.
  assert (Hv : json_loads strict_runtime body
               = Return (JObject
                   [ (py "status", JStr (py "ALERT"));
                     (py "message", JStr (py "Soil is dry"));
                     (py "action", JList [JStr (py "water"); JStr (py "light")]) ]))
    by (vm_compute; reflexivity).
  exact (proj2 (surrounding_text_is_ignored strict_runtime
                  (py "Here is my analysis: ") body (py " Hope it helps!") _
                  eq_refl eq_refl eq_refl eq_refl Hv)).
Defined.

(** ** Quotes around an action *)

Lemma unwrap_wrapped (q : N) (s : pystr) : unwrap (q :: s ++ [q]) = s.
Proof. unfold unwrap. cbn [tail]. apply removelast_last. Qed.

Lemma endswith_wrapped (q : N) (s : pystr) : endswith q (q :: s ++ [q]) = true.
Proof.
  unfold endswith. change (q :: s ++ [q]) with ((q :: s) ++ [q]).
  rewrite last_snoc. apply N.eqb_refl.
Qed.

(** X14.  One layer of double quotes around a decoded action is removed and
    what is inside is kept as it is, white space included, provided the
    inside is not empty, is not itself between single quotes and is not
    between square brackets.  Nothing but the two quotes gives "No action
    needed". *)
Theorem quoted_action_is_unwrapped (rt : Runtime) (s : pystr) :
  s <> [] ->
  startswith (ch "'") s && endswith (ch "'") s = false ->
  startswith (ch "[") s && endswith (ch "]") s = false ->
  coerce_action rt (Some (JStr (dquote :: s ++ [dquote]))) = Return s
  /\ coerce_action rt (Some (JStr [dquote; dquote])) = Return (py "No action needed").
Proof.
  intros Hne Hq Hb. split; [|reflexivity].
  unfold coerce_action.
  change (default (JStr (py "No action needed"))
            (Some (JStr (dquote :: s ++ [dquote]))))
    with (JStr (dquote :: s ++ [dquote])).
  cbn [action_text mbind outcome_bind].
  rewrite strip_cons by reflexivity. rewrite rstrip_snoc by reflexivity.
  unfold strip_quotes. cbn [startswith]. rewrite N.eqb_refl, endswith_wrapped.
  cbn [andb]. rewrite unwrap_wrapped, Hq.
  unfold reparse_list. rewrite Hb.
  destruct s; [congruence | reflexivity].
Qed.

Lemma quoted_action_is_unwrapped_witness :
  py " Water the basil " <> []
  /\ coerce_action strict_runtime
       (Some (JStr (dquote :: py " Water the basil " ++ [dquote])))
     = Return (py " Water the basil ").
Proof.
  assert (H : py " Water the basil " <> []) by discriminate.
  split; [exact H|].
  exact (proj1 (quoted_action_is_unwrapped strict_runtime (py " Water the basil ")
                  H eq_refl eq_refl)).
Defined.

(** ** The analysis endpoint *)

(** X15.  What the endpoint answers when the run fails.  An error answer is a
    503 or a 500 and leaves the store as it was.  Without an agent the
    answer is the 503; a [RuntimeError] raised by the run, or a
    [RecursionError], which is one, gets the same 503 and the same
    detail.  A plant type missing from the catalog gets a 500 whose
    detail carries the text of the lookup error.  The answer is a 200
    exactly when the run returns, with the result of the run as body. *)
Theorem analyze_reports_failures
    (rt : Runtime) (parsers : DateParsers) (agent : option Agent)
    (plants : Catalog) (db : Database) (data : SensorData)
    (test_date : option string) (utcnow : datetime) :
  let served := analyze_sensor_data rt parsers agent plants db data test_date utcnow in
  let run := process_with_pipeline rt agent plants db data
               (parse_test_date parsers test_date) utcnow in
  (forall code detail,
     response served = HttpError code detail ->
     served_store served = db /\ (code = 503 \/ code = 500)%nat)
  /\ (agent = None ->
      response served
      = HttpError 503 "LangChain agent is not initialized. Check server logs.")
  /\ (forall e, result run = Raise e ->
        exn_class e = RuntimeError \/ exn_class e = RecursionError ->
        response served
        = HttpError 503 "LangChain agent is not initialized. Check server logs.")
  /\ (forall engine, agent = Some engine ->
        Forall (fun p => plant_key p <> plant_type data) plants ->
        response served
        = HttpError 500 ("Error during analysis: Plante " ++ plant_type data
                         ++ " non trouvée"))
  /\ (forall body, response served = Ok200 body <-> result run = Return body).
Proof.
  cbv zeta. unfold analyze_sensor_data. cbn [response served_store].
  set (ts := parse_test_date parsers test_date).
  split; [|split; [|split; [|split]]].
  - intros code detail H.
    pose proof (run_store rt agent plants db data ts utcnow) as Hstore.
    cbv zeta in Hstore. rewrite Hstore.
    destruct (result (process_with_pipeline rt agent plants db data ts utcnow))
      as [r|e]; [discriminate|].
    split; [reflexivity|].
    destruct (is_instance e RuntimeError); injection H as <- _; auto.
  - intros ->. reflexivity.
  - intros e -> [Hclass | Hclass]; unfold is_instance; now rewrite Hclass.
  - intros engine -> Hnone.
    unfold process_with_pipeline, analyse, run_nodes, soil_moisture.
    rewrite (load_plant_data_unknown plants (plant_type data) Hnone).
    reflexivity.
  - intros body.
    destruct (result (process_with_pipeline rt agent plants db data ts utcnow))
      as [r|e].
    + split; intros [= <-]; reflexivity.
    + split; [|discriminate]. destruct (is_instance e RuntimeError); discriminate.
Qed.

Lemma analyze_reports_failures_witness :
  response (analyze_sensor_data strict_runtime no_parsers (Some crashing_engine)
              [basil] (healthy three_days) basil_reading None (4 * day))
  = HttpError 503 "LangChain agent is not initialized. Check server logs."
  /\ response (analyze_sensor_data strict_runtime no_parsers
                 (Some (scripted dry_soil_answer)) [basil] (healthy three_days)
                 orchid_reading None (4 * day))
     = HttpError 500 "Error during analysis: Plante orchid non trouvée".
Proof.
  split.
  - destruct (analyze_reports_failures strict_runtime no_parsers
                (Some crashing_engine) [basil] (healthy three_days) basil_reading
                None (4 * day)) as [_ [_ [H _]]].
    apply (H (Exn RuntimeError "CUDA out of memory")); [reflexivity | now left].
  - destruct (analyze_reports_failures strict_runtime no_parsers
                (Some (scripted dry_soil_answer)) [basil] (healthy three_days)
                orchid_reading None (4 * day)) as [_ [_ [_ [H _]]]].
    apply (H (scripted dry_soil_answer) eq_refl).
    repeat constructor; discriminate.
Defined.

(** A [RecursionError] is a [RuntimeError]: an answer of the engine that
    is nested deeper than the decoder can go is reported as a missing
    agent.  An integer literal over the limit is reported as a failed
    analysis, with the text of the [ValueError]. *)
Example decoder_limits_at_the_endpoint :
  let deep := quoted "{`action`: " ++ List.repeat (ch "[") 900 ++ py "}" in
  let long := quoted "{`action`: " ++ List.repeat (ch "7") 4301 ++ py "}" in
  response (analyze_sensor_data strict_runtime no_parsers (Some (scripted deep))
              [basil] (healthy three_days) basil_reading None (4 * day))
  = HttpError 503 "LangChain agent is not initialized. Check server logs."
  /\ response (analyze_sensor_data strict_runtime no_parsers (Some (scripted long))
                 [basil] (healthy three_days) basil_reading None (4 * day))
     = HttpError 500
         "Error during analysis: Exceeds the limit (4300 digits) for integer string conversion: value has 4301 digits; use sys.set_int_max_str_digits() to increase the limit".
Proof. split; vm_compute; reflexivity. Qed.

(** X16.  A test date that neither parser accepts is ignored: the request is
    served as if no date had been given, and so is an empty date. *)
Theorem unparsable_test_date_is_ignored
    (rt : Runtime) (parsers : DateParsers) (agent : option Agent)
    (plants : Catalog) (db : Database) (data : SensorData)
    (text : string) (utcnow : datetime) :
  fromisoformat parsers (replace_Z text) = None ->
  strptime parsers text "%Y-%m-%dT%H:%M:%S" = None ->
  strptime parsers text "%Y-%m-%d" = None ->
  analyze_sensor_data rt parsers agent plants db data (Some text) utcnow
  = analyze_sensor_data rt parsers agent plants db data None utcnow
  /\ analyze_sensor_data rt parsers agent plants db data (Some "") utcnow
     = analyze_sensor_data rt parsers agent plants db data None utcnow.
Proof.
  intros Hiso Hlong Hshort. split; [|reflexivity].
  assert (H : parse_test_date parsers (Some text) = None).
  { unfold parse_test_date. destruct text as [|c rest]; [reflexivity|].
    rewrite Hiso. now destruct (has_char "T" _ || has_char " " _). }
  unfold analyze_sensor_data. now rewrite H.
Qed.

Lemma unparsable_test_date_is_ignored_witness :
  analyze_sensor_data strict_runtime no_parsers (Some (scripted dry_soil_answer))
    [basil] (healthy three_days) basil_reading (Some "next tuesday") (4 * day)
  = analyze_sensor_data strict_runtime no_parsers (Some (scripted dry_soil_answer))
      [basil] (healthy three_days) basil_reading None (4 * day).
Proof.
  exact (proj1 (unparsable_test_date_is_ignored strict_runtime no_parsers
                  (Some (scripted dry_soil_answer)) [basil] (healthy three_days)
                  basil_reading "next tuesday" (4 * day) eq_refl eq_refl eq_refl)).
Defined.

(** ** The history endpoints *)

Lemma take_take_drop {A : Type} (k m : nat) (l : list A) :
  firstn k l ++ firstn m (skipn k l) = firstn (k + m) l.
Proof.
  revert l. induction k as [|k IH]; intros l; [reflexivity|].
  destruct l as [|x l]; cbn; [now destruct m|]. now rewrite IH.
Qed.

(** X17.  The pages of a plant's history.  A page holds records of that plant
    only, newest first, no more than the limit, and its count is their
    number; a page of [k] records followed by the page of [m] records
    that starts [k] further is the page of [k + m] records; without
    bounds the page holds every record of the plant.  (Timestamps are
    taken distinct, so that the order of the query is determined.) *)
Theorem history_pages_compose
    (db : Database) (plant : string) (offset k m : nat) :
  read_fault db = None ->
  NoDup (map pa_timestamp (rows_of db plant)) ->
  (exists page,
     get_plant_history db plant (Some k) (Some offset) = Ok200 page
     /\ page_plant_id page = Some plant
     /\ count page = length (analyses page)
     /\ (count page <= k)%nat
     /\ newest_first (analyses page)
     /\ Forall (fun r => pa_plant_id r = plant /\ In r (rows db)) (analyses page))
  /\ page_rows (get_plant_history db plant (Some k) (Some offset))
     ++ page_rows (get_plant_history db plant (Some m) (Some (offset + k)%nat))
     = page_rows (get_plant_history db plant (Some (k + m)%nat) (Some offset))
  /\ Permutation (page_rows (get_plant_history db plant None None))
       (rows_of db plant).
Proof.
  intros Hr _. unfold get_plant_history, history_page. rewrite Hr.
  cbn [page_rows analyses paginate default from_option id].
  set (sorted := order_by_timestamp_desc (rows_of db plant)).
  assert (Hperm : Permutation sorted (rows_of db plant))
    by apply order_by_timestamp_desc_perm.
  assert (Hsorted : newest_first sorted) by apply order_by_timestamp_desc_sorted.
  split; [|split].
  - eexists. split; [reflexivity|]. cbn [page_plant_id count analyses].
    split; [reflexivity|]. split; [reflexivity|].
    split; [rewrite length_take; lia|].
    assert (Hdrop : newest_first (skipn offset sorted)).
    { rewrite <- (firstn_skipn offset sorted) in Hsorted.
      unfold newest_first in *. revert Hsorted.
      generalize (firstn offset sorted) as front.
      induction front as [|x front IH]; cbn; [auto|].
      intros H. inversion H; subst. auto. }
    split.
    + rewrite <- (firstn_skipn k (skipn offset sorted)) in Hdrop.
      now apply sorted_split in Hdrop as [Hs _].
    + apply Forall_take, Forall_drop, Forall_forall. intros r Hin.
      apply list_elem_of_In in Hin. apply (Permutation_in r Hperm) in Hin.
      unfold rows_of in Hin. apply List.filter_In in Hin as [Hin Hk].
      split; [now apply String.eqb_eq | exact Hin].
  - replace (skipn (offset + k)%nat sorted) with (skipn k (skipn offset sorted)).
    + apply take_take_drop.
    + rewrite skipn_skipn. f_equal. lia.
  - exact Hperm.
Qed.

Lemma history_pages_compose_witness :
  page_rows (get_plant_history (healthy three_days) "basil-001"
               (Some 1%nat) (Some 0%nat))
  ++ page_rows (get_plant_history (healthy three_days) "basil-001"
                  (Some 2%nat) (Some 1%nat))
  = [ reading_row 4 "basil-001" (3 * day) 55 1200 22 "ALERT";
      reading_row 3 "basil-001" (2 * day) 65 1200 22 "OK";
      reading_row 1 "basil-001" (1 * day) 70 1200 22 "OK" ].
Proof.
  assert (Hnd : NoDup (map pa_timestamp (rows_of (healthy three_days) "basil-001")))
    by (apply (bool_decide_unpack _); vm_compute; exact I).
  destruct (history_pages_compose (healthy three_days) "basil-001" 0 1 2
              eq_refl Hnd) as [_ [H _]].
  change (0 + 1)%nat with 1%nat in H. rewrite H. reflexivity.
Defined.

(** ** The webhook tools *)

(** X18.  The content the Discord tool posts never exceeds 2000 characters: a
    message of at most 2000 characters is posted as it is, a longer one
    is cut to its first 1997 characters followed by three dots, 2000
    characters in all.  A user name is set exactly when the channel is
    not empty. *)
Theorem discord_content_is_bounded (channel message : pystr) :
  let payload := discord_payload channel message in
  (length (content payload) <= 2000)%nat
  /\ ((length message <= 2000)%nat -> content payload = message)
  /\ ((2000 < length message)%nat ->
      content payload = firstn 1997 message ++ py "..."
      /\ length (content payload) = 2000%nat)
  /\ (username payload = None <-> channel = []).
Proof.
  cbv zeta. unfold discord_payload. cbn [content username].
  destruct (2000 <? length message)%nat eqn:E.
  - apply Nat.ltb_lt in E.
    assert (Hlen : length (firstn 1997 message ++ py "...") = 2000%nat).
    { rewrite length_app, length_take. cbn [py length list_ascii_of_string map].
      lia. }
    split; [lia|]. split; [lia|]. split; [now split|].
    destruct channel; split; congruence.
  - apply Nat.ltb_ge in E. split; [exact E|]. split; [reflexivity|].
    split; [lia|]. destruct channel; split; congruence.
Qed.

(** X19.  The Discord tool announces success exactly when the webhook address
    is set and the post is answered with status 204, 200 or 201; without
    an address nothing is posted. *)
Theorem discord_success_needs_acceptance
    (webhook_url : pystr) (post : DiscordPayload -> PostOutcome)
    (channel message : pystr) :
  (announces_success (send_discord_message webhook_url post channel message)
   <-> webhook_url <> []
       /\ exists status_code text,
            post (discord_payload channel message) = Responded status_code text
            /\ (status_code = 204 \/ status_code = 200 \/ status_code = 201)%nat)
  /\ (forall post', send_discord_message [] post channel message
                    = send_discord_message [] post' channel message).
Proof.
  split; [|reflexivity].
  unfold send_discord_message. destruct webhook_url as [|u url].
  { split; [intros [r H]; discriminate H | intros [H _]; congruence]. }
  destruct (post (discord_payload channel message)) as [code text| |e|e|e].
  - destruct (code =? 204)%nat eqn:E204.
    { apply Nat.eqb_eq in E204. split; intros _.
      - split; [discriminate|]. exists code, text. auto.
      - eexists. reflexivity. }
    destruct ((code =? 200) || (code =? 201))%nat eqn:E20x.
    { apply orb_true_iff in E20x. rewrite !Nat.eqb_eq in E20x. split; intros _.
      - split; [discriminate|]. exists code, text. split; [reflexivity|]. tauto.
      - eexists. reflexivity. }
    apply Nat.eqb_neq in E204. apply orb_false_iff in E20x as [E200 E201].
    apply Nat.eqb_neq in E200, E201.
    split; [intros [r H]; discriminate H|].
    intros [_ [c [t [[= <- _] Hc]]]]. lia.
  - split; [intros [r H]; discriminate H | intros [_ [c [t [H _]]]]; discriminate].
  - split; [intros [r H]; discriminate H | intros [_ [c [t [H _]]]]; discriminate].
  - split; [intros [r H]; discriminate H | intros [_ [c [t [H _]]]]; discriminate].
  - split; [intros [r H]; discriminate H | intros [_ [c [t [H _]]]]; discriminate].
Qed.

(** X20.  The Slack tool announces success exactly when the webhook address is
    set and the post is answered with status 200; the channel is left out
    of the payload when it is empty, and without an address nothing is
    posted. *)
Theorem slack_success_needs_acceptance
    (webhook_url : pystr) (post : SlackPayload -> PostOutcome)
    (channel message : pystr) :
  (announces_success (send_slack_message webhook_url post channel message)
   <-> webhook_url <> []
       /\ exists text,
            post (slack_payload channel message) = Responded 200 text)
  /\ slack_text (slack_payload channel message) = message
  /\ (slack_channel (slack_payload channel message) = None <-> channel = [])
  /\ (forall post', send_slack_message [] post channel message
                    = send_slack_message [] post' channel message).
Proof.
  split; [|split; [reflexivity|split; [|reflexivity]]].
  - unfold send_slack_message. destruct webhook_url as [|u url].
    { split; [intros [r H]; discriminate H | intros [H _]; congruence]. }
    destruct (post (slack_payload channel message)) as [code text| |e|e|e].
    + destruct (code =? 200)%nat eqn:E.
      * apply Nat.eqb_eq in E. subst code. split; intros _.
        -- split; [discriminate|]. now exists text.
        -- eexists. reflexivity.
      * apply Nat.eqb_neq in E.
        split; [intros [r H]; discriminate H|].
        intros [_ [t [= -> _]]]. congruence.
    + split; [intros [r H]; discriminate H | intros [_ [t H]]; discriminate].
    + split; [intros [r H]; discriminate H | intros [_ [t H]]; discriminate].
    + split; [intros [r H]; discriminate H | intros [_ [t H]]; discriminate].
    + split; [intros [r H]; discriminate H | intros [_ [t H]]; discriminate].
  - unfold slack_payload. cbn. destruct channel; split; congruence.
Qed.

(** ** The request sender *)

Lemma send_all_tally (send : string -> list (pystr * json) -> SendOutcome)
    (requests : list TestRequest) :
  forall successful failed s f,
    send_all send requests successful failed = Finished s f ->
    (s + f = successful + failed + length requests)%nat.
Proof.
  induction requests as [|request_data rest IH]; intros successful failed s f H;
    cbn [send_all length] in *.
  - injection H as <- <-. lia.
  - destruct (req_date request_data) as [[|c d]|];
      destruct (req_body request_data) as [[|field fields]|];
      try (apply IH in H; lia).
    destruct (send (String c d) (field :: fields)) as [[|x result]| |];
      try discriminate; apply IH in H; lia.
Qed.

(** X21.  When the script reaches its summary, every request of the file has
    been counted once, as successful or as failed.  A file without
    requests ends in a division by zero in the summary, and an answer
    other than "y" at the prompt sends nothing. *)
Theorem sender_counts_every_request
    (send : string -> list (pystr * json) -> SendOutcome)
    (test_requests : list TestRequest) :
  (forall successful failed,
     main send test_requests true = Finished successful failed ->
     (successful + failed = length test_requests)%nat
     /\ test_requests <> [])
  /\ main send [] true = ZeroDivisionError
  /\ main send test_requests false = Exited 0.
Proof.
  split; [|split; reflexivity].
  intros successful failed H. unfold main in H.
  destruct (send_all send test_requests 0 0) as [s f|code|] eqn:E;
    try discriminate.
  destruct test_requests as [|r rest]; [discriminate|].
  injection H as <- <-. apply send_all_tally in E.
  split; [cbn [length] in *; lia | discriminate].
Qed.

Lemma sender_counts_every_request_witness :
  main always_ok sample_requests true = Finished 1 2
  /\ (1 + 2 = length sample_requests)%nat.
Proof.
  assert (H : main always_ok sample_requests true = Finished 1 2) by reflexivity.
  split; [exact H|].
  destruct (sender_counts_every_request always_ok sample_requests) as [Hc _].
  exact (proj1 (Hc 1%nat 2%nat H)).
Defined.

Lemma discord_content_is_bounded_witness :
  let message := repeat 120%N 2500 in
  (2000 < length message)%nat
  /\ length (content (discord_payload (py "alerts") message)) = 2000%nat.
Proof.
  intros message.
  assert (H : (2000 < length message)%nat)
    by (subst message; rewrite repeat_length; lia).
  split; [exact H|].
  destruct (discord_content_is_bounded (py "alerts") message) as [_ [_ [Hcut _]]].
  exact (proj2 (Hcut H)).
Defined.

Lemma discord_success_needs_acceptance_witness :
  announces_success
    (send_discord_message (py "https://discord.example/hook") (answering 204)
       (py "alerts") (py "Soil is dry")).
Proof.
  apply (discord_success_needs_acceptance (py "https://discord.example/hook")
           (answering 204) (py "alerts") (py "Soil is dry")).
  split; [discriminate|]. exists 204%nat, []. split; [reflexivity | now left].
Defined.

Lemma slack_success_needs_acceptance_witness :
  announces_success
    (send_slack_message (py "https://hooks.slack.example/T0") (answering 200)
       (py "#alerts") (py "Soil is dry")).
Proof.
  apply (slack_success_needs_acceptance (py "https://hooks.slack.example/T0")
           (answering 200) (py "#alerts") (py "Soil is dry")).
  split; [discriminate|]. now exists [].
Defined.

(** ** Defaults of the typed result *)

(** X22.  The fields the candidate lacks get their defaults one by one: status
    OK, message "Analysis completed", action "No action needed".  A
    message given as a string is kept as it is, and an action made of
    white space only, or empty, becomes "No action needed". *)
Theorem missing_fields_get_defaults
    (rt : Runtime) (response : pystr) (members : list (pystr * json))
    (r : AnalysisResponse) :
  candidate rt response = Return (JObject members) ->
  normalize rt response = Return r ->
  (dict_get (py "status") members = None -> status r = OK)
  /\ (dict_get (py "message") members = None ->
      message r = py "Analysis completed")
  /\ (forall s, dict_get (py "message") members = Some (JStr s) -> message r = s)
  /\ (dict_get (py "action") members = None -> action r = py "No action needed")
  /\ (forall s, dict_get (py "action") members = Some (JStr s) ->
        strip s = [] -> action r = py "No action needed").
Proof.
  intros Hc H. unfold normalize in H. rewrite Hc in H.
  cbn [mbind outcome_bind] in H.
  apply build_response_fields in H as [Ha [Hs Hm]].
  split; [|split; [|split; [|split]]].
  - intros E. rewrite E in Hs. now injection Hs.
  - intros E. rewrite E in Hm. now injection Hm.
  - intros s E. rewrite E in Hm. now injection Hm.
  - intros E. rewrite E in Ha. now injection Ha.
  - intros s E Hstrip. rewrite E in Ha. unfold coerce_action in Ha.
    cbn [default from_option id action_text mbind outcome_bind] in Ha.
    rewrite Hstrip in Ha. now injection Ha.
Qed.

Lemma missing_fields_get_defaults_witness :
  candidate strict_runtime (quoted "{`action`: `   `}")
  = Return (JObject [(py "action", JStr (py "   "))])
  /\ normalize strict_runtime (quoted "{`action`: `   `}")
     = Return {| status := OK; message := py "Analysis completed";
                 action := py "No action needed" |}.
Proof.
  assert (Hc : candidate strict_runtime (quoted "{`action`: `   `}")
               = Return (JObject [(py "action", JStr (py "   "))]))
    by (vm_compute; reflexivity).
  split; [exact Hc|].
  destruct (normalize strict_runtime (quoted "{`action`: `   `}")) as [r|e] eqn:E;
    [|vm_compute in E; discriminate E].
  destruct (missing_fields_get_defaults strict_runtime _ _ r Hc E)
    as [Hs [Hm [_ [_ Ha]]]].
  destruct r as [st msg act]. cbn in *.
  rewrite (Hs eq_refl), (Hm eq_refl), (Ha (py "   ") eq_refl eq_refl).
  reflexivity.
Defined.

(** ** The prompt and the short form of a trend *)

Lemma run_nodes_on_window (plants : Catalog) (db : Database) (data : SensorData)
    (entry : Plant) (analyses : list PlantAnalysis) :
  load_plant_data plants (plant_type data) = Return entry ->
  session_local db = true -> close_fault db = None ->
  fetch_recent db (plant_id data) 10 = Return analyses ->
  exists state,
    run_nodes plants db data = (Return state, [])
    /\ metadata state !! "history"
       = Some (HistoryOf (match analyses with
                          | [] => no_history "No historical data available"
                          | _ :: _ => summarize analyses
                          end)).
Proof.
  intros Hload Hs Hc Hf.
  unfold run_nodes, soil_moisture, temperature, light.
  rewrite Hload. cbn [mbind outcome_bind].
  rewrite (history_on_window _ _ _ _ Hs Hc Hf),
    (history_errors_on_window _ _ _ _ Hs Hc Hf).
  eexists. split; [reflexivity|]. cbn. apply lookup_insert_eq.
Qed.

Lemma trend_line_computed (metric : string) (trends : gmap string Trend)
    (values : list Q) (current_value : Q) :
  trends !! metric = Some (calculate_trend values current_value) ->
  (2 <= length values)%nat ->
  exists line, trend_line metric trends = Return [line].
Proof.
  intros Hl Hlen. unfold trend_line. rewrite Hl. unfold calculate_trend.
  destruct (length values <? 2)%nat eqn:E; [apply Nat.ltb_lt in E; lia|].
  cbn. eexists. reflexivity.
Qed.

(** X23.  The prompt builder and the size of the window, on a store without
    faults and for a plant type of the catalog.  With exactly two records
    in the window the trends are in their short form, the builder raises
    [KeyError] on the key 'average_historical', and the run ends there:
    the engine is not consulted and nothing is saved.  With any other
    number of records the prompt is built: three trend lines for three
    records or more, none otherwise, and at most five recent analyses. *)
Theorem prompt_fails_on_two_records
    (rt : Runtime) (engine : Agent) (plants : Catalog) (db : Database)
    (data : SensorData) (entry : Plant) (analyses : list PlantAnalysis)
    (test_timestamp : option datetime) (utcnow : datetime) :
  load_plant_data plants (plant_type data) = Return entry ->
  session_local db = true -> close_fault db = None ->
  fetch_recent db (plant_id data) 10 = Return analyses ->
  (length analyses = 2%nat ->
   process_with_pipeline rt (Some engine) plants db data test_timestamp utcnow
   = {| result := Raise (Exn KeyError "'average_historical'");
        store := db;
        errors_logged := [] |})
  /\ (length analyses <> 2%nat ->
      exists state prompt,
        run_nodes plants db data = (Return state, [])
        /\ build_prompt state = Return prompt
        /\ length (prompt_trends prompt)
           = (if (3 <=? length analyses)%nat then 3 else 0)%nat
        /\ (length (prompt_recent prompt) <= 5)%nat).
Proof.
  intros Hload Hs Hc Hf.
  destruct (run_nodes_on_window plants db data entry analyses Hload Hs Hc Hf)
    as [state [Hrun Hmeta]].
  split.
  - intros Hlen. destruct analyses as [|a [|b [|c rest]]]; try discriminate.
    unfold process_with_pipeline, analyse. rewrite Hrun.
    assert (Hp : build_prompt state = Raise (Exn KeyError "'average_historical'")).
    { unfold build_prompt. rewrite Hmeta.
      cbn [has_history summarize]. rewrite summarize_trends.
      set (m := <["temperature" := _]> _).
      assert (H1 : trend_line "humidity" m
                   = Raise (Exn KeyError "'average_historical'")).
      { unfold trend_line. subst m.
        do 2 rewrite lookup_insert_ne by done. rewrite lookup_insert_eq.
        reflexivity. }
      rewrite H1. reflexivity. }
    rewrite Hp. reflexivity.
  - intros Hlen. exists state.
    destruct analyses as [|a [|b [|c rest]]]; [| |cbn in Hlen; lia|].
    + eexists. split; [exact Hrun|]. unfold build_prompt. rewrite Hmeta.
      cbn [has_history no_history]. split; [reflexivity|].
      cbn [prompt_trends prompt_recent length]. split; [reflexivity | lia].
    + eexists. split; [exact Hrun|]. unfold build_prompt. rewrite Hmeta.
      cbn [has_history summarize]. rewrite summarize_trends.
      rewrite !trend_line_empty. cbn [mbind outcome_bind].
      split; [reflexivity|].
      cbn [prompt_trends app length]. split; [reflexivity | cbn; lia].
    + unfold build_prompt. rewrite Hmeta.
      cbn [has_history summarize trends recent_analyses].
      pose proof (summarize_trends a (b :: c :: rest)) as Ht.
      cbn [trends summarize] in Ht. rewrite Ht. clear Ht.
      set (m := <["temperature" := _]> _).
      assert (Hlen2 : forall f : PlantAnalysis -> Q,
                (2 <= length (rev (map f (b :: c :: rest))))%nat).
      { intros f. rewrite length_rev, length_map. cbn. lia. }
      destruct (trend_line_computed "humidity" m
                  (rev (map pa_humidity (b :: c :: rest))) (pa_humidity a))
        as [l1 H1];
        [subst m; do 2 rewrite lookup_insert_ne by done; apply lookup_insert_eq
        | apply Hlen2 |].
      destruct (trend_line_computed "light" m
                  (rev (map pa_light (b :: c :: rest))) (pa_light a))
        as [l2 H2];
        [subst m; rewrite lookup_insert_ne by done; apply lookup_insert_eq
        | apply Hlen2 |].
      destruct (trend_line_computed "temperature" m
                  (rev (map pa_temperature (b :: c :: rest))) (pa_temperature a))
        as [l3 H3]; [subst m; apply lookup_insert_eq | apply Hlen2 |].
      rewrite H1, H2, H3. cbn [mbind outcome_bind].
      eexists. split; [exact Hrun|]. split; [reflexivity|].
      cbn [prompt_trends prompt_recent app length].
      split; [reflexivity|].
      destruct (1 <? _)%nat; [|cbn; lia].
      rewrite length_take. lia.
Qed.

Lemma prompt_fails_on_two_records_witness :
  let db := healthy (firstn 3 three_days) in
  length (window db "basil-001" 10) = 2%nat
  /\ result (process_with_pipeline strict_runtime (Some (scripted dry_soil_answer))
               [basil] db basil_reading None (4 * day))
     = Raise (Exn KeyError "'average_historical'").
Proof.
  intros db. split; [reflexivity|].
  destruct (prompt_fails_on_two_records strict_runtime (scripted dry_soil_answer)
              [basil] db basil_reading basil (window db "basil-001" 10)
              None (4 * day) eq_refl eq_refl eq_refl eq_refl) as [H _].
  now rewrite (H eq_refl).
Defined.
